(** * pyMission: segment assembly and multipoint aggregation

    A shallow embedding of [src/pyMission/segment.py] and
    [src/pyMission/multipoint.py].

    The two files assemble an OpenMDAO model: they instantiate components,
    wire connections, register the unknowns of a Newton solver, promote
    boundary variables, fix the iteration hierarchy and, in the multipoint
    script, reduce the per-leg fuel burns gathered over MPI.  The assembly is
    embedded as a state-and-exception monad over an explicit record of the
    model under construction.

    A finite Python float is embedded as the rational it denotes ([Q]).
    [np.linspace], whose values are stated below, is computed with the
    rounding of IEEE binary64 arithmetic (module [Float]); the remaining
    float arithmetic of the two scripts stands for the exact operation, and
    a decimal literal such as [1e-9] for the rational it denotes.  The fuel
    burns that the report compares are floats that may be infinite or NaN
    ([Py.pyfloat]). *)

From Stdlib Require Import ZArith QArith Qabs Qpower Lqa Bool Ascii String Lia.
From stdpp Require Import base option gmap strings list.

Set Warnings "-register-all".

(* ===================================================================== *)
(** ** Python values and exceptions *)
(* ===================================================================== *)

(** A one-dimensional numpy array of floats. *)
Abbreviation vector := (list Q).

Module Py.

(** The exceptions the two files can meet. *)
Inductive exn :=
  | IOError
  | KeyError (key : string)
  | TypeError
  | AttributeError (name : string)
  | IndexError
  | ValueError
  | RuntimeError (msg : string).

(** A computation either returns or raises. *)
Inductive result (A : Type) :=
  | Ok (a : A)
  | Raise (e : exn).
Arguments Ok {A} a.
Arguments Raise {A} e.

Definition is_ok {A} (r : result A) : bool :=
  match r with Ok _ => true | Raise _ => false end.

Definition rbind {A B} (r : result A) (k : A -> result B) : result B :=
  match r with
  | Ok a => k a
  | Raise e => Raise e
  end.

(** A two-dimensional numpy array: the shape and the rows. *)
Record matrix := Mat {
  nrows : nat;
  ncols : nat;
  rows : list vector
}.

(** Dynamically typed values: what is stored in attributes, keyword
    arguments and dictionaries. *)
Inductive value :=
  | VNone
  | VBool (b : bool)
  | VInt (z : Z)
  | VFloat (q : Q)
  | VStr (s : string)
  | VArray (a : vector)
  | VMatrix (m : matrix)
  | VDict (d : gmap string value).

(** [d[k]] for a string [k]: a dictionary is looked up; a numpy array has
    no such index (IndexError); [None], a number and a string cannot be
    subscripted by a string (TypeError). *)
Definition getitem (d : value) (k : string) : result value :=
  match d with
  | VDict m =>
      match m !! k with
      | Some v => Ok v
      | None => Raise (KeyError k)
      end
  | VArray _ | VMatrix _ => Raise IndexError
  | VNone | VBool _ | VInt _ | VFloat _ | VStr _ => Raise TypeError
  end.

(** [seq[i]] on a list or tuple, for a non-negative index. *)
Definition index {A} (l : list A) (i : nat) : result A :=
  match l !! i with
  | Some x => Ok x
  | None => Raise IndexError
  end.

(** A float as a comparison sees it: a finite double, an infinity, or NaN
    (what a leg that diverged can leave in its fuel burn). *)
Inductive pyfloat :=
  | Finite (q : Q)
  | PosInf
  | NegInf
  | NaN.

Definition is_nan (x : pyfloat) : bool :=
  match x with NaN => true | _ => false end.

(** [x > y]: false whenever one of the two is NaN. *)
Definition float_gt (x y : pyfloat) : bool :=
  match x, y with
  | NaN, _ | _, NaN => false
  | PosInf, PosInf => false
  | PosInf, _ => true
  | _, PosInf => false
  | NegInf, _ => false
  | Finite _, NegInf => true
  | Finite a, Finite b => negb (Qle_bool a b)
  end.

(** [x <= y] and [x == y], false as well whenever one of the two is NaN. *)
Definition float_le (x y : pyfloat) : Prop :=
  match x, y with
  | NaN, _ | _, NaN => False
  | NegInf, _ => True
  | _, PosInf => True
  | Finite a, Finite b => (a <= b)%Q
  | _, _ => False
  end.

Definition float_eq (x y : pyfloat) : Prop :=
  match x, y with
  | Finite a, Finite b => (a == b)%Q
  | PosInf, PosInf => True
  | NegInf, NegInf => True
  | _, _ => False
  end.

(** [max(a, b)] and [max(a, b, c)]: the items are visited from left to
    right, and the running maximum is replaced only by an item that compares
    greater than it. *)
Definition max2 (a b : pyfloat) : pyfloat :=
  if float_gt b a then b else a.

Definition max3 (a b c : pyfloat) : pyfloat := max2 (max2 a b) c.

End Py.

Export Py(exn(..), result(..), value(..), matrix(..), nrows, ncols, rows,
          pyfloat(..)).

#[global] Instance result_ret : MRet Py.result := @Py.Ok.
#[global] Instance result_bind : MBind Py.result :=
  fun A B k r => Py.rbind r k.

(* ===================================================================== *)
(** ** Double-precision arithmetic *)
(* ===================================================================== *)

(** IEEE 754 binary64 with rounding to nearest, ties to even, on the finite
    doubles of the normal range: a double is the rational it denotes, and
    an operation is the exact one followed by [round].  Overflow and
    subnormal numbers are left out (the exponent is unbounded). *)
Module Float.

(** The integer nearest to [p / d], the even one of the two on a tie. *)
Definition rne (p : Z) (d : positive) : Z :=
  let q := (p / Zpos d)%Z in
  let r := (p mod Zpos d)%Z in
  match (2 * r ?= Zpos d)%Z with
  | Lt => q
  | Gt => (q + 1)%Z
  | Eq => if Z.even q then q else (q + 1)%Z
  end.

(** The exponent [E] of the last of the 53 bits of [x <> 0]:
    [2^52 <= |x| / 2^E < 2^53]. *)
Definition exponent (x : Q) : Z :=
  let e := (Z.log2 (Z.abs (Qnum x)) - Z.log2 (Zpos (Qden x)))%Z in
  if Qle_bool (2 ^ e) (Qabs x) then (e - 52)%Z else (e - 53)%Z.

(** The double nearest to [x]. *)
Definition round (x : Q) : Q :=
  let x := Qred x in
  if Qeq_bool x 0 then 0%Q
  else
    let E := exponent x in
    let y := (x / 2 ^ E)%Q in
    Qred (inject_Z (rne (Qnum y) (Qden y)) * 2 ^ E).

Definition add (x y : Q) : Q := round (x + y).
Definition sub (x y : Q) : Q := round (x - y).
Definition mul (x y : Q) : Q := round (x * y).
Definition div (x y : Q) : Q := round (x / y).

(** [float(z)] *)
Definition of_Z (z : Z) : Q := round (inject_Z z).

(** The unit roundoff [2^-53]. *)
Definition u : Q := 1 # 9007199254740992.

End Float.

(* ===================================================================== *)
(** ** numpy *)
(* ===================================================================== *)

Module Numpy.

Import Py.


(** [np.arange(0, n)] as floats. *)
Definition arange (n : nat) : vector :=
  map (fun i => Float.of_Z (Z.of_nat i)) (seq 0 n).

(** [y[-1] = v] on a non-empty array. *)
Definition set_last (y : vector) (v : Q) : vector :=
  <[Nat.pred (length y) := v]> y.

(** [np.linspace(start, stop, num)] with the default [endpoint=True], as
    numpy computes it in doubles: nothing for [num <= 0] (the numpy of the
    time of the source; later versions refuse a negative [num]), [start]
    alone for [num = 1], and otherwise [arange(0, num) * step + start] with
    [step = (stop - start) / (num - 1)], each operation rounded, and the
    last entry overwritten by [stop]. *)
Definition linspace (start stop : Q) (num : Z) : vector :=
  if (num <=? 0)%Z then []
  else if (num =? 1)%Z then [start]
  else
    let step := Float.div (Float.sub stop start) (Float.of_Z (num - 1)) in
    let y := map (fun a => Float.add (Float.mul a step) start)
                 (arange (Z.to_nat num)) in
    set_last y stop.

(** Inner product of two equally long vectors. *)
Fixpoint vdot (u v : vector) : Q :=
  match u, v with
  | a :: u', b :: v' => (a * b + vdot u' v')%Q
  | _, _ => 0%Q
  end.

(** Column [j] of [A]. *)
Definition column (A : matrix) (j : nat) : vector :=
  map (fun r => nth j r 0%Q) (rows A).

(** [A.T] *)
Definition transpose (A : matrix) : matrix :=
  Mat (ncols A) (nrows A) (map (column A) (seq 0 (ncols A))).

(** [A.dot(b)] for a vector [b]: the shapes must agree. *)
Definition mat_vec (A : matrix) (b : vector) : result vector :=
  if Nat.eqb (ncols A) (length b)
  then Ok (map (fun r => vdot r b) (rows A))
  else Raise ValueError.

(** [A.dot(B)] for a matrix [B]: the shapes must agree. *)
Definition mat_mul (A B : matrix) : result matrix :=
  if Nat.eqb (ncols A) (nrows B)
  then Ok (Mat (nrows A) (ncols B)
             (map (fun r => map (fun j => vdot r (column B j))
                                (seq 0 (ncols B))) (rows A)))
  else Raise ValueError.

End Numpy.

(* ===================================================================== *)
(** ** Linear systems, entry by entry *)
(* ===================================================================== *)

(** The terms in which the fit of the altitude control points is stated:
    sums over indices, written without the array operations of [Numpy]. *)
Module LeastSquares.





End LeastSquares.

(* ===================================================================== *)
(** ** The OpenMDAO assembly interface used by the two files *)
(* ===================================================================== *)

Module OpenMDAO.

(** A component instance: its class, the keyword arguments it was built
    with, and the attributes assigned on it afterwards. *)
Record component := Component {
  cls : string;
  kwargs : list (string * value);
  cattrs : gmap string value
}.

(** A driver: its class, its workflow (the ordered steps it runs), the
    parameters and constraints registered with it, and its settings, keyed by
    dotted attribute path. *)
Record driver := Driver {
  dcls : string;
  workflow : list string;
  parameters : list string;
  constraints : list string;
  settings : gmap string value
}.

Definition new_driver (c : string) : driver :=
  Driver c [] [] [] ∅.

(** What [add] can put in an assembly: a boundary variable (with its default
    and its iotype), a component of type [C], or a driver. *)
Inductive child (C : Type) :=
  | Var (default : value) (iotype : string)
  | Comp (c : C)
  | Drv (d : driver).
Arguments Var {C} default iotype.
Arguments Comp {C} c.
Arguments Drv {C} d.

(** An assembly whose components have type [C]: instance attributes, children
    in the order they were added, connections [(source, destination)] in the
    order they were made, and passthroughs [(boundary name, inner path)]. *)
Record assembly (C : Type) := Assembly {
  attrs : gmap string value;
  children : list (string * child C);
  connections : list (string * string);
  passthroughs : list (string * string)
}.
Arguments Assembly {C} attrs children connections passthroughs.
Arguments attrs {C} a.
Arguments children {C} a.
Arguments connections {C} a.
Arguments passthroughs {C} a.

(** [Assembly.__init__]: nothing but the default driver, named [driver]. *)
Definition Assembly_init {C} : assembly C :=
  Assembly ∅ [("driver", Drv (new_driver "Driver"))] [] [].

(** *** Lookups *)

Fixpoint assoc {A} (k : string) (l : list (string * A)) : option A :=
  match l with
  | [] => None
  | (k', v) :: l' => if String.eqb k k' then Some v else assoc k l'
  end.

(** Replace the entry of [k], or append it when there is none. *)
Fixpoint assoc_set {A} (k : string) (v : A) (l : list (string * A))
  : list (string * A) :=
  match l with
  | [] => [(k, v)]
  | (k', v') :: l' =>
      if String.eqb k k' then (k, v) :: l' else (k', v') :: assoc_set k v l'
  end.

Definition get_driver {C} (a : assembly C) (name : string) : option driver :=
  match assoc name (children a) with
  | Some (Drv d) => Some d
  | _ => None
  end.

Definition get_component {C} (a : assembly C) (name : string) : option C :=
  match assoc name (children a) with
  | Some (Comp c) => Some c
  | _ => None
  end.

(** The names of the boundary variables made by [create_passthrough]. *)
Definition boundary_ports {C} (a : assembly C) : list string :=
  map fst (passthroughs a).

(** The part of a dotted path after its last dot. *)
Fixpoint basename_from (acc : string) (p : string) : string :=
  match p with
  | EmptyString => acc
  | String c p' =>
      if Ascii.eqb c "."%char then basename_from p' p'
      else basename_from acc p'
  end.

Definition basename (p : string) : string := basename_from p p.

(** *** The building monad: the assembly under construction is threaded
    through, and any step may raise. *)

Definition Build (C A : Type) : Type := assembly C -> result (A * assembly C).

#[global] Instance build_ret {C} : MRet (Build C) :=
  fun A x s => Ok (x, s).
#[global] Instance build_bind {C} : MBind (Build C) :=
  fun A B k m s =>
    match m s with
    | Ok (x, s') => k x s'
    | Raise e => Raise e
    end.

Definition raise {C A} (e : exn) : Build C A := fun _ => Raise e.

Definition lift {C A} (r : result A) : Build C A :=
  fun s => match r with Ok x => Ok (x, s) | Raise e => Raise e end.

Definition modify {C} (f : assembly C -> assembly C) : Build C unit :=
  fun s => Ok (tt, f s).

Definition get {C} : Build C (assembly C) := fun s => Ok (s, s).

(** Run a construction from a fresh assembly. *)
Definition construct {C} (m : Build C unit) : result (assembly C) :=
  match m Assembly_init with
  | Ok (_, s) => Ok s
  | Raise e => Raise e
  end.

(** [self.name = v] *)
Definition setattr {C} (name : string) (v : value) : Build C unit :=
  modify (fun s =>
    Assembly (<[name := v]> (attrs s)) (children s) (connections s)
             (passthroughs s)).

(** [self.add(name, obj)] *)
Definition add {C} (name : string) (obj : child C) : Build C unit :=
  modify (fun s =>
    Assembly (attrs s) (assoc_set name obj (children s)) (connections s)
             (passthroughs s)).

(** [self.connect(src, dst)]: a destination takes one source only. *)
Definition connect {C} (src dst : string) : Build C unit :=
  s ← get;
  if existsb (fun c => String.eqb (snd c) dst) (connections s)
  then raise (RuntimeError "already connected")
  else modify (fun s =>
    Assembly (attrs s) (children s) (connections s ++ [(src, dst)])
             (passthroughs s)).

(** [self.create_passthrough(path)]: a boundary variable named after the last
    part of [path], linked to [path]; the name must be free.  (Which way the
    link points follows the iotype the component class declares for the
    variable.) *)
Definition create_passthrough {C} (path : string) : Build C unit :=
  s ← get;
  let newname := basename path in
  if existsb (String.eqb newname) (map fst (children s) ++ boundary_ports s)
  then raise (KeyError newname)
  else modify (fun s =>
    Assembly (attrs s) (children s) (connections s)
             (passthroughs s ++ [(newname, path)])).

(** Update the driver called [name]. *)
Definition with_driver {C} (name : string) (f : driver -> driver)
  : Build C unit :=
  s ← get;
  match get_driver s name with
  | Some d => add name (Drv (f d))
  | None => raise (AttributeError name)
  end.

(** [self.<drv>.workflow.add([...])] *)
Definition workflow_add {C} (drv : string) (steps : list string)
  : Build C unit :=
  with_driver drv (fun d =>
    Driver (dcls d) (workflow d ++ steps) (parameters d) (constraints d)
           (settings d)).

(** [self.<drv>.add_parameter(target)] *)
Definition add_parameter {C} (drv : string) (target : string) : Build C unit :=
  with_driver drv (fun d =>
    Driver (dcls d) (workflow d) (parameters d ++ [target]) (constraints d)
           (settings d)).

(** [self.<drv>.add_constraint(expr)] *)
Definition add_constraint {C} (drv : string) (expr : string) : Build C unit :=
  with_driver drv (fun d =>
    Driver (dcls d) (workflow d) (parameters d) (constraints d ++ [expr])
           (settings d)).

(** [self.<drv>.<option> = v] *)
Definition set_option {C} (drv : string) (option : string) (v : value)
  : Build C unit :=
  with_driver drv (fun d =>
    Driver (dcls d) (workflow d) (parameters d) (constraints d)
           (<[option := v]> (settings d))).

(** [self.<comp>.<name> = v] on a plain component. *)
Definition set_component_attr (comp name : string) (v : value)
  : Build component unit :=
  s ← get;
  match get_component s comp with
  | Some c =>
      add comp (Comp (Component (cls c) (kwargs c) (<[name := v]> (cattrs c))))
  | None => raise (AttributeError comp)
  end.

(** [Cls(k1=v1, ...)] *)
Definition instance (c : string) (kw : list (string * value))
  : child component :=
  Comp (Component c kw ∅).

End OpenMDAO.

(* ===================================================================== *)
(** ** segment.py: [MissionSegment] *)
(* ===================================================================== *)

Module Segment.
Import OpenMDAO.

(** The arguments of [MissionSegment.__init__]. *)
Record init_args := InitArgs {
  num_elem : Z;
  num_cp : Z;
  x_pts : value;
  params_file : value;
  aero_surr : value;
  jac_h : value;
  jac_gamma : value
}.

(** [num_elem=10, num_cp=5] and [None] for the rest. *)
Definition default_args : init_args :=
  InitArgs 10 5 VNone VNone VNone VNone VNone.

Abbreviation segment := (assembly component).

(** The six keys read from the parameter mapping, in the order read. *)
Definition required_keys : list string :=
  ["S"; "ac_w"; "thrust_sl"; "SFCSL"; "AR"; "e"].

(** [self.name] *)
Definition getattr (name : string) : Build component value :=
  s ← get;
  match attrs s !! name with
  | Some v => mret v
  | None => raise (AttributeError name)
  end.

Section Init.

(** [execfile(path, data)] started on an empty [data]: the global names the
    file leaves in [data], or the exception met while opening or running it. *)
Variable execfile : value -> result (gmap string value).

(** Lines 69-78: load the parameter mapping and copy six of its entries. *)
Definition load_parameters (a : init_args) : Build component unit :=
  data ← lift (execfile (params_file a));
  params ← lift (Py.getitem (VDict data) "params");
  v ← lift (Py.getitem params "S"); setattr "S" v;;
  v ← lift (Py.getitem params "ac_w"); setattr "ac_w" v;;
  v ← lift (Py.getitem params "thrust_sl"); setattr "thrust_sl" v;;
  v ← lift (Py.getitem params "SFCSL"); setattr "SFCSL" v;;
  v ← lift (Py.getitem params "AR"); setattr "AR" v;;
  v ← lift (Py.getitem params "e"); setattr "oswald" v;;
  setattr "wt_pax" (VFloat (84 * 9.81)).

(** Lines 80-88: the spline jacobians and the surrogate tables. *)
Definition load_tables (a : init_args) : Build component unit :=
  setattr "jac_h" (jac_h a);;
  setattr "jac_gamma" (jac_gamma a);;
  v ← lift (Py.getitem (aero_surr a) "CL"); setattr "CL_arr" v;;
  v ← lift (Py.getitem (aero_surr a) "CD"); setattr "CD_arr" v;;
  v ← lift (Py.getitem (aero_surr a) "CM"); setattr "CM_arr" v;;
  v ← lift (Py.getitem (aero_surr a) "nums"); setattr "num" v.

(** Lines 95-115: the four spline components. *)
Definition add_splines : Build component unit :=
  ne ← getattr "num_elem"; np ← getattr "num_pt"; xp ← getattr "x_pts";
  jh ← getattr "jac_h"; jg ← getattr "jac_gamma";
  add "SysXBspline" (instance "SysXBspline"
    [("num_elem", ne); ("num_pt", np); ("x_init", xp); ("jac_h", jh)]);;
  set_component_attr "SysXBspline" "x_pt" xp;;
  add "SysHBspline" (instance "SysHBspline"
    [("num_elem", ne); ("num_pt", np); ("x_init", xp); ("jac_h", jh)]);;
  add "SysMVBspline" (instance "SysMVBspline"
    [("num_elem", ne); ("num_pt", np); ("x_init", xp); ("jac_h", jh)]);;
  add "SysGammaBspline" (instance "SysGammaBspline"
    [("num_elem", ne); ("num_pt", np); ("x_init", xp); ("jac_gamma", jg)]).

(** Lines 119-132: atmospherics. *)
Definition add_atmospherics : Build component unit :=
  ne ← getattr "num_elem"; sfcsl ← getattr "SFCSL";
  add "SysSFC" (instance "SysSFC" [("num_elem", ne); ("SFCSL", sfcsl)]);;
  add "SysTemp" (instance "SysTemp" [("num_elem", ne)]);;
  add "SysRho" (instance "SysRho" [("num_elem", ne)]);;
  add "SysSpeed" (instance "SysSpeed" [("num_elem", ne)]);;
  set_component_attr "SysSpeed" "v_specified" (VBool false);;
  connect "SysHBspline.h" "SysSFC.h";;
  connect "SysHBspline.h" "SysTemp.h";;
  connect "SysHBspline.h" "SysRho.h";;
  connect "SysTemp.temp" "SysRho.temp";;
  connect "SysTemp.temp" "SysSpeed.temp";;
  connect "SysMVBspline.M" "SysSpeed.M";;
  connect "SysMVBspline.v_spline" "SysSpeed.v_spline".

(** Lines 139-191: the components of the coupled system. *)
Definition add_coupled_comps (a : init_args) : Build component unit :=
  ne ← getattr "num_elem"; wt_pax ← getattr "wt_pax";
  S ← getattr "S"; ac_w ← getattr "ac_w"; num ← getattr "num";
  CL ← getattr "CL_arr"; CM ← getattr "CM_arr"; CD ← getattr "CD_arr";
  (* Vertical Equilibrium *)
  add "SysCLTar" (instance "SysCLTar"
    [("num_elem", ne); ("wt_pax", wt_pax); ("S", S); ("ac_w", ac_w)]);;
  connect "SysRho.rho" "SysCLTar.rho";;
  connect "SysGammaBspline.Gamma" "SysCLTar.Gamma";;
  connect "SysSpeed.v" "SysCLTar.v";;
  (* Tripan Alpha *)
  add "SysTripanCLSurrogate" (instance "SysTripanCLSurrogate"
    [("num_elem", ne); ("num", num); ("CL", CL)]);;
  connect "SysMVBspline.M" "SysTripanCLSurrogate.M";;
  connect "SysHBspline.h" "SysTripanCLSurrogate.h";;
  connect "SysCLTar.CL" "SysTripanCLSurrogate.CL_tar";;
  (* Tripan Eta *)
  add "SysTripanCMSurrogate" (instance "SysTripanCMSurrogate"
    [("num_elem", ne); ("num", num); ("CM", CM)]);;
  connect "SysMVBspline.M" "SysTripanCMSurrogate.M";;
  connect "SysHBspline.h" "SysTripanCMSurrogate.h";;
  connect "SysTripanCLSurrogate.alpha" "SysTripanCMSurrogate.alpha";;
  (* Tripan Drag *)
  add "SysTripanCDSurrogate" (instance "SysTripanCDSurrogate"
    [("num_elem", ne); ("num", num); ("CD", CD)]);;
  connect "SysMVBspline.M" "SysTripanCDSurrogate.M";;
  connect "SysHBspline.h" "SysTripanCDSurrogate.h";;
  connect "SysTripanCMSurrogate.eta" "SysTripanCDSurrogate.eta";;
  connect "SysTripanCLSurrogate.alpha" "SysTripanCDSurrogate.alpha";;
  (* Horizontal Equilibrium *)
  add "SysCTTar" (instance "SysCTTar"
    [("num_elem", ne); ("wt_pax", wt_pax); ("S", S); ("ac_w", ac_w)]);;
  connect "SysGammaBspline.Gamma" "SysCTTar.Gamma";;
  connect "SysTripanCDSurrogate.CD" "SysCTTar.CD";;
  connect "SysTripanCLSurrogate.alpha" "SysCTTar.alpha";;
  connect "SysRho.rho" "SysCTTar.rho";;
  connect "SysSpeed.v" "SysCTTar.v";;
  (* Weight *)
  add "SysFuelWeight" (instance "SysFuelWeight" [("num_elem", ne); ("S", S)]);;
  set_component_attr "SysFuelWeight" "fuel_w"
    (VArray (Numpy.linspace 1.0 0.0 (num_elem a + 1)));;
  connect "SysSpeed.v" "SysFuelWeight.v";;
  connect "SysGammaBspline.Gamma" "SysFuelWeight.Gamma";;
  connect "SysCTTar.CT_tar" "SysFuelWeight.CT_tar";;
  connect "SysXBspline.x" "SysFuelWeight.x";;
  connect "SysSFC.SFC" "SysFuelWeight.SFC";;
  connect "SysRho.rho" "SysFuelWeight.rho".

(** Lines 198-222: the Newton solver, the cycles and the implicit
    unknowns. *)
Definition add_coupled_solver : Build component unit :=
  add "coupled_solver" (Drv (new_driver "NewtonSolver"));;
  (* Direct connections (cycles) *)
  connect "SysFuelWeight.fuel_w" "SysCLTar.fuel_w";;
  connect "SysCTTar.CT_tar" "SysCLTar.CT_tar";;
  connect "SysTripanCLSurrogate.alpha" "SysCLTar.alpha";;
  connect "SysTripanCMSurrogate.eta" "SysTripanCLSurrogate.eta";;
  connect "SysFuelWeight.fuel_w" "SysCTTar.fuel_w";;
  (* Implicit comps *)
  add_parameter "coupled_solver" "SysTripanCLSurrogate.alpha";;
  add_constraint "coupled_solver" "SysTripanCLSurrogate.alpha_res = 0";;
  add_parameter "coupled_solver" "SysTripanCMSurrogate.eta";;
  add_constraint "coupled_solver" "SysTripanCMSurrogate.CM = 0".

(** Lines 228-251: the functionals downstream of the solver. *)
Definition add_functionals : Build component unit :=
  ne ← getattr "num_elem"; S ← getattr "S"; thrust_sl ← getattr "thrust_sl";
  add "SysTau" (instance "SysTau"
    [("num_elem", ne); ("S", S); ("thrust_sl", thrust_sl)]);;
  add "SysTmin" (instance "SysTmin" [("num_elem", ne)]);;
  add "SysTmax" (instance "SysTmax" [("num_elem", ne)]);;
  add "SysFuelObj" (instance "SysFuelObj" [("num_elem", ne)]);;
  add "SysBlockTime" (instance "SysBlockTime" [("num_elem", ne)]);;
  connect "SysRho.rho" "SysTau.rho";;
  connect "SysCTTar.CT_tar" "SysTau.CT_tar";;
  connect "SysHBspline.h" "SysTau.h";;
  connect "SysSpeed.v" "SysTau.v";;
  connect "SysTau.tau" "SysTmin.tau";;
  connect "SysTau.tau" "SysTmax.tau";;
  connect "SysFuelWeight.fuel_w" "SysFuelObj.fuel_w";;
  connect "SysXBspline.x" "SysBlockTime.x";;
  connect "SysSpeed.v" "SysBlockTime.v";;
  connect "SysGammaBspline.Gamma" "SysBlockTime.Gamma".

(** Lines 254-267: promote variables to the boundary. *)
Definition promote : Build component unit :=
  create_passthrough "SysHBspline.h_pt";;
  connect "h_pt" "SysGammaBspline.h_pt";;
  create_passthrough "SysMVBspline.v_pt";;
  create_passthrough "SysMVBspline.M_pt";;
  create_passthrough "SysTmin.Tmin";;
  create_passthrough "SysTmax.Tmax";;
  create_passthrough "SysFuelObj.fuelburn";;
  create_passthrough "SysBlockTime.time";;
  create_passthrough "SysHBspline.h";;
  create_passthrough "SysGammaBspline.Gamma";;
  connect "pax_flt" "SysCLTar.pax_flt";;
  connect "pax_flt" "SysCTTar.pax_flt".

(** Lines 272-281: the iteration hierarchy. *)
Definition iteration_hierarchy : Build component unit :=
  workflow_add "driver"
    ["SysXBspline"; "SysHBspline"; "SysMVBspline"; "SysGammaBspline";
     "SysSFC"; "SysTemp"; "SysRho"; "SysSpeed";
     "coupled_solver";
     "SysTau"; "SysTmin"; "SysTmax"; "SysFuelObj"; "SysBlockTime"];;
  workflow_add "coupled_solver"
    ["SysCLTar"; "SysTripanCLSurrogate"; "SysTripanCMSurrogate";
     "SysTripanCDSurrogate"; "SysCTTar"; "SysFuelWeight"].

(** Lines 287-300: driver settings. *)
Definition driver_settings : Build component unit :=
  set_option "driver" "gradient_options.lin_solver" (VStr "linear_gs");;
  set_option "driver" "gradient_options.maxiter" (VInt 1);;
  set_option "driver" "gradient_options.iprint" (VInt 1);;
  set_option "coupled_solver" "atol" (VFloat 1e-9);;
  set_option "coupled_solver" "rtol" (VFloat 1e-9);;
  set_option "coupled_solver" "max_iteration" (VInt 15);;
  set_option "coupled_solver" "gradient_options.atol" (VFloat 1e-20);;
  set_option "coupled_solver" "gradient_options.rtol" (VFloat 1e-20);;
  set_option "coupled_solver" "gradient_options.maxiter" (VInt 50);;
  set_option "coupled_solver" "iprint" (VInt 2);;
  set_option "coupled_solver" "gradient_options.iprint" (VInt 1);;
  set_option "coupled_solver" "gradient_options.lin_solver"
    (VStr "petsc_ksp").

(** Lines 93-300: everything after the inputs are loaded (the source marks
    this point with a commented-out [def configure(self)]). *)
Definition configure (a : init_args) : Build component unit :=
  add "pax_flt" (Var (VFloat 0.0) "in");;
  add_splines;;
  add_atmospherics;;
  add_coupled_comps a;;
  add_coupled_solver;;
  add_functionals;;
  promote;;
  iteration_hierarchy;;
  driver_settings.

(** [MissionSegment.__init__], statement by statement. *)
Definition init_body (a : init_args) : Build component unit :=
  setattr "num_elem" (VInt (num_elem a));;
  setattr "num_pt" (VInt (num_cp a));;
  setattr "x_pts" (x_pts a);;
  load_parameters a;;
  load_tables a;;
  configure a.

(** [MissionSegment(...)]: the assembled segment, or the exception that
    ended the construction. *)
Definition MissionSegment (a : init_args) : result segment :=
  construct (init_body a).

(** *** The constructor seen from its inputs *)

(** The ten values the constructor reads from the parameter mapping and the
    surrogate tables. *)
Record inputs := Inputs {
  in_S : value;
  in_ac_w : value;
  in_thrust_sl : value;
  in_SFCSL : value;
  in_AR : value;
  in_e : value;
  in_CL : value;
  in_CD : value;
  in_CM : value;
  in_nums : value
}.

(** The reads of lines 69-88 all succeed and return [i]. *)
Definition loaded (a : init_args) (i : inputs) : Prop :=
  exists data params,
    execfile (params_file a) = Ok data /\
    Py.getitem (VDict data) "params" = Ok params /\
    Py.getitem params "S" = Ok (in_S i) /\
    Py.getitem params "ac_w" = Ok (in_ac_w i) /\
    Py.getitem params "thrust_sl" = Ok (in_thrust_sl i) /\
    Py.getitem params "SFCSL" = Ok (in_SFCSL i) /\
    Py.getitem params "AR" = Ok (in_AR i) /\
    Py.getitem params "e" = Ok (in_e i) /\
    Py.getitem (aero_surr a) "CL" = Ok (in_CL i) /\
    Py.getitem (aero_surr a) "CD" = Ok (in_CD i) /\
    Py.getitem (aero_surr a) "CM" = Ok (in_CM i) /\
    Py.getitem (aero_surr a) "nums" = Ok (in_nums i).

(** The assembly as it stands at line 89, once [i] has been read: sixteen
    attributes, the default driver, and nothing wired yet. *)
Definition loaded_state (a : init_args) (i : inputs) : segment :=
  Assembly
    (<["num" := in_nums i]> (<["CM_arr" := in_CM i]> (<["CD_arr" := in_CD i]>
    (<["CL_arr" := in_CL i]> (<["jac_gamma" := jac_gamma a]>
    (<["jac_h" := jac_h a]> (<["wt_pax" := VFloat (84 * 9.81)]>
    (<["oswald" := in_e i]> (<["AR" := in_AR i]> (<["SFCSL" := in_SFCSL i]>
    (<["thrust_sl" := in_thrust_sl i]> (<["ac_w" := in_ac_w i]>
    (<["S" := in_S i]> (<["x_pts" := x_pts a]>
    (<["num_pt" := VInt (num_cp a)]>
    (<["num_elem" := VInt (num_elem a)]> ∅))))))))))))))))
    [("driver", Drv (new_driver "Driver"))] [] [].

End Init.

Section Fit.

(** [scipy.sparse.linalg.gmres(M, rhs)]: the approximate solution and the
    convergence flag. *)
Variable gmres : matrix -> vector -> vector * Z.

(** [MissionSegment.set_init_h_pt(h_init_pt)].  The target is a profile: a
    one-dimensional array, or a two-dimensional one with a single column,
    which [gmres] takes as a right-hand side alike.  With a number as
    target, or a two-dimensional array of another width, [A.T.dot(b)] is no
    right-hand side and [gmres] raises ValueError. *)
Definition set_init_h_pt (h_init_pt : value) : Build component unit :=
  A ← getattr "jac_h";
  match A with
  | VMatrix A =>
      ATA ← lift (Numpy.mat_mul (Numpy.transpose A) A);
      match h_init_pt with
      | VArray b =>
          ATb ← lift (Numpy.mat_vec (Numpy.transpose A) b);
          setattr "h_pt" (VArray (gmres ATA ATb).1)
      | VMatrix B =>
          if Nat.eqb (ncols B) 1 then
            ATb ← lift (Numpy.mat_vec (Numpy.transpose A) (Numpy.column B 0));
            setattr "h_pt" (VArray (gmres ATA ATb).1)
          else raise ValueError
      | VBool _ | VInt _ | VFloat _ => raise ValueError
      | VNone | VStr _ | VDict _ => raise TypeError
      end
  | _ => raise (AttributeError "T")
  end.

End Fit.

End Segment.

(* ===================================================================== *)
(** ** Running an assembly *)
(* ===================================================================== *)

Module Execution.
Import OpenMDAO.

(** Split a dotted path at its first dot: [comp.port] gives [(comp, port)];
    a name without a dot is a boundary variable of the assembly itself. *)
Fixpoint split_dot (p : string) : option (string * string) :=
  match p with
  | EmptyString => None
  | String c p' =>
      if Ascii.eqb c "."%char then Some (EmptyString, p')
      else match split_dot p' with
           | Some (a, b) => Some (String c a, b)
           | None => None
           end
  end.

Section Executor.

Context {C : Type}.

(** The computation of one step, a function of the step's own state. *)
Variable compute : string -> C -> C.
(** A nested coupled group, run as one step. *)
Variable solve : string -> driver -> assembly C -> assembly C.
(** Reading and writing a port of a step. *)
Variable get_port : C -> string -> option value.
Variable set_port : string -> value -> C -> C.

(** The model being run and the steps executed so far. *)
Record exec_state := ExecState {
  model : assembly C;
  log : list string
}.

(** Put [ch] in the place of the child [name]. *)
Definition set_child (name : string) (ch : child C) (s : assembly C)
  : assembly C :=
  Assembly (attrs s) (assoc_set name ch (children s)) (connections s)
           (passthroughs s).

(** Modelled from the spec: a connection carries the value of its source, a
    port of a step or a boundary variable of the assembly (section 3). *)
Definition source_value (s : assembly C) (src : string) : option value :=
  match split_dot src with
  | Some (c, p) => get_component s c ≫= fun c' => get_port c' p
  | None => attrs s !! src
  end.

(** Modelled from the spec: connection values are propagated between steps
    (section 4.2); one connection is carried into step [name] when it ends
    there. *)
Definition deliver (name : string) (s : assembly C) (conn : string * string)
  : assembly C :=
  match split_dot conn.2 with
  | Some (c, p) =>
      if String.eqb c name then
        match source_value s conn.1, get_component s c with
        | Some v, Some comp => set_child c (Comp (set_port p v comp)) s
        | _, _ => s
        end
      else s
  | None => s
  end.

(** Modelled from the spec: all connections that end in step [name] are
    carried into it, in the order they were made. *)
Definition propagate (name : string) (s : assembly C) : assembly C :=
  foldl (deliver name) s (connections s).

(** Modelled from the spec: the workflow executor is OpenMDAO's and is not in
    these files.  Following section 4.2, a step is executed by propagating
    the values of the connections that end in it and running it once; a
    nested coupled group is one opaque step. *)
Definition exec_step (st : exec_state) (name : string) : exec_state :=
  let s := propagate name (model st) in
  let s' :=
    match assoc name (children s) with
    | Some (Comp c) => set_child name (Comp (compute name c)) s
    | Some (Drv d) => solve name d s
    | _ => s
    end in
  ExecState s' (log st ++ [name]).

(** Modelled from the spec: one forward pass (section 4.2) executes the
    ordered list of steps in the order supplied, each once, with no skipping. *)
Definition run_workflow (steps : list string) (st : exec_state) : exec_state :=
  foldl exec_step st steps.


(** Modelled from the spec: parallel execution (sections 4.6 and 5) assigns
    each step to its own worker, which runs it on the state the run started
    from, without synchronisation; the results are collected afterwards. *)
Definition worker (s0 : assembly C) (name : string) : option (child C) :=
  assoc name (children (model (exec_step (ExecState s0 []) name))).

(** Modelled from the spec: the result of one worker is put back in the
    model (section 4.6, "collect"). *)
Definition collect (s0 : assembly C) (s : assembly C) (name : string)
  : assembly C :=
  match worker s0 name with
  | Some ch => set_child name ch s
  | None => s
  end.

(** Modelled from the spec: a parallel run of [steps] from [s0]. *)
Definition run_parallel (steps : list string) (s0 : assembly C) : assembly C :=
  foldl (collect s0) s0 steps.

End Executor.

Section Newton.

(** The implicit state of the coupled group. *)
Variable State : Type.
(** One pass of the group's internal workflow with the state injected, and
    the norm of the residual it leaves. *)
Variable residual_norm : State -> Q.
(** The linear solve for the Newton step and the update of the state. *)
Variable newton_update : State -> State.

Record outcome := Outcome {
  final_state : State;
  final_norm : Q;
  iterations : nat;
  converged : bool
}.

(** Modelled from the spec: the Newton solver is OpenMDAO's and is not in
    these files.  Section 4.3, step 2: the norm is within tolerance when it
    meets the absolute tolerance and, relative to the initial norm, the
    relative one. *)
Definition within_tolerance (atol rtol norm0 norm : Q) : bool :=
  Qle_bool norm atol && Qle_bool norm (rtol * norm0).

(** Modelled from the spec: section 4.3, steps 1 to 5.  Evaluate the
    residual; stop when within tolerance; otherwise update the state and
    start over, and stop after the budget of outer iterations is spent,
    reporting the current norm. *)
Fixpoint newton_loop (atol rtol norm0 : Q) (budget k : nat) (st : State)
  : outcome :=
  let n := residual_norm st in
  if within_tolerance atol rtol norm0 n then Outcome st n k true
  else match budget with
       | O => Outcome st n k false
       | S b => newton_loop atol rtol norm0 b (S k) (newton_update st)
       end.

(** Modelled from the spec: the solver runs with the tolerances and the
    iteration cap configured on its driver (sections 4.3 and 5); the initial
    norm is that of the state the run starts from. *)
Definition newton_solve (d : driver) (st : State) : result outcome :=
  match settings d !! "atol", settings d !! "rtol",
        settings d !! "max_iteration" with
  | Some (VFloat atol), Some (VFloat rtol), Some (VInt max_iteration) =>
      Ok (newton_loop atol rtol (residual_norm st)
            (Z.to_nat max_iteration) 0 st)
  | _, _, _ => Raise (AttributeError "coupled_solver")
  end.

End Newton.

End Execution.

(* ===================================================================== *)
(** ** multipoint.py *)
(* ===================================================================== *)

Module Multipoint.
Import OpenMDAO Segment.

Abbreviation mission := (assembly segment).

(** [model.<name>.<...>]: run statements on the child [name] in place. *)
Definition on_segment (name : string) (m : Build component unit)
  : Build segment unit :=
  s ← get;
  match get_component s name with
  | Some seg =>
      match m seg with
      | Ok (_, seg') => add name (Comp seg')
      | Raise e => raise e
      end
  | None => raise (AttributeError name)
  end.

Section Script.

Variable execfile : value -> result (gmap string value).
Variable gmres : matrix -> vector -> vector * Z.
(** [setup_surrogate(name)]: the tables CL, CD, CM and the grid sizes. *)
Variable setup_surrogate : string -> value * value * value * value.
(** [setup_MBI(num_pts, num_cp, x_init)]: the two spline operators. *)
Variable setup_MBI : Z -> Z -> vector -> matrix * matrix.
(** [1 - np.cos(v * np.pi)] and [np.sin(np.pi * v)], elementwise. *)
Variable one_minus_cos_pi : vector -> vector.
Variable sin_pi : vector -> vector.

(** Line 18 *)
Definition aero_surr : value :=
  let '(CL, CD, CM, nums) := setup_surrogate "crm_surr" in
  VDict (<["nums" := nums]> (<["CM" := CM]> (<["CD" := CD]>
        (<["CL" := CL]> ∅)))).

(** Lines 21-22 *)
Definition num_elem : Z := 50.
Definition num_cp : Z := 10.

(** One "Mission Segment" block of the script (lines 30-71, 77-118 and
    124-165, which differ in the name and the range only). *)
Definition segment_block (name : string) (x_range_nmi : Q)
  : Build segment unit :=
  let altitude :=
    map (fun s => 10 * s)%Q (sin_pi (Numpy.linspace 0 1 (num_elem + 1))) in
  let x_range := (x_range_nmi * 1.852)%Q in
  let x_init :=
    map (fun c => x_range * 1e3 * c / 2 / 1e6)%Q
        (one_minus_cos_pi (Numpy.linspace 0 1 num_cp)) in
  let M_init := map (fun o => o * 0.82)%Q (replicate (Z.to_nat num_cp) 1%Q) in
  let h_init :=
    map (fun s => 10 * s)%Q
        (sin_pi (map (fun x => x / (x_range / 1e3))%Q x_init)) in
  let '(jac_h, jac_gamma) := setup_MBI (num_elem + 1) num_cp x_init in
  seg ← lift (MissionSegment execfile
                (InitArgs num_elem num_cp (VArray x_init)
                          (VStr "CRM_params.py") aero_surr
                          (VMatrix jac_h) (VMatrix jac_gamma)));
  add name (Comp seg);;
  on_segment name (
    setattr "h_pt" (VArray h_init);;
    setattr "M_pt" (VArray M_init);;
    set_init_h_pt gmres (VArray altitude);;
    set_component_attr "SysSpeed" "v_specified" (VBool false);;
    setattr "S" (VFloat (427.8 / 1e2));;
    setattr "ac_w" (VFloat (210000 * 9.81 / 1e6));;
    setattr "thrust_sl" (VFloat (1020000.0 / 1e6));;
    setattr "SFCSL" (VFloat (8.951 * 9.81));;
    setattr "AR" (VFloat 8.68);;
    setattr "oswald" (VFloat 0.8);;
    set_option "driver" "system_type" (VStr "serial");;
    set_option "coupled_solver" "system_type" (VStr "serial")).

(** Lines 24-171: the top assembly with its three segments. *)
Definition build_model : result mission :=
  construct (
    segment_block "seg1" 9000.0;;
    segment_block "seg2" 7000.0;;
    segment_block "seg3" 5000.0;;
    workflow_add "driver" ["seg1"; "seg2"; "seg3"]).

End Script.

(** *** The fuel-burn report (lines 185-198) *)

(** The tuple [(seg1.fuelburn, seg2.fuelburn, seg3.fuelburn)] of a process:
    three floats, whatever the runs have left in them. *)
Definition fuelburns : Type := pyfloat * pyfloat * pyfloat.

(** [t[k]] for [k] in 0..2. *)
Definition leg (k : nat) (t : fuelburns) : pyfloat :=
  match k with
  | 0 => t.1.1
  | 1 => t.1.2
  | _ => t.2
  end.

(** [comm.gather(x, root=0)]: the root receives the values of all ranks, in
    rank order; the other ranks receive [None]. *)
Definition gather {A} (world : list A) (rank : nat) : option (list A) :=
  if Nat.eqb rank 0 then Some world else None.

(** One line [print label, max(dist_seg[0][k], dist_seg[1][k], dist_seg[2][k])]:
    the three subscripts are evaluated from left to right. *)
Definition print_max (label : string) (dist_seg : list fuelburns) (k : nat)
  : result (string * pyfloat) :=
  d0 ← Py.index dist_seg 0;
  d1 ← Py.index dist_seg 1;
  d2 ← Py.index dist_seg 2;
  mret (label, Py.max3 (leg k d0) (leg k d1) (leg k d2)).

(** How the script is run: [MPI] is false and the process holds its own
    tuple, or [MPI] is true and the process has a rank in a world whose
    tuples, in rank order, are what the gather collects. *)
Inductive run_context :=
  | Serial (fuelburn : fuelburns)
  | Distributed (rank : nat) (world : list fuelburns).

(** Lines 185-198 on one process.  The result is the list of fuel burns the
    process prints, each with its label. *)
Definition report (ctx : run_context)
  : result (list (string * pyfloat)) :=
  match ctx with
  | Distributed rank world =>
      let dist_seg := gather world rank in
      if Nat.eqb rank 0 then
        match dist_seg with
        | Some dist_seg =>
            l1 ← print_max "seg1 fuel burn" dist_seg 0;
            l2 ← print_max "seg2 fuel burn" dist_seg 1;
            l3 ← print_max "seg3 fuel burn" dist_seg 2;
            mret [l1; l2; l3]
        | None => Raise TypeError
        end
      else mret []
  | Serial fuelburn =>
      mret [("seg1 fuel burn", leg 0 fuelburn);
            ("seg2 fuel burn", leg 1 fuelburn);
            ("seg3 fuel burn", leg 2 fuelburn)]
  end.

End Multipoint.

(* ===================================================================== *)
(** ** A concrete mission leg, used to exercise the statements below *)
(* ===================================================================== *)

Module Example.
Import OpenMDAO Segment.

(** A parameter file defining [params] with the six entries the multipoint
    script also assigns by hand. *)
Definition params : gmap string value :=
  <["e" := VFloat 0.8]> (<["AR" := VFloat 8.68]>
  (<["SFCSL" := VFloat (8.951 * 9.81)]> (<["thrust_sl" := VFloat 1.02]>
  (<["ac_w" := VFloat (210000 * 9.81 / 1e6)]> (<["S" := VFloat 4.278]> ∅))))).

(** A file system with that file, a second one whose [params] lacks the
    entry [e], and nothing else. *)
Definition execfile (path : value) : result (gmap string value) :=
  match path with
  | VStr "CRM_params.py" => Ok (<["params" := VDict params]> ∅)
  | VStr "incomplete.py" => Ok (<["params" := VDict (delete "e" params)]> ∅)
  | VStr _ => Raise IOError
  | _ => Raise TypeError
  end.

(** Small surrogate tables. *)
Definition surrogate : value :=
  VDict (<["nums" := VArray [2; 2; 2]%Q]> (<["CM" := VArray [0.1]%Q]>
        (<["CD" := VArray [0.02]%Q]> (<["CL" := VArray [0.5]%Q]> ∅)))).

(** A spline operator on three stations and two control points. *)
Definition jac : matrix := Mat 3 2 [[1; 0]; [0.5; 0.5]; [0; 1]]%Q.

(** Two elements, two control points. *)
Definition args : init_args :=
  InitArgs 2 2 (VArray [0; 1]%Q) (VStr "CRM_params.py") surrogate
           (VMatrix jac) (VMatrix jac).

(** The same leg with no element at all: a single station. *)
Definition args0 : init_args :=
  InitArgs 0 2 (VArray [0; 1]%Q) (VStr "CRM_params.py") surrogate
           (VMatrix (Mat 1 2 [[1; 0]]%Q)) (VMatrix (Mat 1 2 [[1; 0]]%Q)).

(** The example leg with another parameter file. *)
Definition args_with (path : string) : init_args :=
  InitArgs 2 2 (VArray [0; 1]%Q) (VStr path) surrogate
           (VMatrix jac) (VMatrix jac).

Definition assembled (a : init_args) : segment :=
  match MissionSegment execfile a with
  | Ok s => s
  | Raise _ => Assembly_init
  end.

(** A solver that hands back the right-hand side, which is the solution
    whenever the operator is the identity. *)
Definition gmres (M : matrix) (rhs : vector) : vector * Z := (rhs, 0%Z).


(** The fuel burns of a process whose three legs all ended in a finite
    value. *)
Definition burns (f1 f2 f3 : Q) : Multipoint.fuelburns :=
  (Finite f1, Finite f2, Finite f3).

(** Stand-ins for the helpers of the multipoint script: constant tables,
    one-column spline operators, and the identity for the two elementwise
    functions. *)
Definition setup_surrogate (name : string) : value * value * value * value :=
  (VArray [0.5]%Q, VArray [0.02]%Q, VArray [0.1]%Q, VArray [2; 2; 2]%Q).

Definition setup_MBI (n num_cp : Z) (x_init : vector) : matrix * matrix :=
  (Mat (Z.to_nat n) 1 (replicate (Z.to_nat n) [1%Q]),
   Mat (Z.to_nat n) 1 (replicate (Z.to_nat n) [1%Q])).

Definition mission : Multipoint.mission :=
  match Multipoint.build_model execfile gmres setup_surrogate setup_MBI
          (fun v => v) (fun v => v) with
  | Ok m => m
  | Raise _ => Assembly_init
  end.

End Example.

(* ===================================================================== *)
(** ** segment.py: the call of the constructor and the main block *)
(* ===================================================================== *)

Module SegmentMain.
Import OpenMDAO Segment.

(** A keyword argument of a call [MissionSegment(...)]: one of the seven
    parameters of [__init__] (the two counts are integers), or any other
    name. *)
Inductive keyword :=
  | kw_num_elem (n : Z)
  | kw_num_cp (n : Z)
  | kw_x_pts (v : value)
  | kw_params_file (v : value)
  | kw_aero_surr (v : value)
  | kw_jac_h (v : value)
  | kw_jac_gamma (v : value)
  | kw_other (name : string) (v : value).

(** Bind one keyword to its parameter; a name that is no parameter of
    [__init__] is an unexpected keyword argument. *)
Definition bind_keyword (a : init_args) (k : keyword) : result init_args :=
  match k with
  | kw_num_elem n =>
      Ok (InitArgs n (num_cp a) (x_pts a) (params_file a) (aero_surr a)
                   (jac_h a) (jac_gamma a))
  | kw_num_cp n =>
      Ok (InitArgs (num_elem a) n (x_pts a) (params_file a) (aero_surr a)
                   (jac_h a) (jac_gamma a))
  | kw_x_pts v =>
      Ok (InitArgs (num_elem a) (num_cp a) v (params_file a) (aero_surr a)
                   (jac_h a) (jac_gamma a))
  | kw_params_file v =>
      Ok (InitArgs (num_elem a) (num_cp a) (x_pts a) v (aero_surr a)
                   (jac_h a) (jac_gamma a))
  | kw_aero_surr v =>
      Ok (InitArgs (num_elem a) (num_cp a) (x_pts a) (params_file a) v
                   (jac_h a) (jac_gamma a))
  | kw_jac_h v =>
      Ok (InitArgs (num_elem a) (num_cp a) (x_pts a) (params_file a)
                   (aero_surr a) v (jac_gamma a))
  | kw_jac_gamma v =>
      Ok (InitArgs (num_elem a) (num_cp a) (x_pts a) (params_file a)
                   (aero_surr a) (jac_h a) v)
  | kw_other _ _ => Raise TypeError
  end.

(** The arguments of a call: the defaults of line 47, overridden by the
    keywords given. *)
Definition bind_keywords (kws : list keyword) : result init_args :=
  foldl (fun r k => r ≫= fun a => bind_keyword a k) (Ok default_args) kws.

Section Main.

Variable execfile : value -> result (gmap string value).
(** [1 - np.cos(v * np.pi)] and [np.sin(np.pi * v)], elementwise. *)
Variable one_minus_cos_pi : vector -> vector.
Variable sin_pi : vector -> vector.

(** [MissionSegment(k1=v1, ...)]: the arguments are bound before the body
    of [__init__] runs. *)
Definition MissionSegment_call (kws : list keyword) : result segment :=
  bind_keywords kws ≫= MissionSegment execfile.

(** Lines 310-344 of segment.py, the block run when the file is the main
    program, up to the call of [model.run()]. *)
Definition main : result segment :=
  let x_range := 9000.0%Q in
  let num_elem := 6%Z in
  let num_cp := 3%Z in
  let x_range := (x_range * 1.852)%Q in
  let x_init :=
    map (fun c => x_range * 1e3 * c / 2 / 1e6)%Q
        (one_minus_cos_pi (Numpy.linspace 0 1 num_cp)) in
  let M_init := map (fun o => o * 0.82)%Q (replicate (Z.to_nat num_cp) 1%Q) in
  let h_init :=
    map (fun s => 10 * s)%Q
        (sin_pi (map (fun x => x / (x_range / 1e3))%Q x_init)) in
  MissionSegment_call
    [kw_num_elem num_elem; kw_num_cp num_cp; kw_x_pts (VArray x_init);
     kw_other "surr_file" (VStr "crm_surr")] ≫= fun model =>
  match (setattr "h_pt" (VArray h_init);;
         setattr "M_pt" (VArray M_init);;
         set_component_attr "SysSpeed" "v_specified" (VBool false);;
         setattr "S" (VFloat (427.8 / 1e2));;
         setattr "ac_w" (VFloat (210000 * 9.81 / 1e6));;
         setattr "thrust_sl" (VFloat (1020000.0 / 1e6));;
         setattr "SFCSL" (VFloat (8.951 * 9.81));;
         setattr "AR" (VFloat 8.68);;
         setattr "oswald" (VFloat 0.8)) model with
  | Ok (_, model') => Ok model'
  | Raise e => Raise e
  end.

End Main.

End SegmentMain.

(* ===================================================================== *)
(** ** The wiring of an assembly as a graph *)
(* ===================================================================== *)

Module Graph.
Import OpenMDAO Execution.

(** The components of an assembly with their names, in the order added. *)
Definition components {C} (s : assembly C) : list (string * C) :=
  omap (fun c => match c.2 with Comp x => Some (c.1, x) | _ => None end)
       (children s).

Definition component_names {C} (s : assembly C) : list string :=
  map fst (components s).

(** The boundary variables put in by [add]. *)
Definition variable_names {C} (s : assembly C) : list string :=
  omap (fun c => match c.2 with Var _ _ => Some c.1 | _ => None end)
       (children s).

(** The component a path belongs to; a name without a dot belongs to the
    boundary of the assembly. *)
Definition owner (p : string) : option string := fst <$> split_dot p.

(** The path names something the assembly has: a port of one of its
    components, or one of its boundary variables. *)
Definition endpoint_known {C} (s : assembly C) (p : string) : bool :=
  match owner p with
  | Some c => bool_decide (c ∈ component_names s)
  | None => bool_decide (p ∈ variable_names s ++ boundary_ports s)
  end.

(** The top workflow with every nested driver replaced by its own
    workflow: the components in the order one pass visits them. *)
Definition flat_workflow {C} (s : assembly C) : list string :=
  match get_driver s "driver" with
  | Some d =>
      concat (map (fun step => match get_driver s step with
                               | Some d' => workflow d'
                               | None => [step]
                               end) (workflow d))
  | None => []
  end.

(** The first position of [n] in [l]. *)
Fixpoint position (n : string) (l : list string) : option nat :=
  match l with
  | [] => None
  | x :: l' => if String.eqb n x then Some 0 else S <$> position n l'
  end.

(** When, in one pass, the component owning a path runs. *)
Definition rank {C} (s : assembly C) (p : string) : option nat :=
  owner p ≫= fun c => position c (flat_workflow s).

(** A connection whose source runs strictly before its destination. *)
Definition forward {C} (s : assembly C) (conn : string * string) : bool :=
  match rank s conn.1, rank s conn.2 with
  | Some i, Some j => i <? j
  | _, _ => false
  end.

(** A connection whose source runs no earlier than its destination. *)
Definition feedback {C} (s : assembly C) (conn : string * string) : bool :=
  match rank s conn.1, rank s conn.2 with
  | Some i, Some j => j <=? i
  | _, _ => false
  end.

End Graph.

(* ===================================================================== *)
(** ** What a "Mission Segment" block of multipoint.py leaves behind *)
(* ===================================================================== *)

Module Block.
Import OpenMDAO Segment Multipoint.

Section Block.

Variable execfile : value -> result (gmap string value).
Variable gmres : matrix -> vector -> vector * Z.
Variable setup_surrogate : string -> value * value * value * value.
Variable setup_MBI : Z -> Z -> vector -> matrix * matrix.
Variable one_minus_cos_pi : vector -> vector.
Variable sin_pi : vector -> vector.

(** The arrays of lines 38-45, for a range in nautical miles. *)
Definition altitude : vector :=
  map (fun s => 10 * s)%Q (sin_pi (Numpy.linspace 0 1 (num_elem + 1))).

Definition x_init (x_range_nmi : Q) : vector :=
  map (fun c => x_range_nmi * 1.852 * 1e3 * c / 2 / 1e6)%Q
      (one_minus_cos_pi (Numpy.linspace 0 1 num_cp)).

Definition M_init : vector :=
  map (fun o => o * 0.82)%Q (replicate (Z.to_nat num_cp) 1%Q).

Definition h_init (x_range_nmi : Q) : vector :=
  map (fun s => 10 * s)%Q
      (sin_pi (map (fun x => x / (x_range_nmi * 1.852 / 1e3))%Q
                   (x_init x_range_nmi))).

(** The arguments a block passes to the constructor. *)
Definition block_args (x_range_nmi : Q) : init_args :=
  InitArgs num_elem num_cp (VArray (x_init x_range_nmi))
           (VStr "CRM_params.py") (aero_surr setup_surrogate)
           (VMatrix (setup_MBI (num_elem + 1) num_cp (x_init x_range_nmi)).1)
           (VMatrix (setup_MBI (num_elem + 1) num_cp (x_init x_range_nmi)).2).

(** The spline operator a block computes for the altitude. *)
Definition block_jac_h (x_range_nmi : Q) : matrix :=
  (setup_MBI (num_elem + 1) num_cp (x_init x_range_nmi)).1.

(** The segment [seg'] a block leaves is the constructed segment [seg]
    with the twelve statements of lines 54-71 applied: [h_pt] and [M_pt]
    assigned, [h_pt] fitted, [SysSpeed.v_specified] set, the six design
    parameters assigned, and [system_type] set on the two drivers. *)
Definition block_result (x_range_nmi : Q) (seg seg' : segment) : Prop :=
  exists ATA ATb c d0 d1,
    MissionSegment execfile (block_args x_range_nmi) = Ok seg /\
    Numpy.mat_mul (Numpy.transpose (block_jac_h x_range_nmi))
                  (block_jac_h x_range_nmi) = Ok ATA /\
    Numpy.mat_vec (Numpy.transpose (block_jac_h x_range_nmi)) altitude
    = Ok ATb /\
    get_component seg "SysSpeed" = Some c /\
    get_driver seg "driver" = Some d0 /\
    get_driver seg "coupled_solver" = Some d1 /\
    seg' =
    Assembly
      (<["oswald" := VFloat 0.8]> (<["AR" := VFloat 8.68]>
       (<["SFCSL" := VFloat (8.951 * 9.81)]>
       (<["thrust_sl" := VFloat (1020000.0 / 1e6)]>
       (<["ac_w" := VFloat (210000 * 9.81 / 1e6)]>
       (<["S" := VFloat (427.8 / 1e2)]>
       (<["h_pt" := VArray (gmres ATA ATb).1]>
       (<["M_pt" := VArray M_init]>
       (<["h_pt" := VArray (h_init x_range_nmi)]> (attrs seg))))))))))
      (assoc_set "coupled_solver"
         (Drv (Driver (dcls d1) (workflow d1) (parameters d1) (constraints d1)
                      (<["system_type" := VStr "serial"]> (settings d1))))
         (assoc_set "driver"
            (Drv (Driver (dcls d0) (workflow d0) (parameters d0)
                         (constraints d0)
                         (<["system_type" := VStr "serial"]> (settings d0))))
            (assoc_set "SysSpeed"
               (Comp (Component (cls c) (kwargs c)
                                (<["v_specified" := VBool false]> (cattrs c))))
               (children seg))))
      (connections seg) (passthroughs seg).

End Block.

End Block.

(* ===================================================================== *)
(** ** More concrete data *)
(* ===================================================================== *)

Module Example2.
Import OpenMDAO Segment.

(** A file system whose parameter file gives another aspect ratio and
    another Oswald factor than [Example.params], and the same for the
    rest. *)
Definition params_wide : gmap string value :=
  <["AR" := VFloat 10]> (<["e" := VFloat 1]> Example.params).

Definition execfile_wide (path : value) : result (gmap string value) :=
  Ok (<["params" := VDict params_wide]> ∅).

Definition assembled_wide : segment :=
  match MissionSegment execfile_wide Example.args with
  | Ok s => s
  | Raise _ => Assembly_init
  end.

(** A parameter file whose wing area is not the one the multipoint script
    assigns by hand. *)
Definition params_big : gmap string value :=
  <["S" := VFloat 5]> Example.params.

Definition execfile_big (path : value) : result (gmap string value) :=
  match path with
  | VStr "CRM_params.py" => Ok (<["params" := VDict params_big]> ∅)
  | _ => Raise IOError
  end.

Definition mission_big : Multipoint.mission :=
  match Multipoint.build_model execfile_big Example.gmres
          Example.setup_surrogate Example.setup_MBI
          (fun v => v) (fun v => v) with
  | Ok m => m
  | Raise _ => Assembly_init
  end.

End Example2.

(* ===================================================================== *)
(** * Properties *)
(* ===================================================================== *)

(** ** The building monad *)

Section BuildLemmas.
Import OpenMDAO.

Context {C : Type}.

Lemma bind_Ok {A B} (m : Build C A) (k : A -> Build C B) s r :
  (m ≫= k) s = Ok r -> exists x s', m s = Ok (x, s') /\ k x s' = Ok r.
Proof.
  unfold mbind, build_bind.
  destruct (m s) as [[x s'] | e]; [eauto | discriminate].
Qed.

Lemma bind_Raise {A B} (m : Build C A) (k : A -> Build C B) s e :
  m s = Raise e -> (m ≫= k) s = Raise e.
Proof. unfold mbind, build_bind. now intros ->. Qed.

Lemma bind_step {A B} (m : Build C A) (k : A -> Build C B) s x s' :
  m s = Ok (x, s') -> (m ≫= k) s = k x s'.
Proof. unfold mbind, build_bind. now intros ->. Qed.

Lemma lift_Ok {A} (r : result A) (s : assembly C) x s' :
  lift r s = Ok (x, s') -> r = Ok x /\ s' = s.
Proof. unfold lift. destruct r; [| discriminate]. now intros [= -> ->]. Qed.

Lemma construct_Ok (m : Build C unit) s :
  construct m = Ok s -> m Assembly_init = Ok (tt, s).
Proof.
  unfold construct. destruct (m Assembly_init) as [[[] s'] | e];
    [now intros [= ->] | discriminate].
Qed.

End BuildLemmas.

(** ** The constructor *)

Section Constructor.
Import OpenMDAO Segment.

Variable execfile : value -> result (gmap string value).

Lemma load_parameters_Ok a s s' :
  load_parameters execfile a s = Ok (tt, s') ->
  exists data params vS vac vth vsf vAR ve,
    execfile (params_file a) = Ok data /\
    Py.getitem (VDict data) "params" = Ok params /\
    Py.getitem params "S" = Ok vS /\
    Py.getitem params "ac_w" = Ok vac /\
    Py.getitem params "thrust_sl" = Ok vth /\
    Py.getitem params "SFCSL" = Ok vsf /\
    Py.getitem params "AR" = Ok vAR /\
    Py.getitem params "e" = Ok ve /\
    s' = Assembly
           (<["wt_pax" := VFloat (84 * 9.81)]> (<["oswald" := ve]>
            (<["AR" := vAR]> (<["SFCSL" := vsf]> (<["thrust_sl" := vth]>
            (<["ac_w" := vac]> (<["S" := vS]> (attrs s))))))))
           (children s) (connections s) (passthroughs s).
Proof.
  unfold load_parameters, mbind, build_bind, lift, setattr, modify.
  destruct (execfile (params_file a)) as [data | ?] eqn:?; [| discriminate].
  destruct (Py.getitem (VDict data) "params") as [params | ?] eqn:?; [| discriminate].
  destruct (Py.getitem params "S") as [vS | ?] eqn:?; [| discriminate].
  destruct (Py.getitem params "ac_w") as [vac | ?] eqn:?; [| discriminate].
  destruct (Py.getitem params "thrust_sl") as [vth | ?] eqn:?; [| discriminate].
  destruct (Py.getitem params "SFCSL") as [vsf | ?] eqn:?; [| discriminate].
  destruct (Py.getitem params "AR") as [vAR | ?] eqn:?; [| discriminate].
  destruct (Py.getitem params "e") as [ve | ?] eqn:?; [| discriminate].
  intros [= <-]. exists data, params, vS, vac, vth, vsf, vAR, ve.
  repeat (split; [first [assumption | reflexivity] |]). reflexivity.
Qed.

Lemma load_tables_Ok a s s' :
  load_tables a s = Ok (tt, s') ->
  exists vCL vCD vCM vnum,
    Py.getitem (aero_surr a) "CL" = Ok vCL /\
    Py.getitem (aero_surr a) "CD" = Ok vCD /\
    Py.getitem (aero_surr a) "CM" = Ok vCM /\
    Py.getitem (aero_surr a) "nums" = Ok vnum /\
    s' = Assembly
           (<["num" := vnum]> (<["CM_arr" := vCM]> (<["CD_arr" := vCD]>
            (<["CL_arr" := vCL]> (<["jac_gamma" := jac_gamma a]>
            (<["jac_h" := jac_h a]> (attrs s)))))))
           (children s) (connections s) (passthroughs s).
Proof.
  unfold load_tables, mbind, build_bind, lift, setattr, modify.
  destruct (Py.getitem (aero_surr a) "CL") as [vCL | ?] eqn:?; [| discriminate].
  destruct (Py.getitem (aero_surr a) "CD") as [vCD | ?] eqn:?; [| discriminate].
  destruct (Py.getitem (aero_surr a) "CM") as [vCM | ?] eqn:?; [| discriminate].
  destruct (Py.getitem (aero_surr a) "nums") as [vnum | ?] eqn:?; [| discriminate].
  intros [= <-]. exists vCL, vCD, vCM, vnum.
  repeat (split; [first [assumption | reflexivity] |]). reflexivity.
Qed.

(** A segment is assembled exactly when the ten reads succeed, and it is
    then what [configure] makes of the loaded state. *)
Lemma MissionSegment_inv a seg :
  MissionSegment execfile a = Ok seg ->
  exists i, loaded execfile a i /\
            configure a (loaded_state a i) = Ok (tt, seg).
Proof.
  intros H. apply construct_Ok in H. unfold init_body in H.
  apply bind_Ok in H as ([] & s1 & H1 & H).
  apply bind_Ok in H as ([] & s2 & H2 & H).
  apply bind_Ok in H as ([] & s3 & H3 & H).
  apply bind_Ok in H as ([] & s4 & H4 & H).
  apply bind_Ok in H as ([] & s5 & H5 & H).
  injection H1 as <-. injection H2 as <-. injection H3 as <-.
  apply load_parameters_Ok in H4
    as (data & params & vS & vac & vth & vsf & vAR & ve & ? & ? & ? & ? & ?
        & ? & ? & ? & ->).
  apply load_tables_Ok in H5 as (vCL & vCD & vCM & vnum & ? & ? & ? & ? & ->).
  exists (Inputs vS vac vth vsf vAR ve vCL vCD vCM vnum).
  split; [exists data, params; cbn; auto 15 |].
  exact H.
Qed.

Lemma load_parameters_run a s data params vS vac vth vsf vAR ve :
  execfile (params_file a) = Ok data ->
  Py.getitem (VDict data) "params" = Ok params ->
  Py.getitem params "S" = Ok vS ->
  Py.getitem params "ac_w" = Ok vac ->
  Py.getitem params "thrust_sl" = Ok vth ->
  Py.getitem params "SFCSL" = Ok vsf ->
  Py.getitem params "AR" = Ok vAR ->
  Py.getitem params "e" = Ok ve ->
  load_parameters execfile a s =
  Ok (tt, Assembly
           (<["wt_pax" := VFloat (84 * 9.81)]> (<["oswald" := ve]>
            (<["AR" := vAR]> (<["SFCSL" := vsf]> (<["thrust_sl" := vth]>
            (<["ac_w" := vac]> (<["S" := vS]> (attrs s))))))))
           (children s) (connections s) (passthroughs s)).
Proof.
  intros H1 H2 H3 H4 H5 H6 H7 H8.
  unfold load_parameters, mbind, build_bind, lift, setattr, modify.
  rewrite H1, H2, H3, H4, H5, H6, H7, H8. reflexivity.
Qed.

Lemma load_tables_run a s vCL vCD vCM vnum :
  Py.getitem (aero_surr a) "CL" = Ok vCL ->
  Py.getitem (aero_surr a) "CD" = Ok vCD ->
  Py.getitem (aero_surr a) "CM" = Ok vCM ->
  Py.getitem (aero_surr a) "nums" = Ok vnum ->
  load_tables a s =
  Ok (tt, Assembly
           (<["num" := vnum]> (<["CM_arr" := vCM]> (<["CD_arr" := vCD]>
            (<["CL_arr" := vCL]> (<["jac_gamma" := jac_gamma a]>
            (<["jac_h" := jac_h a]> (attrs s)))))))
           (children s) (connections s) (passthroughs s)).
Proof.
  intros H1 H2 H3 H4.
  unfold load_tables, mbind, build_bind, lift, setattr, modify.
  rewrite H1, H2, H3, H4. reflexivity.
Qed.

Lemma MissionSegment_loaded a i :
  loaded execfile a i ->
  MissionSegment execfile a
  = construct (fun _ => configure a (loaded_state a i)).
Proof.
  intros (data & params & H1 & H2 & H3 & H4 & H5 & H6 & H7 & H8 & H9 & H10
          & H11 & H12).
  unfold MissionSegment, construct, init_body. f_equal.
  do 3 (erewrite bind_step by reflexivity).
  erewrite bind_step by (eapply load_parameters_run; eassumption).
  erewrite bind_step by (eapply load_tables_run; eassumption).
  reflexivity.
Qed.

(** Once the inputs are loaded, the wiring itself cannot fail. *)
Lemma configure_total a i :
  Py.is_ok (configure a (loaded_state a i)) = true.
Proof. vm_compute. reflexivity. Qed.

(** A segment is assembled exactly when the ten reads succeed. *)
Lemma MissionSegment_Ok_iff a :
  (exists seg, MissionSegment execfile a = Ok seg)
  <-> exists i, loaded execfile a i.
Proof.
  split.
  - intros (seg & H). apply MissionSegment_inv in H as (i & Hi & _). eauto.
  - intros (i & Hi). rewrite (MissionSegment_loaded _ _ Hi).
    pose proof (configure_total a i) as Hok. unfold construct.
    destruct (configure a (loaded_state a i)) as [[[] s] | e];
      [eauto | discriminate].
Qed.

End Constructor.

(** The profile that [configure] computes for [fuel_w] is a value like any
    other to the wiring: it is set aside before the run is evaluated. *)
Ltac hide_profile H :=
  unfold Segment.configure, Segment.add_coupled_comps in H;
  revert H;
  repeat match goal with
         | |- context [Numpy.linspace ?x ?y ?n] =>
             generalize (Numpy.linspace x y n); intro
         end;
  intros H.

(** Read a fact about an assembled segment off the run of [configure]. *)
Ltac configured H :=
  hide_profile H;
  match type of H with
  | _ = Ok (tt, ?seg) =>
      pattern seg;
      match goal with
      | |- ?P seg =>
          change (match Ok (tt, seg) with
                  | Ok (_, s) => P s
                  | Raise _ => True
                  end);
          rewrite <- H; vm_compute
      end
  end.


Section Assembled.
Import OpenMDAO Segment.

Variable execfile : value -> result (gmap string value).

(** The Newton solver of an assembled segment: its workflow, its unknowns
    and its settings. *)
Lemma assembled_solver a seg :
  MissionSegment execfile a = Ok seg ->
  exists d,
    get_driver seg "coupled_solver" = Some d /\
    dcls d = "NewtonSolver" /\
    workflow d =
      ["SysCLTar"; "SysTripanCLSurrogate"; "SysTripanCMSurrogate";
       "SysTripanCDSurrogate"; "SysCTTar"; "SysFuelWeight"] /\
    parameters d =
      ["SysTripanCLSurrogate.alpha"; "SysTripanCMSurrogate.eta"] /\
    constraints d =
      ["SysTripanCLSurrogate.alpha_res = 0"; "SysTripanCMSurrogate.CM = 0"] /\
    settings d !! "atol" = Some (VFloat 1e-9) /\
    settings d !! "rtol" = Some (VFloat 1e-9) /\
    settings d !! "max_iteration" = Some (VInt 15).
Proof.
  intros H. apply MissionSegment_inv in H as (i & _ & H).
  assert (G : (fun d => (dcls d, workflow d, parameters d, constraints d,
                         settings d !! "atol", settings d !! "rtol",
                         settings d !! "max_iteration"))
              <$> get_driver seg "coupled_solver"
              = Some ("NewtonSolver",
                      ["SysCLTar"; "SysTripanCLSurrogate";
                       "SysTripanCMSurrogate"; "SysTripanCDSurrogate";
                       "SysCTTar"; "SysFuelWeight"],
                      ["SysTripanCLSurrogate.alpha";
                       "SysTripanCMSurrogate.eta"],
                      ["SysTripanCLSurrogate.alpha_res = 0";
                       "SysTripanCMSurrogate.CM = 0"],
                      Some (VFloat 1e-9), Some (VFloat 1e-9),
                      Some (VInt 15))).
  { configured H. reflexivity. }
  destruct (get_driver seg "coupled_solver") as [d |]; [| discriminate].
  cbn in G. injection G as G1 G2 G3 G4 G5 G6 G7.
  exists d. repeat (split; [first [assumption | reflexivity] |]). assumption.
Qed.

(** The top driver of an assembled segment: its workflow, and nothing
    registered with it. *)
Lemma assembled_driver a seg :
  MissionSegment execfile a = Ok seg ->
  exists d,
    get_driver seg "driver" = Some d /\
    workflow d =
      ["SysXBspline"; "SysHBspline"; "SysMVBspline"; "SysGammaBspline";
       "SysSFC"; "SysTemp"; "SysRho"; "SysSpeed";
       "coupled_solver";
       "SysTau"; "SysTmin"; "SysTmax"; "SysFuelObj"; "SysBlockTime"] /\
    parameters d = [] /\
    constraints d = [].
Proof.
  intros H. apply MissionSegment_inv in H as (i & _ & H).
  assert (G : (fun d => (workflow d, parameters d, constraints d))
              <$> get_driver seg "driver"
              = Some (["SysXBspline"; "SysHBspline"; "SysMVBspline";
                       "SysGammaBspline"; "SysSFC"; "SysTemp"; "SysRho";
                       "SysSpeed"; "coupled_solver"; "SysTau"; "SysTmin";
                       "SysTmax"; "SysFuelObj"; "SysBlockTime"], [], [])).
  { configured H. reflexivity. }
  destruct (get_driver seg "driver") as [d |]; [| discriminate].
  cbn in G. injection G as G1 G2 G3.
  exists d. repeat (split; [first [assumption | reflexivity] |]). assumption.
Qed.

(** The drivers of an assembled segment are these two and no other. *)
Lemma assembled_drivers a seg :
  MissionSegment execfile a = Ok seg ->
  omap (fun c => match c.2 with Drv _ => Some c.1 | _ => None end)
       (children seg)
  = ["driver"; "coupled_solver"].
Proof.
  intros H. apply MissionSegment_inv in H as (i & _ & H).
  configured H. reflexivity.
Qed.

(** Every input of an assembled segment has one source: no destination
    occurs twice among the connections. *)
Lemma assembled_single_source a seg :
  MissionSegment execfile a = Ok seg ->
  NoDup (map snd (connections seg)) /\ length (connections seg) = 49.
Proof.
  intros H. apply MissionSegment_inv in H as (i & _ & H).
  split; [apply (bool_decide_unpack _) |]; configured H;
    [exact I | reflexivity].
Qed.

End Assembled.

(** The example leg is assembled. *)
Lemma example_assembled :
  Segment.MissionSegment Example.execfile Example.args
  = Ok (Example.assembled Example.args).
Proof. vm_compute. reflexivity. Qed.

(** ** The unknowns of the coupled solve *)

(** C1: in every assembled MissionSegment the Newton solver [coupled_solver]
    is given exactly two parameters, [SysTripanCLSurrogate.alpha] and
    [SysTripanCMSurrogate.eta], and exactly two constraints,
    [SysTripanCLSurrogate.alpha_res = 0] and [SysTripanCMSurrogate.CM = 0],
    in this pairing; it is the only driver besides the top one, which has
    no parameter and no constraint. *)
Theorem coupled_solver_two_implicit_states
    (execfile : value -> result (gmap string value))
    (a : Segment.init_args) (seg : Segment.segment) :
  Segment.MissionSegment execfile a = Ok seg ->
  exists d d0,
    OpenMDAO.get_driver seg "coupled_solver" = Some d /\
    OpenMDAO.dcls d = "NewtonSolver" /\
    zip (OpenMDAO.parameters d) (OpenMDAO.constraints d)
    = [("SysTripanCLSurrogate.alpha", "SysTripanCLSurrogate.alpha_res = 0");
       ("SysTripanCMSurrogate.eta", "SysTripanCMSurrogate.CM = 0")] /\
    length (OpenMDAO.parameters d) = 2 /\
    length (OpenMDAO.constraints d) = 2 /\
    OpenMDAO.get_driver seg "driver" = Some d0 /\
    OpenMDAO.parameters d0 = [] /\
    OpenMDAO.constraints d0 = [] /\
    forall name d', OpenMDAO.get_driver seg name = Some d' ->
                    name = "driver" \/ name = "coupled_solver".
Proof.
  intros H.
  destruct (assembled_solver _ _ _ H)
    as (d & Hd & Hc & _ & Hp & Hk & _).
  destruct (assembled_driver _ _ _ H) as (d0 & Hd0 & _ & Hp0 & Hk0).
  pose proof (assembled_drivers _ _ _ H) as Hall.
  exists d, d0. rewrite Hp, Hk.
  repeat (split; [first [assumption | reflexivity] |]).
  intros name d' Hn.
  assert (In name ["driver"; "coupled_solver"]) as [<- | [<- | []]]; auto.
  rewrite <- Hall. clear - Hn.
  unfold OpenMDAO.get_driver in Hn.
  induction (OpenMDAO.children seg) as [| [k c] l IH]; [discriminate |].
  cbn in Hn. destruct (String.eqb_spec name k) as [-> | Hne].
  - destruct c; try discriminate. cbn. now left.
  - cbn. destruct c; cbn; auto.
Qed.

Lemma coupled_solver_two_implicit_states_witness :
  exists d d0,
    OpenMDAO.get_driver (Example.assembled Example.args) "coupled_solver"
    = Some d /\
    OpenMDAO.dcls d = "NewtonSolver" /\
    zip (OpenMDAO.parameters d) (OpenMDAO.constraints d)
    = [("SysTripanCLSurrogate.alpha", "SysTripanCLSurrogate.alpha_res = 0");
       ("SysTripanCMSurrogate.eta", "SysTripanCMSurrogate.CM = 0")] /\
    length (OpenMDAO.parameters d) = 2 /\
    length (OpenMDAO.constraints d) = 2 /\
    OpenMDAO.get_driver (Example.assembled Example.args) "driver" = Some d0 /\
    OpenMDAO.parameters d0 = [] /\
    OpenMDAO.constraints d0 = [] /\
    forall name d',
      OpenMDAO.get_driver (Example.assembled Example.args) name = Some d' ->
      name = "driver" \/ name = "coupled_solver".
Proof.
  exact (coupled_solver_two_implicit_states
           Example.execfile Example.args _ example_assembled).
Defined.

(** ** The iteration hierarchy *)

Section Workflow.
Import OpenMDAO Execution.

Context {C : Type}.
Variable compute : string -> C -> C.
Variable solve : string -> driver -> assembly C -> assembly C.
Variable get_port : C -> string -> option value.
Variable set_port : string -> value -> C -> C.



End Workflow.



(** ** The boundary of a segment *)

(** C8: every assembled MissionSegment has exactly nine passthroughs, made in
    this order: [h_pt], [v_pt], [M_pt], [Tmin], [Tmax], [fuelburn], [time],
    [h] and [Gamma], each named after and linked to the variable of the same
    name in SysHBspline, SysMVBspline (twice), SysTmin, SysTmax, SysFuelObj,
    SysBlockTime, SysHBspline and SysGammaBspline; and the boundary [h_pt]
    also feeds [SysGammaBspline.h_pt]. *)
Theorem passthrough_boundary_ports
    (execfile : value -> result (gmap string value))
    (a : Segment.init_args) (seg : Segment.segment) :
  Segment.MissionSegment execfile a = Ok seg ->
  OpenMDAO.passthroughs seg
  = [("h_pt", "SysHBspline.h_pt"); ("v_pt", "SysMVBspline.v_pt");
     ("M_pt", "SysMVBspline.M_pt"); ("Tmin", "SysTmin.Tmin");
     ("Tmax", "SysTmax.Tmax"); ("fuelburn", "SysFuelObj.fuelburn");
     ("time", "SysBlockTime.time"); ("h", "SysHBspline.h");
     ("Gamma", "SysGammaBspline.Gamma")] /\
  OpenMDAO.boundary_ports seg
  = ["h_pt"; "v_pt"; "M_pt"; "Tmin"; "Tmax"; "fuelburn"; "time"; "h";
     "Gamma"] /\
  In ("h_pt", "SysGammaBspline.h_pt") (OpenMDAO.connections seg).
Proof.
  intros H. apply MissionSegment_inv in H as (i & _ & H).
  assert (G : (OpenMDAO.passthroughs seg, OpenMDAO.boundary_ports seg,
               existsb (fun c => String.eqb c.1 "h_pt"
                                 && String.eqb c.2 "SysGammaBspline.h_pt")
                       (OpenMDAO.connections seg))
              = ([("h_pt", "SysHBspline.h_pt"); ("v_pt", "SysMVBspline.v_pt");
                  ("M_pt", "SysMVBspline.M_pt"); ("Tmin", "SysTmin.Tmin");
                  ("Tmax", "SysTmax.Tmax"); ("fuelburn", "SysFuelObj.fuelburn");
                  ("time", "SysBlockTime.time"); ("h", "SysHBspline.h");
                  ("Gamma", "SysGammaBspline.Gamma")],
                 ["h_pt"; "v_pt"; "M_pt"; "Tmin"; "Tmax"; "fuelburn"; "time";
                  "h"; "Gamma"], true)).
  { configured H. reflexivity. }
  injection G as G1 G2 G3. repeat split; try assumption.
  apply existsb_exists in G3 as ([src dst] & Hin & Heq).
  apply andb_prop in Heq as [E1 E2]. cbn in E1, E2.
  apply String.eqb_eq in E1, E2. now subst.
Qed.

Lemma passthrough_boundary_ports_witness :
  OpenMDAO.boundary_ports (Example.assembled Example.args)
  = ["h_pt"; "v_pt"; "M_pt"; "Tmin"; "Tmax"; "fuelburn"; "time"; "h";
     "Gamma"].
Proof.
  exact (proj1 (proj2 (passthrough_boundary_ports Example.execfile
                         Example.args _ example_assembled))).
Defined.

(** ** The initial guess of the fuel weight *)

Section Rounding.

(** Rounding to the nearest integer is off by a half at most. *)
Lemma rne_error p d :
  (- (1 # 2) <= inject_Z (Float.rne p d) - (p # d) <= 1 # 2)%Q.
Proof.
  unfold Float.rne.
  pose proof (Z.div_mod p (Zpos d) ltac:(lia)) as Hdm.
  pose proof (Z.mod_pos_bound p (Zpos d) ltac:(lia)) as Hr.
  set (q := (p / Zpos d)%Z) in *. set (r := (p mod Zpos d)%Z) in *.
  assert (Hcases : forall m,
             (m = q /\ 2 * r <= Zpos d \/ m = q + 1 /\ Zpos d <= 2 * r)%Z ->
             (- (1 # 2) <= inject_Z m - (p # d) <= 1 # 2)%Q).
  { intros m Hm. unfold Qle, Qminus, Qplus, Qopp, inject_Z. cbn. nia. }
  apply Hcases.
  destruct (Z.compare_spec (2 * r) (Zpos d)) as [E | E | E].
  - destruct (Z.even q); [left | right]; lia.
  - left; lia.
  - right; lia.
Qed.

(** An integer is its own nearest integer. *)
Lemma rne_int p d k : (p # d == inject_Z k)%Q -> Float.rne p d = k.
Proof.
  unfold Qeq, inject_Z. cbn. intros H.
  assert (Hp : p = (k * Zpos d)%Z) by lia.
  unfold Float.rne. rewrite Hp, Z.div_mul, Z.mod_mul by lia.
  reflexivity.
Qed.

Lemma two_pow_pos e : (0 < 2 ^ e)%Q.
Proof. apply Qpower_0_lt. reflexivity. Qed.

(** The 53 bits of [x] start no lower than [exponent x]. *)
Lemma exponent_spec x :
  ~ (x == 0)%Q -> (2 ^ (Float.exponent x + 52) <= Qabs x)%Q.
Proof.
  intros Hx. unfold Float.exponent.
  set (e := (Z.log2 (Z.abs (Qnum x)) - Z.log2 (Zpos (Qden x)))%Z).
  destruct (Qle_bool (2 ^ e) (Qabs x)) eqn:E.
  - replace (e - 52 + 52)%Z with e by lia. now apply Qle_bool_iff.
  - replace (e - 53 + 52)%Z with (e - 1)%Z by lia.
    destruct x as [p d]. cbn [Qnum Qden] in *.
    assert (Hp : (0 < Z.abs p)%Z).
    { unfold Qeq in Hx. cbn in Hx. lia. }
    pose proof (Z.log2_spec (Z.abs p) Hp) as [Hp1 _].
    pose proof (Z.log2_spec (Zpos d) ltac:(lia)) as [_ Hd2].
    pose proof (Z.log2_nonneg (Z.abs p)) as Hlp.
    pose proof (Z.log2_nonneg (Zpos d)) as Hld.
    set (lp := Z.log2 (Z.abs p)) in *. set (ld := Z.log2 (Zpos d)) in *.
    replace (e - 1)%Z with (lp - Z.succ ld)%Z by (unfold e; lia).
    rewrite Qpower_minus by discriminate.
    assert (E1 : (2 ^ lp == inject_Z (2 ^ lp))%Q)
      by (rewrite Zpower_Qpower by lia; reflexivity).
    assert (E2 : (2 ^ Z.succ ld == inject_Z (2 ^ Z.succ ld))%Q)
      by (rewrite Zpower_Qpower by lia; reflexivity).
    rewrite E1, E2.
    assert (Hq : (Qabs (p # d) == inject_Z (Z.abs p) / inject_Z (Zpos d))%Q).
    { unfold Qabs. rewrite (Qmake_Qdiv (Z.abs p) d). reflexivity. }
    rewrite Hq.
    assert (H2 : (0 < inject_Z (2 ^ Z.succ ld))%Q).
    { rewrite <- E2. apply two_pow_pos. }
    assert (H3 : (0 < inject_Z (Zpos d))%Q) by reflexivity.
    apply Qle_shift_div_l; [assumption |].
    unfold Qdiv. rewrite <- Qmult_assoc, (Qmult_comm (/ _)), Qmult_assoc.
    apply Qle_shift_div_r; [assumption |].
    rewrite <- !inject_Z_mult, <- Zle_Qle.
    nia.
Qed.

(** [round] depends on the value only, not on the fraction that denotes
    it. *)
Lemma round_comp x y : (x == y)%Q -> Float.round x = Float.round y.
Proof. intros H. unfold Float.round. now rewrite (Qred_complete x y H). Qed.

#[global] Instance round_proper : Proper (Qeq ==> Qeq) Float.round.
Proof. intros x y H. now rewrite (round_comp x y H). Qed.

(** The error of [round] is at most the unit roundoff, relative to [x]. *)
Lemma round_abs_error x :
  (Qabs (Float.round x - x) <= Float.u * Qabs x)%Q.
Proof.
  unfold Float.round.
  pose proof (Qred_correct x) as Hx. set (x' := Qred x) in *.
  destruct (Qeq_bool x' 0) eqn:E0.
  - apply Qeq_bool_eq in E0. rewrite <- Hx, E0. discriminate.
  - assert (Hn : ~ (x' == 0)%Q) by now apply Qeq_bool_neq.
    pose proof (exponent_spec x' Hn) as HE.
    set (E := Float.exponent x') in *.
    set (y := (x' / 2 ^ E)%Q).
    pose proof (rne_error (Qnum y) (Qden y)) as Hm.
    set (m := inject_Z (Float.rne (Qnum y) (Qden y))) in *.
    assert (Hy : (Qnum y # Qden y == y)%Q) by (now destruct y).
    rewrite Qred_correct, <- Hx.
    pose proof (two_pow_pos E) as HpE.
    assert (Hrew : (m * 2 ^ E - x' == (m - y) * 2 ^ E)%Q).
    { unfold y. field. intros H0. rewrite H0 in HpE. discriminate. }
    rewrite Hrew, Qabs_Qmult, (Qabs_pos (2 ^ E)) by now apply Qlt_le_weak.
    assert (Hm' : (Qabs (m - y) <= 1 # 2)%Q).
    { apply Qabs_Qle_condition. rewrite <- Hy. exact Hm. }
    assert (H52 : (2 ^ (E + 52) == 2 ^ E * 4503599627370496)%Q).
    { rewrite Qpower_plus by discriminate. reflexivity. }
    rewrite H52 in HE.
    assert (Hstep : (Qabs (m - y) * 2 ^ E <= (1 # 2) * 2 ^ E)%Q).
    { apply Qmult_le_compat_r; [assumption | now apply Qlt_le_weak]. }
    eapply Qle_trans; [exact Hstep |].
    assert (Hu : ((1 # 2) * 2 ^ E == Float.u * (2 ^ E * 4503599627370496))%Q).
    { unfold Float.u. field. }
    rewrite Hu. apply Qmult_le_l; [reflexivity | assumption].
Qed.

(** The standard model of a rounded operation: the exact result times
    [1 + d] for some [|d| <= u]. *)
Lemma round_rel x :
  exists d, (- Float.u <= d <= Float.u)%Q /\ (Float.round x == x * (1 + d))%Q.
Proof.
  destruct (Qeq_dec x 0) as [E0 | Hn].
  - exists 0%Q. split; [split; discriminate |].
    rewrite (round_comp x 0 E0), E0. reflexivity.
  - exists ((Float.round x - x) / x)%Q. split.
    + apply Qabs_Qle_condition.
      unfold Qdiv. rewrite Qabs_Qmult, Qabs_Qinv.
      assert (Hpos : (0 < Qabs x)%Q).
      { apply Qabs_case; intros H.
        - apply Qle_lteq in H. destruct H as [H | H]; [assumption |].
          symmetry in H. contradiction.
        - apply Qle_lteq in H. destruct H as [H | H]; [lra | contradiction]. }
      apply Qle_shift_div_r; [assumption |]. apply round_abs_error.
    + field. assumption.
Qed.

(** An integer below [2^53] is a double. *)
Lemma round_Z z :
  (Z.abs z < 2 ^ 53)%Z -> (Float.round (inject_Z z) == inject_Z z)%Q.
Proof.
  intros Hz. unfold Float.round.
  pose proof (Qred_correct (inject_Z z)) as Hx.
  set (x' := Qred (inject_Z z)) in *.
  destruct (Qeq_bool x' 0) eqn:E0.
  - apply Qeq_bool_eq in E0. now rewrite <- Hx, E0.
  - assert (Hn : ~ (x' == 0)%Q) by now apply Qeq_bool_neq.
    pose proof (exponent_spec _ Hn) as HE.
    set (E := Float.exponent x') in *.
    assert (HE0 : (E <= 0)%Z).
    { assert (Hlt : (2 ^ (E + 52) < 2 ^ 53)%Q).
      { eapply Qle_lt_trans; [exact HE |]. rewrite Hx.
        assert (Ha : (Qabs (inject_Z z) == inject_Z (Z.abs z))%Q)
          by reflexivity.
        rewrite Ha.
        assert (Hb : (2 ^ 53 == inject_Z (2 ^ 53))%Q) by reflexivity.
        rewrite Hb, <- Zlt_Qlt. exact Hz. }
      apply Qpower_lt_compat_l_inv in Hlt; [lia | reflexivity]. }
    pose proof (two_pow_pos E) as HpE.
    assert (HnE : ~ (2 ^ E == 0)%Q).
    { intros H0. rewrite H0 in HpE. discriminate. }
    set (y := (x' / 2 ^ E)%Q).
    assert (Hy : (Qnum y # Qden y == inject_Z (z * 2 ^ (- E)))%Q).
    { assert (Hy0 : (Qnum y # Qden y == y)%Q) by (now destruct y).
      rewrite Hy0. unfold y. rewrite Hx, inject_Z_mult, Zpower_Qpower by lia.
      change (inject_Z 2) with 2%Q.
      rewrite Qpower_opp. reflexivity. }
    rewrite (rne_int _ _ _ Hy), Qred_correct.
    rewrite inject_Z_mult, Zpower_Qpower by lia.
    change (inject_Z 2) with 2%Q.
    rewrite Qpower_opp. field. exact HnE.
Qed.

End Rounding.

Section Linspace.
Import Numpy.

Lemma map_fmap {A B} (f : A -> B) (l : list A) : map f l = f <$> l.
Proof. induction l as [| x l IH]; cbn; [reflexivity | now rewrite IH]. Qed.

Lemma arange_length n : length (arange n) = n.
Proof. unfold arange. now rewrite length_map, length_seq. Qed.

Lemma arange_lookup n i :
  i < n -> arange n !! i = Some (Float.of_Z (Z.of_nat i)).
Proof.
  intros H. unfold arange.
  rewrite map_fmap, list_lookup_fmap, lookup_seq_lt by lia.
  reflexivity.
Qed.

Lemma linspace_length start stop num :
  length (linspace start stop num) = Z.to_nat num.
Proof.
  unfold linspace, set_last.
  destruct (Z.leb_spec num 0); [cbn; lia |].
  destruct (Z.eqb_spec num 1); [subst; reflexivity |].
  now rewrite length_insert, length_map, arange_length.
Qed.

(** Every entry but the last is [i * step + start], rounded twice. *)
Lemma linspace_lookup start stop num i :
  (2 <= num)%Z -> S i < Z.to_nat num ->
  linspace start stop num !! i
  = Some (Float.add
            (Float.mul (Float.of_Z (Z.of_nat i))
               (Float.div (Float.sub stop start) (Float.of_Z (num - 1))))
            start).
Proof.
  intros Hn Hi. unfold linspace, set_last.
  destruct (Z.leb_spec num 0); [lia |].
  destruct (Z.eqb_spec num 1); [lia |].
  rewrite list_lookup_insert_ne
    by (rewrite length_map, arange_length; lia).
  rewrite map_fmap, list_lookup_fmap, arange_lookup by lia. reflexivity.
Qed.

(** The last entry is [stop] itself. *)
Lemma linspace_lookup_last start stop num :
  (2 <= num)%Z ->
  linspace start stop num !! (Z.to_nat num - 1) = Some stop.
Proof.
  intros Hn. unfold linspace, set_last.
  destruct (Z.leb_spec num 0); [lia |].
  destruct (Z.eqb_spec num 1); [lia |].
  rewrite length_map, arange_length.
  replace (Nat.pred (Z.to_nat num)) with (Z.to_nat num - 1) by lia.
  apply list_lookup_insert_eq. rewrite length_map, arange_length. lia.
Qed.

(** The doubles of [np.linspace(1.0, 0.0, 11)]: station 6 is the double
    printed as 0.3999999999999999, not the double nearest to 0.4. *)
Lemma linspace_eleven_stations :
  linspace 1.0 0.0 11
  = [1; 8106479329266893 # 9007199254740992;
     3602879701896397 # 4503599627370496;
     3152519739159347 # 4503599627370496;
     5404319552844595 # 9007199254740992; 1 # 2;
     900719925474099 # 2251799813685248;
     2702159776422297 # 9007199254740992;
     900719925474099 # 4503599627370496;
     900719925474099 # 9007199254740992; 0.0]%Q /\
  Float.round 0.4 = (3602879701896397 # 9007199254740992)%Q.
Proof. split; vm_compute; reflexivity. Qed.

(** An inner station of [linspace 1.0 0.0 (n + 1)], in terms of the three
    rounding errors made on the way: of the step, of the product and of the
    sum. *)
Lemma linspace_1_0_inner (n : Z) (i : nat) :
  (1 <= n < 2 ^ 53)%Z -> (Z.of_nat i < n)%Z ->
  exists d1 d2 d3,
    (- Float.u <= d1 <= Float.u)%Q /\
    (- Float.u <= d2 <= Float.u)%Q /\
    (- Float.u <= d3 <= Float.u)%Q /\
    (nth i (linspace 1.0 0.0 (n + 1)) 0
     == (1 - inject_Z (Z.of_nat i) / inject_Z n * ((1 + d1) * (1 + d2)))
        * (1 + d3))%Q.
Proof.
  intros Hn Hi.
  erewrite nth_lookup_Some by (apply linspace_lookup; lia).
  replace (n + 1 - 1)%Z with n by lia.
  unfold Float.add, Float.mul, Float.div, Float.sub, Float.of_Z.
  assert (Hn0 : ~ (inject_Z n == 0)%Q).
  { unfold Qeq. cbn. lia. }
  assert (E1 : Float.round (0.0 - 1.0) = (- (1))%Q)
    by (vm_compute; reflexivity).
  rewrite E1.
  destruct (round_rel (- (1) / inject_Z n)) as (d1 & Hd1 & Es).
  rewrite (round_comp (- (1) / Float.round (inject_Z n)) (- (1) / inject_Z n))
    by (rewrite round_Z by lia; reflexivity).
  set (s := Float.round (- (1) / inject_Z n)) in *.
  rewrite (round_comp (Float.round (inject_Z (Z.of_nat i)) * s)
                      (inject_Z (Z.of_nat i) * s))
    by (rewrite round_Z by lia; reflexivity).
  destruct (round_rel (inject_Z (Z.of_nat i) * s)) as (d2 & Hd2 & Ep).
  set (p := Float.round (inject_Z (Z.of_nat i) * s)) in *.
  destruct (round_rel (p + 1.0)) as (d3 & Hd3 & Ey).
  exists d1, d2, d3. repeat (split; [assumption |]).
  rewrite Ey, Ep, Es. field. exact Hn0.
Qed.

(** From 1 down to 0 over [n + 1] stations: station [i] holds [1 - i / n]
    to within [2^-51]. *)
Lemma linspace_1_0_error (n : Z) (i : nat) :
  (1 <= n < 2 ^ 53)%Z -> (Z.of_nat i <= n)%Z ->
  (Qabs (nth i (linspace 1.0 0.0 (n + 1)) 0
         - (1 - inject_Z (Z.of_nat i) / inject_Z n))
   <= 1 # 2251799813685248)%Q.
Proof.
  intros Hn Hi.
  assert (Hn0 : ~ (inject_Z n == 0)%Q).
  { unfold Qeq. cbn. lia. }
  destruct (Z.eq_dec (Z.of_nat i) n) as [E | E].
  - replace i with (Z.to_nat (n + 1) - 1) at 1 by lia.
    erewrite nth_lookup_Some by (apply linspace_lookup_last; lia).
    rewrite E.
    assert (Hz : (0.0 - (1 - inject_Z n / inject_Z n) == 0)%Q)
      by (field; exact Hn0).
    rewrite Hz. discriminate.
  - destruct (linspace_1_0_inner n i Hn ltac:(lia))
      as (d1 & d2 & d3 & H1 & H2 & H3 & ->).
    set (t := (inject_Z (Z.of_nat i) / inject_Z n)%Q).
    assert (Ht : (0 <= t <= 1)%Q).
    { unfold t. split.
      - apply Qle_shift_div_l; [rewrite <- (Zlt_Qlt 0); lia |].
        rewrite Qmult_0_l. rewrite <- (Zle_Qle 0). lia.
      - apply Qle_shift_div_r; [rewrite <- (Zlt_Qlt 0); lia |].
        rewrite Qmult_1_l. rewrite <- Zle_Qle. lia. }
    clearbody t. unfold Float.u in *.
    apply Qabs_Qle_condition.
    set (A := ((1 + d1) * (1 + d2))%Q).
    assert (HA : (1 - (3 # 9007199254740992) <= A
                  <= 1 + (3 # 9007199254740992))%Q).
    { unfold A. split; nra. }
    clearbody A.
    assert (HB : (0 <= t * A <= 2)%Q) by (split; nra).
    assert (HtA : (- (3 # 9007199254740992) <= t * (1 - A)
                   <= 3 # 9007199254740992)%Q)
      by (split; nra).
    set (B := (t * A)%Q) in *.
    assert (Hd : (- (1 # 9007199254740992) <= d3 * (1 - B)
                  <= 1 # 9007199254740992)%Q)
      by (split; nra).
    assert (Heq : ((1 - B) * (1 + d3) - (1 - t)
                   == d3 * (1 - B) + t * (1 - A))%Q)
      by (unfold B; ring).
    rewrite Heq. split; lra.
Qed.

(** The first station is 1 exactly. *)
Lemma linspace_1_0_first (n : Z) :
  (1 <= n)%Z -> nth 0 (linspace 1.0 0.0 (n + 1)) 0%Q = 1%Q.
Proof.
  intros Hn.
  erewrite nth_lookup_Some by (apply linspace_lookup; lia).
  unfold Float.add, Float.mul, Float.of_Z.
  set (s := Float.div _ _).
  match goal with |- Float.round (Float.round ?x + _) = _ =>
    rewrite (round_comp x 0)
      by (change (Float.round (inject_Z (Z.of_nat 0))) with 0%Q; ring) end.
  reflexivity.
Qed.

(** The last station is 0 exactly. *)
Lemma linspace_1_0_last (n : Z) :
  (1 <= n)%Z -> nth (Z.to_nat n) (linspace 1.0 0.0 (n + 1)) 0%Q = 0.0%Q.
Proof.
  intros Hn.
  replace (Z.to_nat n) with (Z.to_nat (n + 1) - 1) by lia.
  erewrite nth_lookup_Some by (apply linspace_lookup_last; lia).
  reflexivity.
Qed.

(** Below [2^50] stations the rounding cannot undo a step of [1 / n]. *)
Lemma linspace_1_0_decreasing (n : Z) (i : nat) :
  (1 <= n < 2 ^ 50)%Z -> (Z.of_nat i < n)%Z ->
  (nth (S i) (linspace 1.0 0.0 (n + 1)) 0
   < nth i (linspace 1.0 0.0 (n + 1)) 0)%Q.
Proof.
  intros Hn Hi.
  pose proof (linspace_1_0_error n i ltac:(lia) ltac:(lia)) as H1.
  pose proof (linspace_1_0_error n (S i) ltac:(lia) ltac:(lia)) as H2.
  apply Qabs_Qle_condition in H1, H2.
  assert (Hn0 : ~ (inject_Z n == 0)%Q).
  { unfold Qeq. cbn. lia. }
  assert (HS : (inject_Z (Z.of_nat (S i)) / inject_Z n
                == inject_Z (Z.of_nat i) / inject_Z n + 1 / inject_Z n)%Q).
  { rewrite Nat2Z.inj_succ. unfold Z.succ. rewrite inject_Z_plus.
    field. exact Hn0. }
  rewrite HS in H2.
  assert (Hd : ((1 # 1125899906842624) < 1 / inject_Z n)%Q).
  { apply Qlt_shift_div_l; [rewrite <- (Zlt_Qlt 0); lia |].
    assert (Hlt : (inject_Z n < inject_Z (2 ^ 50))%Q)
      by (rewrite <- Zlt_Qlt; lia).
    change (inject_Z (2 ^ 50)) with (1125899906842624%Q) in Hlt. lra. }
  set (t := (inject_Z (Z.of_nat i) / inject_Z n)%Q) in *.
  set (dl := (1 / inject_Z n)%Q) in *.
  lra.
Qed.

End Linspace.

Section FuelWeight.
Import OpenMDAO Segment.

Variable execfile : value -> result (gmap string value).

(** The attribute assigned at line 184. *)
Lemma assembled_fuel_w a seg :
  MissionSegment execfile a = Ok seg ->
  exists c,
    get_component seg "SysFuelWeight" = Some c /\
    cattrs c !! "fuel_w"
    = Some (VArray (Numpy.linspace 1.0 0.0 (num_elem a + 1))).
Proof.
  intros H. apply MissionSegment_inv in H as (i & _ & H).
  assert (G : (fun c => cattrs c !! "fuel_w")
              <$> get_component seg "SysFuelWeight"
              = Some (Some (VArray (Numpy.linspace 1.0 0.0 (num_elem a + 1))))).
  { configured H. reflexivity. }
  destruct (get_component seg "SysFuelWeight") as [c |]; [| discriminate].
  cbn in G. injection G as G. eauto.
Qed.

End FuelWeight.

(** C9, as the code has it: assembly sets [SysFuelWeight.fuel_w] to
    [np.linspace(1.0, 0.0, num_elem + 1)], an array of [num_elem + 1]
    doubles.  With [num_elem = 0] it is the single value 1.  With
    [num_elem >= 1] (below [2^50]) it starts at 1 exactly, ends at 0
    exactly, holds at station [i] the value [1 - i / num_elem] to within
    [2^-51], the rounding of the three double-precision operations that
    compute it, and decreases strictly from each station to the next. *)
Theorem fuel_w_initial_profile
    (execfile : value -> result (gmap string value))
    (a : Segment.init_args) (seg : Segment.segment) :
  Segment.MissionSegment execfile a = Ok seg ->
  (0 <= Segment.num_elem a < 2 ^ 50)%Z ->
  exists c fw,
    OpenMDAO.get_component seg "SysFuelWeight" = Some c /\
    OpenMDAO.cattrs c !! "fuel_w" = Some (VArray fw) /\
    fw = Numpy.linspace 1.0 0.0 (Segment.num_elem a + 1) /\
    length fw = Z.to_nat (Segment.num_elem a + 1) /\
    (Segment.num_elem a = 0%Z -> fw = [1.0%Q]) /\
    ((1 <= Segment.num_elem a)%Z ->
     (nth 0 fw 0 == 1)%Q /\
     (nth (Z.to_nat (Segment.num_elem a)) fw 0 == 0)%Q /\
     (forall i : nat,
        (Z.of_nat i <= Segment.num_elem a)%Z ->
        Qabs (nth i fw 0
              - (1 - inject_Z (Z.of_nat i) / inject_Z (Segment.num_elem a)))
        <= 1 # 2251799813685248)%Q /\
     (forall i : nat,
        (Z.of_nat i < Segment.num_elem a)%Z ->
        nth (S i) fw 0 < nth i fw 0)%Q).
Proof.
  intros H Hn.
  destruct (assembled_fuel_w _ _ _ H) as (c & Hc & Hfw).
  set (n := Segment.num_elem a) in *.
  exists c, (Numpy.linspace 1.0 0.0 (n + 1)).
  split; [assumption |]. split; [assumption |]. split; [reflexivity |].
  split; [apply linspace_length |].
  split; [intros ->; reflexivity |].
  intros Hn1.
  split; [now rewrite linspace_1_0_first by lia |].
  split; [now rewrite linspace_1_0_last by lia |].
  split.
  - intros i Hi. apply linspace_1_0_error; lia.
  - intros i Hi. apply linspace_1_0_decreasing; lia.
Qed.

Lemma fuel_w_initial_profile_witness :
  exists c fw,
    OpenMDAO.get_component (Example.assembled Example.args) "SysFuelWeight"
    = Some c /\
    OpenMDAO.cattrs c !! "fuel_w" = Some (VArray fw) /\
    length fw = 3 /\
    (nth 0 fw 0 == 1)%Q /\ (nth 2 fw 0 == 0)%Q /\
    (Qabs (nth 1 fw 0 - (1 - 1 / 2)) <= 1 # 2251799813685248)%Q /\
    (nth 1 fw 0 < nth 0 fw 0)%Q /\ (nth 2 fw 0 < nth 1 fw 0)%Q.
Proof.
  destruct (fuel_w_initial_profile Example.execfile Example.args _
              example_assembled ltac:(cbn; lia))
    as (c & fw & Hc & Hfw & _ & Hlen & _ & Hprof).
  destruct (Hprof ltac:(cbn; lia)) as (H0 & Hlast & Herr & Hdec).
  exists c, fw. split; [exact Hc |]. split; [exact Hfw |].
  split; [exact Hlen |]. split; [exact H0 |]. split; [exact Hlast |].
  split; [exact (Herr 1%nat ltac:(cbn; lia)) |].
  split; [exact (Hdec 0%nat ltac:(cbn; lia)) |].
  exact (Hdec 1%nat ltac:(cbn; lia)).
Defined.

(** With [num_elem = 0] the segment is assembled all the same, and the
    profile is the single value 1: it never comes down to 0. *)
Lemma fuel_w_single_station :
  exists seg c,
    Segment.MissionSegment Example.execfile Example.args0 = Ok seg /\
    Segment.num_elem Example.args0 = 0%Z /\
    OpenMDAO.get_component seg "SysFuelWeight" = Some c /\
    OpenMDAO.cattrs c !! "fuel_w" = Some (VArray [1.0%Q]) /\
    ~ (nth (Z.to_nat (Segment.num_elem Example.args0)) [1.0%Q] 0 == 0)%Q.
Proof.
  exists (Example.assembled Example.args0).
  destruct (OpenMDAO.get_component (Example.assembled Example.args0)
              "SysFuelWeight") as [c |] eqn:E; [| vm_compute in E; discriminate].
  exists c.
  split; [vm_compute; reflexivity |]. split; [reflexivity |].
  split; [reflexivity |].
  split.
  - vm_compute in E. injection E as <-. vm_compute. reflexivity.
  - vm_compute. intros Hq. discriminate Hq.
Qed.

(** ** Failing at assembly *)

Section Failing.
Import OpenMDAO Segment.

Lemma bind_cong {C A B} (m m' : Build C A) (k : A -> Build C B) s :
  m s = m' s -> (m ≫= k) s = (m' ≫= k) s.
Proof. unfold mbind, build_bind. now intros ->. Qed.

Variable execfile : value -> result (gmap string value).

(** The constructor up to the point where the parameters are loaded. *)
Lemma MissionSegment_load a :
  MissionSegment execfile a
  = construct (fun _ =>
      (load_parameters execfile a ≫= fun _ => load_tables a ≫= fun _ =>
       configure a)
        (Assembly (<["x_pts" := x_pts a]>
                     (<["num_pt" := VInt (num_cp a)]>
                        (<["num_elem" := VInt (num_elem a)]> ∅)))
                  [("driver", Drv (new_driver "Driver"))] [] [])).
Proof. reflexivity. Qed.

Lemma load_parameters_unreadable a s e :
  execfile (params_file a) = Raise e ->
  load_parameters execfile a s = Raise e.
Proof.
  intros H. unfold load_parameters, mbind, build_bind, lift. now rewrite H.
Qed.

Lemma load_parameters_no_params a s data :
  execfile (params_file a) = Ok data ->
  data !! "params" = None ->
  load_parameters execfile a s = Raise (KeyError "params").
Proof.
  intros H1 H2. unfold load_parameters, mbind, build_bind, lift, Py.getitem.
  now rewrite H1, H2.
Qed.

Lemma load_parameters_missing a s data params k :
  execfile (params_file a) = Ok data ->
  data !! "params" = Some (VDict params) ->
  In k required_keys ->
  params !! k = None ->
  exists k', In k' required_keys /\ params !! k' = None /\
             load_parameters execfile a s = Raise (KeyError k').
Proof.
  intros H1 H2 Hk Hnone.
  unfold load_parameters, mbind, build_bind, lift, setattr, modify, Py.getitem.
  rewrite H1, H2. unfold required_keys.
  destruct (params !! "S") eqn:E1;
    [| exists "S"; cbn; auto 10].
  destruct (params !! "ac_w") eqn:E2;
    [| exists "ac_w"; cbn; auto 10].
  destruct (params !! "thrust_sl") eqn:E3;
    [| exists "thrust_sl"; cbn; auto 10].
  destruct (params !! "SFCSL") eqn:E4;
    [| exists "SFCSL"; cbn; auto 10].
  destruct (params !! "AR") eqn:E5;
    [| exists "AR"; cbn; auto 10].
  destruct (params !! "e") eqn:E6;
    [| exists "e"; cbn; auto 10].
  exfalso. cbn in Hk.
  destruct Hk as [<- | [<- | [<- | [<- | [<- | [<- | []]]]]]]; congruence.
Qed.

(** Only the six keys of the mapping are looked at. *)
Lemma load_parameters_reads_six execfile' a s data data' params params' :
  execfile (params_file a) = Ok data ->
  execfile' (params_file a) = Ok data' ->
  data !! "params" = Some (VDict params) ->
  data' !! "params" = Some (VDict params') ->
  (forall k, In k required_keys -> params !! k = params' !! k) ->
  load_parameters execfile a s = load_parameters execfile' a s.
Proof.
  intros H1 H1' H2 H2' Hk.
  unfold load_parameters, mbind, build_bind, lift, Py.getitem.
  rewrite H1, H1', H2, H2'.
  rewrite !Hk by (cbn; auto 10). reflexivity.
Qed.

End Failing.

(** C7: the constructor reads the parameter source before it wires anything,
    and any failure there ends the construction with the exception, so no
    segment is returned: when [execfile] cannot read or run the file, when the
    file defines no [params], and when [params] lacks one of the keys [S],
    [ac_w], [thrust_sl], [SFCSL], [AR], [e] (the first missing one is
    reported).  No other key of [params] is read: two sources that agree on
    these six keys give the same result. *)
Theorem missing_parameters_fail_at_assembly
    (execfile : value -> result (gmap string value))
    (a : Segment.init_args) :
  (forall e,
     execfile (Segment.params_file a) = Raise e ->
     Segment.MissionSegment execfile a = Raise e) /\
  (forall data,
     execfile (Segment.params_file a) = Ok data ->
     data !! "params" = None ->
     Segment.MissionSegment execfile a = Raise (KeyError "params")) /\
  (forall data params k,
     execfile (Segment.params_file a) = Ok data ->
     data !! "params" = Some (VDict params) ->
     In k Segment.required_keys ->
     params !! k = None ->
     exists k', In k' Segment.required_keys /\ params !! k' = None /\
                Segment.MissionSegment execfile a = Raise (KeyError k')) /\
  (forall execfile' data data' params params',
     execfile (Segment.params_file a) = Ok data ->
     execfile' (Segment.params_file a) = Ok data' ->
     data !! "params" = Some (VDict params) ->
     data' !! "params" = Some (VDict params') ->
     (forall k, In k Segment.required_keys -> params !! k = params' !! k) ->
     Segment.MissionSegment execfile a = Segment.MissionSegment execfile' a).
Proof.
  repeat split.
  - intros e H. rewrite MissionSegment_load. unfold OpenMDAO.construct.
    erewrite bind_Raise; [reflexivity |].
    now apply load_parameters_unreadable.
  - intros data H1 H2. rewrite MissionSegment_load. unfold OpenMDAO.construct.
    erewrite bind_Raise; [reflexivity |].
    eapply load_parameters_no_params; eassumption.
  - intros data params k H1 H2 Hk Hnone.
    rewrite MissionSegment_load. unfold OpenMDAO.construct.
    edestruct load_parameters_missing as (k' & Hk' & Hnone' & Hr); try eassumption.
    exists k'. split; [assumption |]. split; [assumption |].
    erewrite bind_Raise; [reflexivity | exact Hr].
  - intros execfile' data data' params params' H1 H1' H2 H2' Hk.
    rewrite !MissionSegment_load. unfold OpenMDAO.construct.
    erewrite bind_cong; [reflexivity |].
    eapply load_parameters_reads_six; eassumption.
Qed.

Lemma missing_parameters_fail_at_assembly_witness :
  Segment.MissionSegment Example.execfile (Example.args_with "nowhere.py")
  = Raise IOError /\
  exists k', In k' Segment.required_keys /\
             delete "e" Example.params !! k' = None /\
             Segment.MissionSegment Example.execfile
               (Example.args_with "incomplete.py")
             = Raise (KeyError k').
Proof.
  split.
  - exact (proj1 (missing_parameters_fail_at_assembly Example.execfile
                    (Example.args_with "nowhere.py")) IOError eq_refl).
  - exact (proj1 (proj2 (proj2 (missing_parameters_fail_at_assembly
                                  Example.execfile
                                  (Example.args_with "incomplete.py"))))
                 _ (delete "e" Example.params) "e" eq_refl eq_refl
                 ltac:(cbn; auto 10) ltac:(vm_compute; reflexivity)).
Defined.

(** ** The fuel-burn report *)

Section Maximum.

Lemma max2_choice a b : Py.max2 a b = a \/ Py.max2 a b = b.
Proof. unfold Py.max2. destruct (Py.float_gt b a); auto. Qed.

Lemma float_le_trans a b c :
  Py.float_le a b -> Py.float_le b c -> Py.float_le a c.
Proof.
  destruct a, b, c; cbn; try tauto. apply Qle_trans.
Qed.

Lemma float_le_antisym a b :
  Py.float_le a b -> Py.float_le b a -> Py.float_eq a b.
Proof.
  destruct a, b; cbn; try tauto. apply Qle_antisym.
Qed.

(** Without NaN, [max(a, b)] bounds both items. *)
Lemma max2_ge_l a b :
  a <> NaN -> b <> NaN -> Py.float_le a (Py.max2 a b).
Proof.
  intros Ha Hb. unfold Py.max2.
  destruct a as [x | | |], b as [y | | |]; cbn; try tauto;
    try apply Qle_refl.
  destruct (Qle_bool y x) eqn:E; cbn; [apply Qle_refl |].
  destruct (Qlt_le_dec x y) as [H | H]; [now apply Qlt_le_weak |].
  apply Qle_bool_iff in H. congruence.
Qed.

Lemma max2_ge_r a b :
  a <> NaN -> b <> NaN -> Py.float_le b (Py.max2 a b).
Proof.
  intros Ha Hb. unfold Py.max2.
  destruct a as [x | | |], b as [y | | |]; cbn; try tauto;
    try apply Qle_refl.
  destruct (Qle_bool y x) eqn:E; cbn; [| apply Qle_refl].
  now apply Qle_bool_iff.
Qed.

(** [max(a, b, c)] is always one of its arguments; when none of them is
    NaN it bounds all three. *)
Lemma max3_spec a b c :
  let m := Py.max3 a b c in
  In m [a; b; c] /\
  (a <> NaN -> b <> NaN -> c <> NaN ->
   Py.float_le a m /\ Py.float_le b m /\ Py.float_le c m).
Proof.
  cbn. unfold Py.max3. split.
  - destruct (max2_choice (Py.max2 a b) c) as [-> | ->]; [| auto].
    destruct (max2_choice a b) as [-> | ->]; auto.
  - intros Ha Hb Hc.
    assert (Hab : Py.max2 a b <> NaN).
    { destruct (max2_choice a b) as [-> | ->]; assumption. }
    repeat split.
    + eapply float_le_trans; [apply max2_ge_l | apply max2_ge_l]; assumption.
    + eapply float_le_trans; [apply max2_ge_r | apply max2_ge_l]; assumption.
    + apply max2_ge_r; assumption.
Qed.

End Maximum.

(** C5, as the code has it: on the root of a distributed run that gathered at
    least three copies, the report has one entry per leg, and the entry of leg
    [k] is Python's [max] of that leg's value over the copies of ranks 0, 1
    and 2, in that order.  It is always one of these three values.  When
    none of the three is NaN it bounds them, hence bounds every copy when
    exactly three were gathered; with a NaN among them it need not.  The
    other ranks report nothing.  A run that is not distributed reports each
    leg's own value, one entry per leg. *)
Theorem report_max_of_first_three
    (d0 d1 d2 : Multipoint.fuelburns) (rest : list Multipoint.fuelburns) :
  let world := d0 :: d1 :: d2 :: rest in
  let m k := Py.max3 (Multipoint.leg k d0) (Multipoint.leg k d1)
                     (Multipoint.leg k d2) in
  Multipoint.report (Multipoint.Distributed 0 world)
  = Ok [("seg1 fuel burn", m 0); ("seg2 fuel burn", m 1);
        ("seg3 fuel burn", m 2)] /\
  (forall k,
     In (m k)
        [Multipoint.leg k d0; Multipoint.leg k d1; Multipoint.leg k d2]) /\
  (forall k,
     Multipoint.leg k d0 <> NaN -> Multipoint.leg k d1 <> NaN ->
     Multipoint.leg k d2 <> NaN ->
     m k <> NaN /\
     Py.float_le (Multipoint.leg k d0) (m k) /\
     Py.float_le (Multipoint.leg k d1) (m k) /\
     Py.float_le (Multipoint.leg k d2) (m k) /\
     (rest = [] ->
      forall d, In d world -> Py.float_le (Multipoint.leg k d) (m k))) /\
  (forall rank, Multipoint.report (Multipoint.Distributed (S rank) world)
                = Ok []) /\
  (forall fuelburn,
     Multipoint.report (Multipoint.Serial fuelburn)
     = Ok [("seg1 fuel burn", Multipoint.leg 0 fuelburn);
           ("seg2 fuel burn", Multipoint.leg 1 fuelburn);
           ("seg3 fuel burn", Multipoint.leg 2 fuelburn)]).
Proof.
  intros world m. split; [reflexivity |].
  split; [intros k; apply max3_spec |].
  split; [| split; reflexivity].
  intros k N0 N1 N2.
  destruct (max3_spec (Multipoint.leg k d0) (Multipoint.leg k d1)
              (Multipoint.leg k d2)) as (Hin & Hle).
  destruct (Hle N0 N1 N2) as (H0 & H1 & H2).
  split.
  { cbv zeta in Hin. fold (m k) in Hin.
    destruct Hin as [<- | [<- | [<- | []]]]; assumption. }
  repeat (split; [assumption |]).
  intros -> d Hin'.
  destruct Hin' as [<- | [<- | [<- | []]]]; assumption.
Qed.

Lemma report_max_of_first_three_witness :
  Multipoint.report
    (Multipoint.Distributed 0
       [Example.burns 3 0 0; Example.burns 0 2 0; Example.burns 0 0 1])
  = Ok [("seg1 fuel burn", Finite 3); ("seg2 fuel burn", Finite 2);
        ("seg3 fuel burn", Finite 1)] /\
  Py.float_le (Finite 0) (Finite 3).
Proof.
  pose proof (report_max_of_first_three (Example.burns 3 0 0)
                (Example.burns 0 2 0) (Example.burns 0 0 1) []) as H.
  cbv zeta in H. destruct H as (Hr & _ & Hle & _).
  split; [exact Hr |].
  assert (N : forall q, Finite q <> NaN) by (intros q; discriminate).
  exact (proj1 (proj2 (proj2 (Hle 0%nat (N 3%Q) (N 0%Q) (N 0%Q))))).
Defined.

(** With two processes the root raises instead of reporting, and with four
    the value of the fourth is left out: the reported 1 is below the 5 that
    rank 3 holds for the same leg.  And what is reported is no function of
    the set of copies: the same three copies, one of which holds a NaN for
    the first leg, give NaN in one rank order and 0 in another. *)
Lemma report_not_max_of_all_copies :
  Multipoint.report
    (Multipoint.Distributed 0 [Example.burns 1 1 1; Example.burns 2 2 2])
  = Raise IndexError /\
  Multipoint.report
    (Multipoint.Distributed 0
       [Example.burns 1 1 1; Example.burns 1 1 1; Example.burns 1 1 1;
        Example.burns 5 5 5])
  = Ok [("seg1 fuel burn", Finite 1); ("seg2 fuel burn", Finite 1);
        ("seg3 fuel burn", Finite 1)] /\
  ~ Py.float_le (Multipoint.leg 0 (Example.burns 5 5 5)) (Finite 1) /\
  Multipoint.report
    (Multipoint.Distributed 0
       [(NaN, Finite 0, Finite 0); Example.burns 0 0 0; Example.burns 0 0 0])
  = Ok [("seg1 fuel burn", NaN); ("seg2 fuel burn", Finite 0);
        ("seg3 fuel burn", Finite 0)] /\
  Multipoint.report
    (Multipoint.Distributed 0
       [Example.burns 0 0 0; (NaN, Finite 0, Finite 0); Example.burns 0 0 0])
  = Ok [("seg1 fuel burn", Finite 0); ("seg2 fuel burn", Finite 0);
        ("seg3 fuel burn", Finite 0)].
Proof.
  repeat split. intros H. exact (H eq_refl).
Qed.

(** C10: on the root of a distributed run, fewer than three gathered copies
    make the report raise IndexError, so that no fuel burn is reported; with
    three or more the report is produced and has its three entries. *)
Theorem report_needs_three_copies (world : list Multipoint.fuelburns) :
  (length world < 3 ->
   Multipoint.report (Multipoint.Distributed 0 world) = Raise IndexError) /\
  (3 <= length world ->
   exists r, Multipoint.report (Multipoint.Distributed 0 world) = Ok r /\
             length r = 3).
Proof.
  destruct world as [| d0 [| d1 [| d2 rest]]]; cbn [length]; split;
    intros H; try lia; try reflexivity.
  eexists. split; reflexivity.
Qed.

Lemma report_needs_three_copies_witness :
  Multipoint.report
    (Multipoint.Distributed 0 [Example.burns 1 1 1; Example.burns 2 2 2])
  = Raise IndexError /\
  exists r,
    Multipoint.report
      (Multipoint.Distributed 0
         [Example.burns 1 1 1; Example.burns 2 2 2; Example.burns 3 3 3])
    = Ok r /\
    length r = 3.
Proof.
  split.
  - exact (proj1 (report_needs_three_copies
                    [Example.burns 1 1 1; Example.burns 2 2 2])
                 ltac:(cbn; lia)).
  - exact (proj2 (report_needs_three_copies
                    [Example.burns 1 1 1; Example.burns 2 2 2;
                     Example.burns 3 3 3]) ltac:(cbn; lia)).
Defined.

(** ** The Newton iteration of the coupled group *)

Section NewtonLoop.
Import Execution.

Variable State : Type.
Variable residual_norm : State -> Q.
Variable newton_update : State -> State.
Variables atol rtol norm0 : Q.

(** The state after [j] updates. *)
#[local] Abbreviation after j st := (Nat.iter j newton_update st).

#[local] Abbreviation tol st := (within_tolerance atol rtol norm0 (residual_norm st)).

#[local] Abbreviation loop := (newton_loop State residual_norm newton_update atol rtol norm0).

(** What the loop returns: the state it stopped in, the norm there, and
    whether that norm is within tolerance; it stopped at the first state
    within tolerance, or else when the budget was spent. *)
Lemma newton_loop_spec budget k st :
  let out := loop budget k st in
  exists j,
    j <= budget /\
    iterations _ out = k + j /\
    final_state _ out = after j st /\
    final_norm _ out = residual_norm (final_state _ out) /\
    converged _ out = tol (final_state _ out) /\
    (forall j', j' < j -> tol (after j' st) = false) /\
    (converged _ out = false -> j = budget).
Proof.
  revert k st. induction budget as [| b IH]; intros k st; cbn.
  - exists 0. destruct (tol st) eqn:E; cbn; rewrite E;
      repeat split; auto with lia.
  - destruct (tol st) eqn:E.
    + exists 0. cbn. rewrite E. repeat split; auto with lia.
    + destruct (IH (S k) (newton_update st))
        as (j & Hj & Hit & Hst & Hn & Hc & Hbefore & Hcap).
      exists (S j).
      split; [lia |]. split; [rewrite Hit; lia |].
      split; [rewrite Hst; symmetry; apply Nat.iter_succ_r |].
      split; [exact Hn |]. split; [exact Hc |].
      split.
      * intros [| j'] Hlt; [exact E |].
        rewrite Nat.iter_succ_r. apply Hbefore. lia.
      * intros Hf. f_equal. now apply Hcap.
Qed.

End NewtonLoop.

(** C2: the Newton solver of an assembled MissionSegment carries [atol] and
    [rtol] equal to 1e-9 and [max_iteration] equal to 15, and a run with these
    settings always returns an outcome, after at most 15 updates of the
    state: it stops at the first state whose residual norm is within both
    tolerances, reporting convergence, and otherwise after the fifteenth
    update, reporting the norm of the state it reached. *)
Theorem newton_stops_within_budget
    (execfile : value -> result (gmap string value))
    (a : Segment.init_args) (seg : Segment.segment)
    (State : Type) (residual_norm : State -> Q)
    (newton_update : State -> State) (st : State) :
  Segment.MissionSegment execfile a = Ok seg ->
  let tol s :=
    Execution.within_tolerance 1e-9 1e-9 (residual_norm st) (residual_norm s) in
  exists d out,
    OpenMDAO.get_driver seg "coupled_solver" = Some d /\
    OpenMDAO.settings d !! "atol" = Some (VFloat 1e-9) /\
    OpenMDAO.settings d !! "rtol" = Some (VFloat 1e-9) /\
    OpenMDAO.settings d !! "max_iteration" = Some (VInt 15) /\
    Execution.newton_solve State residual_norm newton_update d st = Ok out /\
    Execution.iterations _ out <= 15 /\
    Execution.final_state _ out
    = Nat.iter (Execution.iterations _ out) newton_update st /\
    Execution.final_norm _ out = residual_norm (Execution.final_state _ out) /\
    Execution.converged _ out = tol (Execution.final_state _ out) /\
    (forall j, j < Execution.iterations _ out ->
               tol (Nat.iter j newton_update st) = false) /\
    (Execution.converged _ out = false -> Execution.iterations _ out = 15) /\
    (forall j, j <= 15 -> tol (Nat.iter j newton_update st) = true ->
               Execution.converged _ out = true /\
               Execution.iterations _ out <= j).
Proof.
  intros H tol. subst tol. cbn beta.
  destruct (assembled_solver _ _ _ H)
    as (d & Hd & _ & _ & _ & _ & Hatol & Hrtol & Hmax).
  exists d.
  unfold Execution.newton_solve. rewrite Hatol, Hrtol, Hmax.
  eexists. repeat (split; [first [eassumption | reflexivity] |]).
  change (Z.to_nat 15) with 15.
  destruct (newton_loop_spec State residual_norm newton_update
              1e-9 1e-9 (residual_norm st) 15 0 st)
    as (j & Hj & Hit & Hst & Hn & Hc & Hbefore & Hcap).
  cbn [Nat.add] in Hit.
  rewrite Hit.
  split; [exact Hj |]. split; [exact Hst |]. split; [exact Hn |].
  split; [exact Hc |]. split; [exact Hbefore |]. split; [exact Hcap |].
  intros j0 Hj0 Htol.
  assert (Hle : j <= j0).
  { destruct (le_lt_dec j j0) as [Hle | Hlt]; [assumption |].
    rewrite (Hbefore j0 Hlt) in Htol. discriminate. }
  split; [| exact Hle].
  destruct (Execution.converged _ _) eqn:E; [reflexivity |].
  pose proof (Hcap eq_refl) as ->.
  replace j0 with 15 in Htol by lia.
  rewrite Hc, Hst in E. congruence.
Qed.

Lemma newton_stops_within_budget_witness :
  exists d out,
    OpenMDAO.get_driver (Example.assembled Example.args) "coupled_solver"
    = Some d /\
    Execution.newton_solve Q (fun x => x) (Qmult (1 # 2)) d 1%Q = Ok out /\
    Execution.iterations _ out <= 15.
Proof.
  destruct (newton_stops_within_budget Example.execfile Example.args _
              Q (fun x => x) (Qmult (1 # 2)) 1%Q example_assembled)
    as (d & out & Hd & _ & _ & _ & Hs & Hi & _).
  exists d, out. split; [exact Hd |]. split; [exact Hs | exact Hi].
Defined.

(** ** Fitting the altitude control points *)

Section NormalEquations.
Import Numpy.

Lemma nth_map_seq {A} (f : nat -> A) n i d :
  i < n -> nth i (map f (seq 0 n)) d = f i.
Proof.
  intros H. apply nth_lookup_Some.
  rewrite map_fmap, list_lookup_fmap, lookup_seq_lt by lia. reflexivity.
Qed.

(** Row [i] of [A.T] is column [i] of [A]. *)
Lemma transpose_row A i :
  i < ncols A -> nth i (rows (transpose A)) [] = column A i.
Proof. intros H. cbn. now apply nth_map_seq. Qed.













End NormalEquations.

Section Fitting.
Import OpenMDAO Segment.

Variable execfile : value -> result (gmap string value).

(** The operator stored at line 81, and the boundary port of line 255. *)
Lemma assembled_jac_h a seg :
  MissionSegment execfile a = Ok seg ->
  attrs seg !! "jac_h" = Some (jac_h a) /\
  In ("h_pt", "SysHBspline.h_pt") (passthroughs seg).
Proof.
  intros H. apply MissionSegment_inv in H as (i & _ & H).
  assert (G : (attrs seg !! "jac_h",
               existsb (fun c => String.eqb c.1 "h_pt"
                                 && String.eqb c.2 "SysHBspline.h_pt")
                       (passthroughs seg))
              = (Some (jac_h a), true)).
  { configured H. reflexivity. }
  injection G as G1 G2. split; [assumption |].
  apply existsb_exists in G2 as ([n p] & Hin & Heq).
  apply andb_prop in Heq as [E1 E2]. cbn in E1, E2.
  apply String.eqb_eq in E1, E2. now subst.
Qed.

End Fitting.



(** ** Independence of the segments *)

Section Assoc.
Import OpenMDAO.

Context {A : Type}.

Lemma assoc_set_eq k (v : A) l : assoc k (assoc_set k v l) = Some v.
Proof.
  induction l as [| [k' v'] l IH]; cbn.
  - now rewrite String.eqb_refl.
  - destruct (String.eqb k k') eqn:E; cbn; rewrite ?String.eqb_refl, ?E;
      [reflexivity | exact IH].
Qed.

Lemma assoc_set_ne k k' (v : A) l :
  k <> k' -> assoc k' (assoc_set k v l) = assoc k' l.
Proof.
  intros Hne. induction l as [| [k0 v0] l IH]; cbn.
  - destruct (String.eqb_spec k' k); [congruence | reflexivity].
  - destruct (String.eqb_spec k k0) as [<- | Hk]; cbn.
    + destruct (String.eqb_spec k' k); [congruence | reflexivity].
    + destruct (String.eqb k' k0); [reflexivity | exact IH].
Qed.

End Assoc.

Section Independence.
Import OpenMDAO Execution.

Context {C : Type}.
Variable compute : string -> C -> C.
Variable solve : string -> driver -> assembly C -> assembly C.
Variable get_port : C -> string -> option value.
Variable set_port : string -> value -> C -> C.

#[local] Abbreviation step := (exec_step compute solve get_port set_port).
#[local] Abbreviation sequential :=
  (run_workflow compute solve get_port set_port).
#[local] Abbreviation parallel :=
  (run_parallel compute solve get_port set_port).

(** Without connections nothing is carried into a step. *)
Lemma propagate_unconnected name (s : assembly C) :
  connections s = [] -> propagate get_port set_port name s = s.
Proof. intros H. unfold propagate. now rewrite H. Qed.

Lemma step_unconnected (s : assembly C) l name c :
  connections s = [] ->
  assoc name (children s) = Some (Comp c) ->
  model (step (ExecState s l) name)
  = set_child name (Comp (compute name c)) s.
Proof.
  intros Hc Hn. unfold exec_step. cbn [model].
  rewrite propagate_unconnected by assumption. now rewrite Hn.
Qed.

Lemma collect_unconnected (s0 s : assembly C) name c :
  connections s0 = [] ->
  assoc name (children s0) = Some (Comp c) ->
  collect compute solve get_port set_port s0 s name
  = set_child name (Comp (compute name c)) s.
Proof.
  intros Hc Hn. unfold collect, worker.
  rewrite (step_unconnected _ _ _ _ Hc Hn). cbn [children set_child].
  now rewrite assoc_set_eq.
Qed.

(** Sequential execution from [s] and collection of the workers' results
    into [s] coincide, as long as the steps still to run are in [s] as they
    were in the state [s0] the workers start from. *)
Lemma sequential_collect (s0 : assembly C) order :
  connections s0 = [] ->
  NoDup order ->
  (forall n, In n order -> exists c, assoc n (children s0) = Some (Comp c)) ->
  forall s l,
    connections s = [] ->
    (forall n, In n order -> assoc n (children s) = assoc n (children s0)) ->
    model (sequential order (ExecState s l))
    = foldl (collect compute solve get_port set_port s0) s order.
Proof.
  intros Hc0 Hnd. induction Hnd as [| n order Hnotin Hnd IH];
    intros Hcomp s l Hc Hsame; [reflexivity |].
  unfold run_workflow. cbn [foldl].
  destruct (Hcomp n (or_introl eq_refl)) as (c & Hn).
  rewrite (collect_unconnected _ _ _ _ Hc0 Hn).
  assert (Hs : assoc n (children s) = Some (Comp c))
    by (rewrite Hsame; [assumption | now left]).
  pose proof (step_unconnected s l n c Hc Hs) as Hstep.
  destruct (step (ExecState s l) n) as [s1 l1] eqn:E. cbn [model] in Hstep.
  subst s1. apply IH.
  - intros n' Hin. apply Hcomp. now right.
  - exact Hc.
  - intros n' Hin. cbn [children set_child].
    rewrite assoc_set_ne.
    + apply Hsame. now right.
    + intros ->. apply Hnotin. now apply list_elem_of_In.
Qed.

(** What a step leaves in the collected state: its own computation on its
    own initial state. *)
Lemma collected_component (s0 : assembly C) order :
  connections s0 = [] ->
  (forall n, In n order -> exists c, assoc n (children s0) = Some (Comp c)) ->
  forall s name,
    In name order ->
    get_component
      (foldl (collect compute solve get_port set_port s0) s order) name
    = compute name <$> get_component s0 name.
Proof.
  intros Hc0. induction order as [| n order IH] using rev_ind;
    intros Hcomp s name Hin; [destruct Hin |].
  rewrite foldl_app. cbn [foldl].
  destruct (Hcomp n ltac:(apply in_or_app; right; now left)) as (c & Hn).
  rewrite (collect_unconnected _ _ _ _ Hc0 Hn).
  unfold get_component at 1. cbn [children set_child].
  destruct (String.eqb_spec n name) as [-> | Hne].
  - rewrite assoc_set_eq. unfold get_component. now rewrite Hn.
  - rewrite assoc_set_ne by assumption.
    apply in_app_or in Hin as [Hin | [-> | []]]; [| congruence].
    apply (IH (fun n' H' => Hcomp n' (in_or_app _ _ _ (or_introl H'))) s name
              Hin).
Qed.

End Independence.

Section Mission.
Import OpenMDAO Segment Multipoint.

Variable execfile : value -> result (gmap string value).
Variable gmres : matrix -> vector -> vector * Z.
Variable setup_surrogate : string -> value * value * value * value.
Variable setup_MBI : Z -> Z -> vector -> matrix * matrix.
Variable one_minus_cos_pi : vector -> vector.
Variable sin_pi : vector -> vector.

#[local] Abbreviation block :=
  (segment_block execfile gmres setup_surrogate setup_MBI one_minus_cos_pi
     sin_pi).

(** A segment block adds one child under its name and touches nothing else
    of the top assembly. *)
Lemma segment_block_Ok name x (s s' : mission) :
  block name x s = Ok (tt, s') ->
  exists seg seg',
    s' = Assembly (attrs s)
           (assoc_set name (Comp seg')
              (assoc_set name (Comp seg) (children s)))
           (connections s) (passthroughs s).
Proof.
  unfold segment_block.
  destruct (setup_MBI _ _ _) as [jh jg]. intros H.
  apply bind_Ok in H as (seg & s1 & H1 & H).
  apply lift_Ok in H1 as [_ ->].
  apply bind_Ok in H as ([] & s2 & H2 & H).
  injection H2 as <-.
  unfold on_segment in H.
  apply bind_Ok in H as (s3 & s4 & H3 & H). injection H3 as <- <-.
  unfold get_component in H. cbn [children] in H.
  rewrite assoc_set_eq in H.
  match type of H with
  | match ?m with _ => _ end _ = _ =>
      destruct m as [[u seg'] | e]; [| discriminate]
  end.
  injection H as <-. exists seg, seg'. reflexivity.
Qed.

(** The top assembly: the driver and the three segments, and no connection
    at all. *)
Lemma build_model_Ok (m : mission) :
  build_model execfile gmres setup_surrogate setup_MBI one_minus_cos_pi sin_pi
  = Ok m ->
  exists s1 s2 s3,
    children m
    = [("driver", Drv (Driver "Driver" ["seg1"; "seg2"; "seg3"] [] [] ∅));
       ("seg1", Comp s1); ("seg2", Comp s2); ("seg3", Comp s3)] /\
    connections m = [] /\
    passthroughs m = [].
Proof.
  intros H. apply construct_Ok in H.
  apply bind_Ok in H as ([] & m1 & H1 & H).
  apply bind_Ok in H as ([] & m2 & H2 & H).
  apply bind_Ok in H as ([] & m3 & H3 & H).
  apply segment_block_Ok in H1 as (a1 & b1 & ->).
  apply segment_block_Ok in H2 as (a2 & b2 & ->).
  apply segment_block_Ok in H3 as (a3 & b3 & ->).
  cbn in H. injection H as <-.
  exists b1, b2, b3. repeat split.
Qed.

End Mission.

(** C6: in the model the multipoint script builds, the top assembly has no
    connection, so no port of a segment is connected to a port of another;
    its workflow is [seg1], [seg2], [seg3].  Whatever a segment's own run
    computes, running the three in any order leaves each segment as its own
    run makes it from its own initial state, and this is also what the three
    give when each is run by a separate worker from the initial state. *)
Theorem segments_share_no_state
    (execfile : value -> result (gmap string value))
    (gmres : matrix -> vector -> vector * Z)
    (setup_surrogate : string -> value * value * value * value)
    (setup_MBI : Z -> Z -> vector -> matrix * matrix)
    (one_minus_cos_pi sin_pi : vector -> vector)
    (compute : string -> Segment.segment -> Segment.segment)
    (solve : string -> OpenMDAO.driver -> Multipoint.mission
             -> Multipoint.mission)
    (get_port : Segment.segment -> string -> option value)
    (set_port : string -> value -> Segment.segment -> Segment.segment)
    (m : Multipoint.mission) :
  Multipoint.build_model execfile gmres setup_surrogate setup_MBI
    one_minus_cos_pi sin_pi = Ok m ->
  OpenMDAO.connections m = [] /\
  (exists d, OpenMDAO.get_driver m "driver" = Some d /\
             OpenMDAO.workflow d = ["seg1"; "seg2"; "seg3"]) /\
  Forall (fun n => is_Some (OpenMDAO.get_component m n))
         ["seg1"; "seg2"; "seg3"] /\
  forall order,
    Permutation order ["seg1"; "seg2"; "seg3"] ->
    let sequential :=
      Execution.model
        (Execution.run_workflow compute solve get_port set_port order
           (Execution.ExecState m [])) in
    sequential
    = Execution.run_parallel compute solve get_port set_port order m /\
    forall name, In name order ->
      OpenMDAO.get_component sequential name
      = compute name <$> OpenMDAO.get_component m name.
Proof.
  intros H.
  apply build_model_Ok in H as (s1 & s2 & s3 & Hch & Hconn & _).
  split; [exact Hconn |].
  split; [unfold OpenMDAO.get_driver; rewrite Hch; cbn; eauto |].
  split.
  { unfold OpenMDAO.get_component. rewrite Hch. cbn.
    repeat constructor; eauto. }
  intros order Hperm sequential. subst sequential.
  assert (Hnd : NoDup order).
  { rewrite Hperm. apply (bool_decide_unpack _). vm_compute. exact I. }
  assert (Hcomp : forall n, In n order ->
            exists c, OpenMDAO.assoc n (OpenMDAO.children m)
                      = Some (OpenMDAO.Comp c)).
  { intros n Hin.
    apply list_elem_of_In in Hin. rewrite Hperm in Hin.
    apply list_elem_of_In in Hin. rewrite Hch.
    destruct Hin as [<- | [<- | [<- | []]]]; cbn; eauto. }
  rewrite (sequential_collect compute solve get_port set_port m order
             Hconn Hnd Hcomp m [] Hconn (fun _ _ => eq_refl)).
  split; [reflexivity |].
  intros name Hin.
  now apply collected_component.
Qed.

(** The example mission is built. *)
Lemma example_mission_built :
  Multipoint.build_model Example.execfile Example.gmres
    Example.setup_surrogate Example.setup_MBI (fun v => v) (fun v => v)
  = Ok Example.mission.
Proof. vm_compute. reflexivity. Qed.

Lemma segments_share_no_state_witness :
  OpenMDAO.connections Example.mission = [] /\
  OpenMDAO.get_component
    (Execution.model
       (Execution.run_workflow (fun _ s => s) (fun _ _ s => s)
          (fun s p => OpenMDAO.attrs s !! p) (fun _ _ s => s)
          ["seg3"; "seg1"; "seg2"] (Execution.ExecState Example.mission [])))
    "seg1"
  = OpenMDAO.get_component Example.mission "seg1".
Proof.
  pose proof (segments_share_no_state Example.execfile Example.gmres
                Example.setup_surrogate Example.setup_MBI
                (fun v => v) (fun v => v) (fun _ s => s) (fun _ _ s => s)
                (fun s p => OpenMDAO.attrs s !! p) (fun _ _ s => s)
                Example.mission example_mission_built)
    as (Hconn & _ & _ & Horder).
  split; [exact Hconn |].
  destruct (Horder ["seg3"; "seg1"; "seg2"]) as [_ Hcomp].
  { change ["seg3"; "seg1"; "seg2"] with (["seg3"] ++ ["seg1"; "seg2"]).
    change ["seg1"; "seg2"; "seg3"] with (["seg1"; "seg2"] ++ ["seg3"]).
    apply Permutation_app_comm. }
  rewrite (Hcomp "seg1") by (cbn; auto).
  destruct (OpenMDAO.get_component Example.mission "seg1"); reflexivity.
Defined.

(* ===================================================================== *)
(** * Further properties of the two files *)
(* ===================================================================== *)

(** ** The surrogate tables at assembly *)

Section Tables.
Import OpenMDAO Segment.

Variable execfile : value -> result (gmap string value).





End Tables.



(** ** The wiring of a segment *)

(** Read a fact about two assembled segments off the two runs of
    [configure]. *)
Ltac configured2 H H' :=
  unfold Segment.configure, Segment.add_coupled_comps in H, H';
  revert H H';
  repeat match goal with
         | |- context [Numpy.linspace ?x ?y ?n] =>
             generalize (Numpy.linspace x y n); intro
         end;
  intros H H';
  match type of H with
  | _ = Ok (tt, ?seg) =>
      match type of H' with
      | _ = Ok (tt, ?seg') =>
          pattern seg, seg';
          match goal with
          | |- ?P seg seg' =>
              change (match Ok (tt, seg) with
                      | Ok (_, s) =>
                          (fun r' => match r' with
                                     | Ok (_, s') => P s s'
                                     | Raise _ => True
                                     end)
                      | Raise _ => fun _ => True
                      end (Ok (tt, seg')));
              rewrite <- H, <- H'; vm_compute
          end
      end
  end.

Section GraphLemmas.
Import OpenMDAO Graph.

Context {C : Type}.

Lemma get_component_In (s : assembly C) n c :
  get_component s n = Some c -> In (n, c) (components s).
Proof.
  unfold get_component, components.
  induction (children s) as [| [k ch] l IH]; cbn; [discriminate |].
  destruct (String.eqb_spec n k) as [-> | Hne].
  - destruct ch; try discriminate. intros [= ->]. cbn. now left.
  - intros H. specialize (IH H). destruct ch; cbn; auto.
Qed.

End GraphLemmas.

(** X2: in every assembled MissionSegment the constructor has made 49
    connections, no two of them end in the same input, and none ends in a
    variable that is also promoted to the boundary: every input has one
    source. *)
Theorem inputs_have_one_source
    (execfile : value -> result (gmap string value))
    (a : Segment.init_args) (seg : Segment.segment) :
  Segment.MissionSegment execfile a = Ok seg ->
  length (OpenMDAO.connections seg) = 49 /\
  NoDup (map snd (OpenMDAO.connections seg)
         ++ map snd (OpenMDAO.passthroughs seg)).
Proof.
  intros H. apply MissionSegment_inv in H as (i & _ & H).
  split; [| apply (bool_decide_unpack _)]; configured H;
    [reflexivity | exact I].
Qed.

Lemma inputs_have_one_source_witness :
  length (OpenMDAO.connections (Example.assembled Example.args)) = 49 /\
  NoDup (map snd (OpenMDAO.connections (Example.assembled Example.args))
         ++ map snd (OpenMDAO.passthroughs (Example.assembled Example.args))).
Proof.
  exact (inputs_have_one_source Example.execfile Example.args _
           example_assembled).
Defined.

(** X3: no connection and no passthrough of an assembled MissionSegment
    dangles: every dotted path belongs to a component the constructor has
    added, every destination is dotted, and the two undotted sources,
    [pax_flt] and [h_pt], are boundary variables of the segment. *)
Theorem no_dangling_endpoint
    (execfile : value -> result (gmap string value))
    (a : Segment.init_args) (seg : Segment.segment) :
  Segment.MissionSegment execfile a = Ok seg ->
  Forall (fun c => Graph.endpoint_known seg c.1 = true /\
                   Graph.endpoint_known seg c.2 = true /\
                   is_Some (Graph.owner c.2))
         (OpenMDAO.connections seg) /\
  Forall (fun p => Graph.endpoint_known seg p.2 = true /\
                   is_Some (Graph.owner p.2))
         (OpenMDAO.passthroughs seg) /\
  List.filter (fun c => bool_decide (Graph.owner c.1 = None))
              (OpenMDAO.connections seg)
  = [("h_pt", "SysGammaBspline.h_pt"); ("pax_flt", "SysCLTar.pax_flt");
     ("pax_flt", "SysCTTar.pax_flt")] /\
  Graph.variable_names seg = ["pax_flt"].
Proof.
  intros H. apply MissionSegment_inv in H as (i & _ & H).
  split; [apply (bool_decide_unpack _); configured H; exact I |].
  split; [apply (bool_decide_unpack _); configured H; exact I |].
  split; configured H; reflexivity.
Qed.

Lemma no_dangling_endpoint_witness :
  Graph.variable_names (Example.assembled Example.args) = ["pax_flt"].
Proof.
  exact (proj2 (proj2 (proj2 (no_dangling_endpoint Example.execfile
                                Example.args _ example_assembled)))).
Defined.

(** X4: the iteration hierarchy of an assembled MissionSegment leaves no
    component out and runs none twice: the top workflow, with the solver step
    replaced by the solver's own workflow, lists the nineteen components
    exactly in the order the constructor added them. *)
Theorem every_component_in_one_workflow
    (execfile : value -> result (gmap string value))
    (a : Segment.init_args) (seg : Segment.segment) :
  Segment.MissionSegment execfile a = Ok seg ->
  Graph.flat_workflow seg = Graph.component_names seg /\
  NoDup (Graph.flat_workflow seg) /\
  length (Graph.component_names seg) = 19.
Proof.
  intros H. apply MissionSegment_inv in H as (i & _ & H).
  split; [configured H; reflexivity |].
  split; [apply (bool_decide_unpack _); configured H; exact I |].
  configured H; reflexivity.
Qed.

Lemma every_component_in_one_workflow_witness :
  Graph.flat_workflow (Example.assembled Example.args)
  = Graph.component_names (Example.assembled Example.args).
Proof.
  exact (proj1 (every_component_in_one_workflow Example.execfile
                  Example.args _ example_assembled)).
Defined.

(** X5: in an assembled MissionSegment every connection between two
    components goes from a component that runs earlier in a pass to one that
    runs later, except five: the "direct connections (cycles)" of lines
    201-205, and these five join components of the solver's workflow only.
    The order of the workflows is a topological order of the wiring outside
    the coupled group. *)
Theorem feedback_only_in_coupled_group
    (execfile : value -> result (gmap string value))
    (a : Segment.init_args) (seg : Segment.segment) :
  Segment.MissionSegment execfile a = Ok seg ->
  let cycles :=
    [("SysFuelWeight.fuel_w", "SysCLTar.fuel_w");
     ("SysCTTar.CT_tar", "SysCLTar.CT_tar");
     ("SysTripanCLSurrogate.alpha", "SysCLTar.alpha");
     ("SysTripanCMSurrogate.eta", "SysTripanCLSurrogate.eta");
     ("SysFuelWeight.fuel_w", "SysCTTar.fuel_w")] in
  List.filter (Graph.feedback seg) (OpenMDAO.connections seg) = cycles /\
  Forall (fun c => Graph.owner c.1 = None \/ Graph.forward seg c = true \/
                   c ∈ cycles)
         (OpenMDAO.connections seg) /\
  (exists d,
     OpenMDAO.get_driver seg "coupled_solver" = Some d /\
     Forall (fun c => exists x y,
                        Graph.owner c.1 = Some x /\ Graph.owner c.2 = Some y /\
                        In x (OpenMDAO.workflow d) /\
                        In y (OpenMDAO.workflow d))
            cycles).
Proof.
  intros H cycles. subst cycles.
  destruct (assembled_solver _ _ _ H) as (d & Hd & _ & Hw & _).
  apply MissionSegment_inv in H as (i & _ & H).
  split; [configured H; reflexivity |].
  split; [apply (bool_decide_unpack _); configured H; exact I |].
  exists d. split; [exact Hd |]. rewrite Hw.
  repeat constructor; eexists _, _; (split; [reflexivity |]);
    (split; [reflexivity |]); cbn; auto 10.
Qed.

Lemma feedback_only_in_coupled_group_witness :
  List.filter (Graph.feedback (Example.assembled Example.args))
              (OpenMDAO.connections (Example.assembled Example.args))
  = [("SysFuelWeight.fuel_w", "SysCLTar.fuel_w");
     ("SysCTTar.CT_tar", "SysCLTar.CT_tar");
     ("SysTripanCLSurrogate.alpha", "SysCLTar.alpha");
     ("SysTripanCMSurrogate.eta", "SysTripanCLSurrogate.eta");
     ("SysFuelWeight.fuel_w", "SysCTTar.fuel_w")].
Proof.
  exact (proj1 (feedback_only_in_coupled_group Example.execfile
                  Example.args _ example_assembled)).
Defined.

(** X6: every one of the nineteen components of an assembled
    MissionSegment is built with [num_elem] equal to the [num_elem] the
    constructor was given, and the four spline components with [num_pt]
    equal to [num_cp] and [x_init] equal to [x_pts]: the whole segment is on
    one discretisation. *)
Theorem components_share_discretisation
    (execfile : value -> result (gmap string value))
    (a : Segment.init_args) (seg : Segment.segment) :
  Segment.MissionSegment execfile a = Ok seg ->
  (forall name c,
     OpenMDAO.get_component seg name = Some c ->
     OpenMDAO.assoc "num_elem" (OpenMDAO.kwargs c)
     = Some (VInt (Segment.num_elem a))) /\
  (forall name,
     In name ["SysXBspline"; "SysHBspline"; "SysMVBspline";
              "SysGammaBspline"] ->
     exists c,
       OpenMDAO.get_component seg name = Some c /\
       OpenMDAO.assoc "num_pt" (OpenMDAO.kwargs c)
       = Some (VInt (Segment.num_cp a)) /\
       OpenMDAO.assoc "x_init" (OpenMDAO.kwargs c)
       = Some (Segment.x_pts a)).
Proof.
  intros H. apply MissionSegment_inv in H as (i & _ & H).
  split.
  - intros name c Hc. apply get_component_In in Hc.
    assert (G : map (fun nc => OpenMDAO.assoc "num_elem"
                                 (OpenMDAO.kwargs nc.2))
                    (Graph.components seg)
                = replicate 19 (Some (VInt (Segment.num_elem a)))).
    { configured H. reflexivity. }
    apply (in_map (fun nc => OpenMDAO.assoc "num_elem"
                               (OpenMDAO.kwargs nc.2))) in Hc.
    rewrite G in Hc. cbn in Hc.
    repeat (destruct Hc as [Hc | Hc]; [now symmetry |]). destruct Hc.
  - assert (G : map (fun n => (fun c => (OpenMDAO.assoc "num_pt"
                                           (OpenMDAO.kwargs c),
                                         OpenMDAO.assoc "x_init"
                                           (OpenMDAO.kwargs c)))
                              <$> OpenMDAO.get_component seg n)
                    ["SysXBspline"; "SysHBspline"; "SysMVBspline";
                     "SysGammaBspline"]
                = replicate 4 (Some (Some (VInt (Segment.num_cp a)),
                                     Some (Segment.x_pts a)))).
    { configured H. reflexivity. }
    intros name Hn. cbn in G. injection G as G1 G2 G3 G4.
    destruct Hn as [<- | [<- | [<- | [<- | []]]]];
      match goal with
      | Hg : _ <$> OpenMDAO.get_component seg ?n = _
        |- context [OpenMDAO.get_component seg ?n] =>
          destruct (OpenMDAO.get_component seg n) as [c |];
            [| discriminate Hg];
          cbn in Hg; injection Hg as Hg1 Hg2; exists c; auto
      end.
Qed.

Lemma components_share_discretisation_witness :
  exists c,
    OpenMDAO.get_component (Example.assembled Example.args) "SysTau" = Some c /\
    OpenMDAO.assoc "num_elem" (OpenMDAO.kwargs c) = Some (VInt 2).
Proof.
  destruct (OpenMDAO.get_component (Example.assembled Example.args) "SysTau")
    as [c |] eqn:E; [| vm_compute in E; discriminate E].
  exists c. split; [reflexivity |].
  exact (proj1 (components_share_discretisation Example.execfile
                  Example.args _ example_assembled) "SysTau" c E).
Defined.

(** X7: the aspect ratio and the Oswald factor are read from the parameter
    mapping but reach nothing: two parameter sources that agree on [S],
    [ac_w], [thrust_sl] and [SFCSL] give segments with the same components
    (classes, keyword arguments and attributes), drivers, connections and
    passthroughs, and with the same attributes but for [AR] and [oswald]. *)
Theorem AR_and_e_reach_no_component
    (execfile execfile' : value -> result (gmap string value))
    (a : Segment.init_args) (seg seg' : Segment.segment)
    (data data' : gmap string value) (params params' : value) :
  Segment.MissionSegment execfile a = Ok seg ->
  Segment.MissionSegment execfile' a = Ok seg' ->
  execfile (Segment.params_file a) = Ok data ->
  execfile' (Segment.params_file a) = Ok data' ->
  Py.getitem (VDict data) "params" = Ok params ->
  Py.getitem (VDict data') "params" = Ok params' ->
  (forall k, In k ["S"; "ac_w"; "thrust_sl"; "SFCSL"] ->
             Py.getitem params k = Py.getitem params' k) ->
  OpenMDAO.children seg = OpenMDAO.children seg' /\
  OpenMDAO.connections seg = OpenMDAO.connections seg' /\
  OpenMDAO.passthroughs seg = OpenMDAO.passthroughs seg' /\
  delete "AR" (delete "oswald" (OpenMDAO.attrs seg))
  = delete "AR" (delete "oswald" (OpenMDAO.attrs seg')).
Proof.
  intros H H' E E' P P' Hk.
  apply MissionSegment_inv in H as (i & Hi & H).
  apply MissionSegment_inv in H' as (i' & Hi' & H').
  destruct Hi as (d & p & L1 & L2 & L3 & L4 & L5 & L6 & _ & _ & L9 & L10
                  & L11 & L12).
  destruct Hi' as (d' & p' & L1' & L2' & L3' & L4' & L5' & L6' & _ & _ & L9'
                   & L10' & L11' & L12').
  assert (d = data) by congruence. assert (d' = data') by congruence.
  subst d d'.
  assert (p = params) by congruence. assert (p' = params') by congruence.
  subst p p'.
  rewrite (Hk "S") in L3 by (cbn; auto).
  rewrite (Hk "ac_w") in L4 by (cbn; auto).
  rewrite (Hk "thrust_sl") in L5 by (cbn; auto).
  rewrite (Hk "SFCSL") in L6 by (cbn; auto).
  destruct i as [vS vac vth vsf vAR ve vCL vCD vCM vnum].
  destruct i' as [vS' vac' vth' vsf' vAR' ve' vCL' vCD' vCM' vnum'].
  cbn [Segment.in_S Segment.in_ac_w Segment.in_thrust_sl Segment.in_SFCSL
       Segment.in_CL Segment.in_CD Segment.in_CM Segment.in_nums] in *.
  assert (vS = vS') by congruence. assert (vac = vac') by congruence.
  assert (vth = vth') by congruence. assert (vsf = vsf') by congruence.
  assert (vCL = vCL') by congruence. assert (vCD = vCD') by congruence.
  assert (vCM = vCM') by congruence. assert (vnum = vnum') by congruence.
  subst.
  repeat split; configured2 H H'; reflexivity.
Qed.

Lemma example_wide_assembled :
  Segment.MissionSegment Example2.execfile_wide Example.args
  = Ok Example2.assembled_wide.
Proof. vm_compute. reflexivity. Qed.

Lemma AR_and_e_reach_no_component_witness :
  OpenMDAO.children (Example.assembled Example.args)
  = OpenMDAO.children Example2.assembled_wide.
Proof.
  refine (proj1 (AR_and_e_reach_no_component Example.execfile
                   Example2.execfile_wide Example.args
                   (Example.assembled Example.args) Example2.assembled_wide
                   (<["params" := VDict Example.params]> ∅)
                   (<["params" := VDict Example2.params_wide]> ∅)
                   (VDict Example.params) (VDict Example2.params_wide)
                   example_assembled example_wide_assembled
                   eq_refl eq_refl eq_refl eq_refl _)).
  intros k [<- | [<- | [<- | [<- | []]]]]; vm_compute; reflexivity.
Defined.

(** ** The main block of segment.py *)

Section Keywords.
Import SegmentMain.

(** Binding keywords raises nothing but TypeError, and a keyword that names
    no parameter makes it raise wherever it stands. *)
Lemma bind_from_other r kws name v :
  (r = Raise TypeError \/ exists a, r = Ok a) ->
  In (kw_other name v) kws ->
  foldl (fun r k => r ≫= fun a => bind_keyword a k) r kws = Raise TypeError.
Proof.
  revert r. induction kws as [| k kws IH]; intros r Hr Hin; [destruct Hin |].
  cbn [foldl]. destruct Hin as [-> | Hin].
  - assert (E : (r ≫= fun a => bind_keyword a (kw_other name v))
                = Raise TypeError)
      by (destruct Hr as [-> | [a ->]]; reflexivity).
    rewrite E. clear. induction kws as [| k kws IH]; [reflexivity |].
    exact IH.
  - apply IH; [| exact Hin].
    destruct Hr as [-> | [a ->]]; [now left |].
    destruct k; cbn; eauto.
Qed.

Lemma bind_keywords_other kws name v :
  In (kw_other name v) kws -> bind_keywords kws = Raise TypeError.
Proof. apply bind_from_other. right. eauto. Qed.

End Keywords.

(** X8: the block that runs when segment.py is the main program cannot
    build its segment: it calls the constructor with the keyword
    [surr_file], which is no parameter of [__init__], so the call raises
    TypeError before any statement of the constructor runs, whatever the
    parameter files on disk are; and so does any call with a keyword other
    than the seven parameters. *)
Theorem main_block_raises
    (execfile : value -> result (gmap string value))
    (one_minus_cos_pi sin_pi : vector -> vector) :
  SegmentMain.main execfile one_minus_cos_pi sin_pi = Raise TypeError /\
  forall kws name v,
    In (SegmentMain.kw_other name v) kws ->
    SegmentMain.MissionSegment_call execfile kws = Raise TypeError.
Proof.
  split.
  - reflexivity.
  - intros kws name v Hin. unfold SegmentMain.MissionSegment_call.
    now rewrite (bind_keywords_other kws name v Hin).
Qed.

Lemma main_block_raises_witness :
  SegmentMain.MissionSegment_call Example.execfile
    [SegmentMain.kw_params_file (VStr "CRM_params.py");
     SegmentMain.kw_aero_surr Example.surrogate;
     SegmentMain.kw_other "surr_file" (VStr "crm_surr")]
  = Raise TypeError.
Proof.
  exact (proj2 (main_block_raises Example.execfile (fun v => v) (fun v => v))
               [SegmentMain.kw_params_file (VStr "CRM_params.py");
                SegmentMain.kw_aero_surr Example.surrogate;
                SegmentMain.kw_other "surr_file" (VStr "crm_surr")]
               "surr_file" (VStr "crm_surr")
               ltac:(right; right; left; reflexivity)).
Defined.

(** ** More on fitting the altitude control points *)

Section FitLemmas.
Import OpenMDAO Segment.

Variable gmres : matrix -> vector -> vector * Z.

(** What a call that returns has done. *)
Lemma set_init_h_pt_Ok h (s s' : segment) :
  set_init_h_pt gmres h s = Ok (tt, s') ->
  exists A b ATA ATb,
    attrs s !! "jac_h" = Some (VMatrix A) /\
    (h = VArray b \/
     exists B, h = VMatrix B /\ ncols B = 1 /\ b = Numpy.column B 0) /\
    Numpy.mat_mul (Numpy.transpose A) A = Ok ATA /\
    Numpy.mat_vec (Numpy.transpose A) b = Ok ATb /\
    s' = Assembly (<["h_pt" := VArray (gmres ATA ATb).1]> (attrs s))
                  (children s) (connections s) (passthroughs s).
Proof.
  unfold set_init_h_pt, getattr.
  unfold mbind, build_bind, get, lift, mret, build_ret, raise.
  destruct (attrs s !! "jac_h") as [[| | | | | | A |] |] eqn:E;
    try discriminate.
  destruct (Numpy.mat_mul (Numpy.transpose A) A) as [ATA |] eqn:E1;
    [| discriminate].
  destruct h as [| | | | | b | B |]; try discriminate.
  - destruct (Numpy.mat_vec (Numpy.transpose A) b) as [ATb |] eqn:E2;
      [| discriminate].
    intros [= <-]. exists A, b, ATA, ATb.
    split; [reflexivity |]. split; [now left |].
    repeat (split; [first [assumption | reflexivity] |]). reflexivity.
  - destruct (Nat.eqb_spec (ncols B) 1) as [E3 |]; [| discriminate].
    destruct (Numpy.mat_vec (Numpy.transpose A) (Numpy.column B 0))
      as [ATb |] eqn:E2; [| discriminate].
    intros [= <-]. exists A, (Numpy.column B 0), ATA, ATb.
    split; [reflexivity |]. split; [right; eauto |].
    repeat (split; [first [assumption | reflexivity] |]). reflexivity.
Qed.

End FitLemmas.

(** X9: [set_init_h_pt] fails rather than fit when the segment cannot
    support the fit.  On a segment assembled without a spline operator
    ([jac_h] left at its default [None]) it raises AttributeError, whatever
    the target; and when [jac_h] is a matrix whose number of rows differs
    from the length of the target profile, it raises ValueError. *)
Theorem set_init_h_pt_failures
    (execfile : value -> result (gmap string value))
    (gmres : matrix -> vector -> vector * Z)
    (a : Segment.init_args) (seg : Segment.segment) :
  Segment.MissionSegment execfile a = Ok seg ->
  (Segment.jac_h a = VNone ->
   forall h, exists name,
     Segment.set_init_h_pt gmres h seg = Raise (AttributeError name)) /\
  (forall A b,
     Segment.jac_h a = VMatrix A ->
     length b <> nrows A ->
     Segment.set_init_h_pt gmres (VArray b) seg = Raise ValueError).
Proof.
  intros H. destruct (assembled_jac_h _ _ _ H) as [Hattr _].
  split.
  - intros HA h. exists "T".
    unfold Segment.set_init_h_pt, Segment.getattr.
    unfold mbind, OpenMDAO.build_bind, OpenMDAO.get, mret, OpenMDAO.build_ret.
    now rewrite Hattr, HA.
  - intros A b HA Hlen.
    unfold Segment.set_init_h_pt, Segment.getattr.
    unfold mbind, OpenMDAO.build_bind, OpenMDAO.get, OpenMDAO.lift,
      mret, OpenMDAO.build_ret.
    rewrite Hattr, HA.
    unfold Numpy.mat_mul, Numpy.mat_vec. cbn [ncols nrows Numpy.transpose].
    rewrite Nat.eqb_refl.
    destruct (Nat.eqb_spec (nrows A) (length b)); [congruence | reflexivity].
Qed.

Lemma set_init_h_pt_failures_witness :
  Segment.set_init_h_pt Example.gmres (VArray [1; 2]%Q)
    (Example.assembled Example.args) = Raise ValueError.
Proof.
  exact (proj2 (set_init_h_pt_failures Example.execfile Example.gmres
                  Example.args _ example_assembled)
               Example.jac [1; 2]%Q eq_refl ltac:(cbn; lia)).
Defined.

(** X10: the last fit wins, on any segment.  After a call of
    [set_init_h_pt] that returns, a second call gives what it would have
    given alone, and so does a call after a plain assignment of [h_pt]:
    nothing of an earlier [h_pt] survives, and [h_pt] is all the call
    changes. *)
Theorem set_init_h_pt_last_wins
    (gmres : matrix -> vector -> vector * Z)
    (h1 h2 v : value) (s s1 : Segment.segment) :
  Segment.set_init_h_pt gmres h1 s = Ok (tt, s1) ->
  Segment.set_init_h_pt gmres h2 s1 = Segment.set_init_h_pt gmres h2 s /\
  (OpenMDAO.setattr "h_pt" v ≫= fun _ => Segment.set_init_h_pt gmres h2) s
  = Segment.set_init_h_pt gmres h2 s /\
  (forall k, k <> "h_pt" ->
             OpenMDAO.attrs s1 !! k = OpenMDAO.attrs s !! k) /\
  OpenMDAO.children s1 = OpenMDAO.children s /\
  OpenMDAO.connections s1 = OpenMDAO.connections s /\
  OpenMDAO.passthroughs s1 = OpenMDAO.passthroughs s.
Proof.
  intros H.
  apply set_init_h_pt_Ok in H as (A & b & ATA & ATb & HA & _ & H1 & H2 & ->).
  assert (Hover : forall x (s0 : Segment.segment),
            OpenMDAO.attrs s0 !! "jac_h" = Some (VMatrix A) ->
            Segment.set_init_h_pt gmres h2
              (OpenMDAO.Assembly (<["h_pt" := x]> (OpenMDAO.attrs s0))
                 (OpenMDAO.children s0) (OpenMDAO.connections s0)
                 (OpenMDAO.passthroughs s0))
            = Segment.set_init_h_pt gmres h2 s0).
  { intros x s0 Hs0. unfold Segment.set_init_h_pt, Segment.getattr.
    unfold mbind, OpenMDAO.build_bind, OpenMDAO.get, OpenMDAO.lift,
      mret, OpenMDAO.build_ret, OpenMDAO.setattr, OpenMDAO.modify.
    cbn [OpenMDAO.attrs OpenMDAO.children OpenMDAO.connections
         OpenMDAO.passthroughs].
    rewrite lookup_insert_ne by discriminate. rewrite Hs0, H1.
    destruct h2 as [| | | | | b2 | B2 |]; try reflexivity.
    - destruct (Numpy.mat_vec (Numpy.transpose A) b2); [| reflexivity].
      cbn [OpenMDAO.attrs OpenMDAO.children OpenMDAO.connections
           OpenMDAO.passthroughs].
      now rewrite insert_insert_eq.
    - destruct (Nat.eqb (ncols B2) 1); [| reflexivity].
      destruct (Numpy.mat_vec (Numpy.transpose A) (Numpy.column B2 0));
        [| reflexivity].
      cbn [OpenMDAO.attrs OpenMDAO.children OpenMDAO.connections
           OpenMDAO.passthroughs].
      now rewrite insert_insert_eq. }
  split; [now apply Hover |].
  split; [apply (Hover v s HA) |].
  split; [| repeat split].
  intros k Hk. cbn. now rewrite lookup_insert_ne by congruence.
Qed.

Lemma set_init_h_pt_last_wins_witness :
  exists s1,
    Segment.set_init_h_pt Example.gmres (VArray [1; 2; 3]%Q)
      (Example.assembled Example.args) = Ok (tt, s1) /\
    Segment.set_init_h_pt Example.gmres (VArray [3; 2; 1]%Q) s1
    = Segment.set_init_h_pt Example.gmres (VArray [3; 2; 1]%Q)
        (Example.assembled Example.args).
Proof.
  destruct (Segment.set_init_h_pt Example.gmres (VArray [1; 2; 3]%Q)
              (Example.assembled Example.args)) as [[[] s1] | e] eqn:E;
    [| vm_compute in E; discriminate E].
  exists s1. split; [reflexivity |].
  exact (proj1 (set_init_h_pt_last_wins Example.gmres (VArray [1; 2; 3]%Q)
                  (VArray [3; 2; 1]%Q) VNone _ s1 E)).
Defined.

(** ** More on the fuel-burn report *)

(** X11: when the three gathered copies are one and the same tuple (every
    process has computed every leg alike), the root of a distributed run
    reports exactly what a run that is not distributed reports for that
    tuple, NaN included; further copies change nothing. *)
Theorem report_identical_copies
    (t : Multipoint.fuelburns) (rest : list Multipoint.fuelburns) :
  Multipoint.report (Multipoint.Distributed 0 (t :: t :: t :: rest))
  = Multipoint.report (Multipoint.Serial t).
Proof.
  cbn. unfold Py.max3, Py.max2.
  repeat (destruct (Py.float_gt _ _)); reflexivity.
Qed.

Section Order.
Import Multipoint.

(** Without NaN, [max] of three items does not depend on their order. *)
Lemma max3_unique a b c a' b' c' :
  [a; b; c] ≡ₚ [a'; b'; c'] ->
  (forall x, In x [a; b; c] -> x <> NaN) ->
  Py.float_eq (Py.max3 a b c) (Py.max3 a' b' c').
Proof.
  intros Hp Hn.
  assert (Hn' : forall x, In x [a'; b'; c'] -> x <> NaN).
  { intros x Hx. apply Hn. apply list_elem_of_In. rewrite Hp.
    now apply list_elem_of_In. }
  destruct (max3_spec a b c) as (Hin & Hle).
  destruct (max3_spec a' b' c') as (Hin' & Hle').
  cbv zeta in *.
  destruct (Hle (Hn a ltac:(cbn; auto)) (Hn b ltac:(cbn; auto))
              (Hn c ltac:(cbn; auto))) as (Ha & Hb & Hc).
  destruct (Hle' (Hn' a' ltac:(cbn; auto)) (Hn' b' ltac:(cbn; auto))
              (Hn' c' ltac:(cbn; auto))) as (Ha' & Hb' & Hc').
  assert (Hall : forall x, In x [a; b; c] ->
                           Py.float_le x (Py.max3 a b c)).
  { intros x [<- | [<- | [<- | []]]]; assumption. }
  assert (Hall' : forall x, In x [a'; b'; c'] ->
                            Py.float_le x (Py.max3 a' b' c')).
  { intros x [<- | [<- | [<- | []]]]; assumption. }
  apply float_le_antisym.
  - apply Hall'. apply list_elem_of_In. rewrite <- Hp.
    now apply list_elem_of_In.
  - apply Hall. apply list_elem_of_In. rewrite Hp. now apply list_elem_of_In.
Qed.

End Order.

(** X12: as long as no fuel burn of the three copies looked at is NaN, the
    report of the root does not depend on which process holds which copy:
    gathering the same three tuples in another rank order gives the same
    labels and, leg by leg, an equal value.  With a NaN it does depend on
    the order: exchanging ranks 0 and 1 of [(nan, 0, 0), (0, 2, 0),
    (0, 0, 1)] turns the first leg's report from NaN into 0. *)
Theorem report_order_independent
    (d0 d1 d2 e0 e1 e2 : Multipoint.fuelburns)
    (rest rest' : list Multipoint.fuelburns) :
  [d0; d1; d2] ≡ₚ [e0; e1; e2] ->
  (forall k d, In d [d0; d1; d2] -> Multipoint.leg k d <> NaN) ->
  (exists r r',
     Multipoint.report (Multipoint.Distributed 0 (d0 :: d1 :: d2 :: rest))
     = Ok r /\
     Multipoint.report (Multipoint.Distributed 0 (e0 :: e1 :: e2 :: rest'))
     = Ok r' /\
     Forall2 (fun x y => x.1 = y.1 /\ Py.float_eq x.2 y.2) r r') /\
  Multipoint.report
    (Multipoint.Distributed 0
       [(NaN, Finite 0, Finite 0); Example.burns 0 2 0; Example.burns 0 0 1])
  = Ok [("seg1 fuel burn", NaN); ("seg2 fuel burn", Finite 2);
        ("seg3 fuel burn", Finite 1)] /\
  Multipoint.report
    (Multipoint.Distributed 0
       [Example.burns 0 2 0; (NaN, Finite 0, Finite 0); Example.burns 0 0 1])
  = Ok [("seg1 fuel burn", Finite 0); ("seg2 fuel burn", Finite 2);
        ("seg3 fuel burn", Finite 1)].
Proof.
  intros Hp Hn. split; [| split; reflexivity].
  eexists _, _. split; [reflexivity |]. split; [reflexivity |].
  assert (Hleg : forall k,
            [Multipoint.leg k d0; Multipoint.leg k d1; Multipoint.leg k d2]
            ≡ₚ [Multipoint.leg k e0; Multipoint.leg k e1;
                 Multipoint.leg k e2]).
  { intros k. exact (fmap_Permutation (Multipoint.leg k) _ _ Hp). }
  assert (Hnan : forall k x,
            In x [Multipoint.leg k d0; Multipoint.leg k d1;
                  Multipoint.leg k d2] -> x <> NaN).
  { intros k x [<- | [<- | [<- | []]]]; apply Hn; cbn; auto. }
  repeat constructor; cbn [fst snd]; apply max3_unique;
    first [apply Hleg | apply Hnan].
Qed.

Lemma report_order_independent_witness :
  exists r r',
    Multipoint.report
      (Multipoint.Distributed 0
         [Example.burns 3 0 0; Example.burns 0 2 0; Example.burns 0 0 1])
    = Ok r /\
    Multipoint.report
      (Multipoint.Distributed 0
         [Example.burns 0 0 1; Example.burns 3 0 0; Example.burns 0 2 0])
    = Ok r' /\
    Forall2 (fun x y => x.1 = y.1 /\ Py.float_eq x.2 y.2) r r'.
Proof.
  refine (proj1 (report_order_independent
                   (Example.burns 3 0 0) (Example.burns 0 2 0)
                   (Example.burns 0 0 1) (Example.burns 0 0 1)
                   (Example.burns 3 0 0) (Example.burns 0 2 0) [] [] _ _)).
  - change [Example.burns 3 0 0; Example.burns 0 2 0; Example.burns 0 0 1]
      with ([Example.burns 3 0 0; Example.burns 0 2 0]
              ++ [Example.burns 0 0 1]).
    apply Permutation_app_comm.
  - intros k d [<- | [<- | [<- | []]]]; destruct k as [| [| k]];
      discriminate.
Defined.

(** ** The segments of the multipoint model *)

Section Statements.
Import OpenMDAO.

(** What the statements applied to a built segment do when they return. *)
Lemma set_component_attr_Ok comp name v (s s' : assembly component) :
  set_component_attr comp name v s = Ok (tt, s') ->
  exists c,
    get_component s comp = Some c /\
    s' = Assembly (attrs s)
           (assoc_set comp
              (Comp (Component (cls c) (kwargs c) (<[name := v]> (cattrs c))))
              (children s))
           (connections s) (passthroughs s).
Proof.
  unfold set_component_attr, mbind, build_bind, get.
  destruct (get_component s comp) as [c |]; [| discriminate].
  intros [= <-]. eauto.
Qed.

Lemma set_option_Ok {C} drv opt v (s s' : assembly C) :
  set_option drv opt v s = Ok (tt, s') ->
  exists d,
    get_driver s drv = Some d /\
    s' = Assembly (attrs s)
           (assoc_set drv
              (Drv (Driver (dcls d) (workflow d) (parameters d)
                           (constraints d) (<[opt := v]> (settings d))))
              (children s))
           (connections s) (passthroughs s).
Proof.
  unfold set_option, with_driver, mbind, build_bind, get.
  destruct (get_driver s drv) as [d |]; [| discriminate].
  intros [= <-]. eauto.
Qed.

Lemma get_driver_set_ne {C} (s : assembly C) k ch name :
  k <> name ->
  get_driver (Assembly (attrs s) (assoc_set k ch (children s))
                (connections s) (passthroughs s)) name
  = get_driver s name.
Proof.
  intros Hne. unfold get_driver. cbn [children].
  now rewrite assoc_set_ne.
Qed.

Lemma get_component_set_ne {C} (l : list (string * child C)) k ch name
    at1 cn pt :
  k <> name ->
  get_component (Assembly at1 (assoc_set k ch l) cn pt) name
  = get_component (Assembly at1 l cn pt) name.
Proof.
  intros Hne. unfold get_component. cbn [children].
  now rewrite assoc_set_ne.
Qed.

End Statements.

Section BlockInversion.
Import OpenMDAO Segment Multipoint Block.

Variable execfile : value -> result (gmap string value).
Variable gmres : matrix -> vector -> vector * Z.
Variable setup_surrogate : string -> value * value * value * value.
Variable setup_MBI : Z -> Z -> vector -> matrix * matrix.
Variable one_minus_cos_pi : vector -> vector.
Variable sin_pi : vector -> vector.

#[local] Abbreviation block :=
  (segment_block execfile gmres setup_surrogate setup_MBI one_minus_cos_pi
     sin_pi).
#[local] Abbreviation result_of :=
  (block_result execfile gmres setup_surrogate setup_MBI one_minus_cos_pi
     sin_pi).

(** A block leaves, under its name, the segment described by
    [block_result]. *)
Lemma segment_block_inv name x (s s' : mission) :
  block name x s = Ok (tt, s') ->
  exists seg seg',
    result_of x seg seg' /\
    s' = Assembly (attrs s)
           (assoc_set name (Comp seg')
              (assoc_set name (Comp seg) (children s)))
           (connections s) (passthroughs s).
Proof.
  unfold segment_block, block_result, block_args, block_jac_h.
  fold (altitude sin_pi). fold (x_init one_minus_cos_pi x).
  destruct (setup_MBI _ _ _) as [jh jg]. cbn [fst snd]. intros H.
  apply bind_Ok in H as (seg & s1 & H1 & H).
  apply lift_Ok in H1 as [Hseg ->].
  apply bind_Ok in H as ([] & s2 & H2 & H).
  injection H2 as <-.
  unfold on_segment in H.
  apply bind_Ok in H as (s3 & s4 & H3 & H). injection H3 as <- <-.
  unfold get_component in H. cbn [children] in H.
  rewrite assoc_set_eq in H.
  match type of H with
  | match ?m with _ => _ end _ = _ =>
      destruct m as [[u seg'] | e] eqn:K; [| discriminate]
  end.
  injection H as <-. destruct u.
  exists seg, seg'. split; [| reflexivity].
  destruct (assembled_jac_h _ _ _ Hseg) as [Hjac _]. cbn [jac_h] in Hjac.
  apply bind_Ok in K as ([] & t1 & K1 & K). injection K1 as <-.
  apply bind_Ok in K as ([] & t2 & K2 & K). injection K2 as <-.
  apply bind_Ok in K as ([] & t3 & K3 & K).
  apply set_init_h_pt_Ok in K3 as (A & b & ATA & ATb & HA & Hb & M1 & M2 & ->).
  cbn [attrs] in HA. rewrite !lookup_insert_ne in HA by discriminate.
  rewrite Hjac in HA. injection HA as <-.
  destruct Hb as [Hb | (B & Hb & _)]; [| discriminate Hb].
  injection Hb as <-.
  apply bind_Ok in K as ([] & t4 & K4 & K).
  apply set_component_attr_Ok in K4 as (c & Hc & ->).
  apply bind_Ok in K as ([] & t5 & K5 & K). injection K5 as <-.
  apply bind_Ok in K as ([] & t6 & K6 & K). injection K6 as <-.
  apply bind_Ok in K as ([] & t7 & K7 & K). injection K7 as <-.
  apply bind_Ok in K as ([] & t8 & K8 & K). injection K8 as <-.
  apply bind_Ok in K as ([] & t9 & K9 & K). injection K9 as <-.
  apply bind_Ok in K as ([] & t10 & K10 & K). injection K10 as <-.
  apply bind_Ok in K as ([] & t11 & K11 & K).
  apply set_option_Ok in K11 as (d0 & Hd0 & ->).
  apply set_option_Ok in K as (d1 & Hd1 & ->).
  cbn [attrs children connections passthroughs] in *.
  unfold get_driver in Hd0, Hd1. cbn [children] in Hd0, Hd1.
  rewrite assoc_set_ne in Hd0 by discriminate.
  do 2 rewrite assoc_set_ne in Hd1 by discriminate.
  exists ATA, ATb, c, d0, d1.
  split; [exact Hseg |]. split; [exact M1 |]. split; [exact M2 |].
  split; [exact Hc |]. split; [exact Hd0 |]. split; [exact Hd1 |].
  reflexivity.
Qed.

(** The model: the driver with its workflow, and the three segments the
    three blocks leave; nothing else, and no connection. *)
Lemma build_model_inv (m : mission) :
  build_model execfile gmres setup_surrogate setup_MBI one_minus_cos_pi sin_pi
  = Ok m ->
  exists a1 b1 a2 b2 a3 b3,
    result_of 9000.0 a1 b1 /\ result_of 7000.0 a2 b2 /\
    result_of 5000.0 a3 b3 /\
    children m
    = [("driver", Drv (Driver "Driver" ["seg1"; "seg2"; "seg3"] [] [] ∅));
       ("seg1", Comp b1); ("seg2", Comp b2); ("seg3", Comp b3)].
Proof.
  intros H. apply construct_Ok in H.
  apply bind_Ok in H as ([] & m1 & H1 & H).
  apply bind_Ok in H as ([] & m2 & H2 & H).
  apply bind_Ok in H as ([] & m3 & H3 & H).
  apply segment_block_inv in H1 as (a1 & b1 & R1 & ->).
  apply segment_block_inv in H2 as (a2 & b2 & R2 & ->).
  apply segment_block_inv in H3 as (a3 & b3 & R3 & ->).
  cbn in H. injection H as <-.
  exists a1, b1, a2, b2, a3, b3. repeat split; assumption.
Qed.

(** The segments of the model are the three the blocks leave, each for
    the range of its block. *)
Lemma built_segment (m : mission) name seg' :
  build_model execfile gmres setup_surrogate setup_MBI one_minus_cos_pi sin_pi
  = Ok m ->
  get_component m name = Some seg' ->
  exists x seg,
    In (name, x) [("seg1", 9000.0); ("seg2", 7000.0); ("seg3", 5000.0)]%Q /\
    result_of x seg seg'.
Proof.
  intros H Hn.
  apply build_model_inv in H
    as (a1 & b1 & a2 & b2 & a3 & b3 & R1 & R2 & R3 & Hch).
  unfold get_component in Hn. rewrite Hch in Hn. cbn in Hn.
  repeat match type of Hn with
         | context [String.eqb name ?k] =>
             destruct (String.eqb_spec name k) as [-> | ?]
         end; try discriminate; injection Hn as <-;
    eexists _, _; (split; [| eassumption]); cbn; auto.
Qed.

(** What a block does not touch. *)
Lemma block_result_frame x seg seg' :
  result_of x seg seg' ->
  MissionSegment execfile
    (block_args setup_surrogate setup_MBI one_minus_cos_pi x) = Ok seg /\
  connections seg' = connections seg /\
  passthroughs seg' = passthroughs seg /\
  (forall k,
     ~ In k ["oswald"; "AR"; "SFCSL"; "thrust_sl"; "ac_w"; "S"; "h_pt";
             "M_pt"] ->
     attrs seg' !! k = attrs seg !! k) /\
  (forall n, n <> "SysSpeed" -> get_component seg' n = get_component seg n).
Proof.
  intros (ATA & ATb & c & d0 & d1 & Hseg & _ & _ & Hc & Hd0 & Hd1 & ->).
  split; [exact Hseg |]. split; [reflexivity |]. split; [reflexivity |].
  split.
  - intros k Hk. cbn [attrs].
    rewrite !lookup_insert_ne; [reflexivity | ..];
      intros <-; apply Hk; cbn; auto 10.
  - intros n Hn. unfold get_component, get_driver in *. cbn [children].
    destruct (String.eqb_spec n "coupled_solver") as [-> | N1].
    { rewrite assoc_set_eq.
      destruct (assoc "coupled_solver" (children seg)) as [[| |] |];
        try discriminate; reflexivity. }
    rewrite assoc_set_ne by congruence.
    destruct (String.eqb_spec n "driver") as [-> | N2].
    { rewrite assoc_set_eq.
      destruct (assoc "driver" (children seg)) as [[| |] |];
        try discriminate; reflexivity. }
    rewrite !assoc_set_ne by congruence. reflexivity.
Qed.

End BlockInversion.

(** X13: in the model multipoint.py builds, the altitude control points of
    every segment are the ones [gmres] returned for the normal equations of
    the sine-shaped [altitude] profile on the block's spline operator: the
    [h_init] assigned two lines earlier is overwritten.  The Mach control
    points are the ten values [1 * 0.82]. *)
Theorem fitted_altitude_replaces_h_init
    (execfile : value -> result (gmap string value))
    (gmres : matrix -> vector -> vector * Z)
    (setup_surrogate : string -> value * value * value * value)
    (setup_MBI : Z -> Z -> vector -> matrix * matrix)
    (one_minus_cos_pi sin_pi : vector -> vector)
    (m : Multipoint.mission) (name : string) (seg' : Segment.segment) :
  Multipoint.build_model execfile gmres setup_surrogate setup_MBI
    one_minus_cos_pi sin_pi = Ok m ->
  OpenMDAO.get_component m name = Some seg' ->
  exists x ATA ATb,
    In (name, x) [("seg1", 9000.0); ("seg2", 7000.0); ("seg3", 5000.0)]%Q /\
    Numpy.mat_mul
      (Numpy.transpose (Block.block_jac_h setup_MBI one_minus_cos_pi x))
      (Block.block_jac_h setup_MBI one_minus_cos_pi x) = Ok ATA /\
    Numpy.mat_vec
      (Numpy.transpose (Block.block_jac_h setup_MBI one_minus_cos_pi x))
      (Block.altitude sin_pi) = Ok ATb /\
    OpenMDAO.attrs seg' !! "h_pt" = Some (VArray (gmres ATA ATb).1) /\
    OpenMDAO.attrs seg' !! "M_pt" = Some (VArray Block.M_init) /\
    length Block.M_init = 10 /\
    Forall (fun v => v == 0.82)%Q Block.M_init.
Proof.
  intros H Hn.
  destruct (built_segment _ _ _ _ _ _ _ _ _ H Hn) as (x & seg & Hx & R).
  destruct R as (ATA & ATb & c & d0 & d1 & _ & M1 & M2 & _ & _ & _ & ->).
  exists x, ATA, ATb.
  split; [exact Hx |]. split; [exact M1 |]. split; [exact M2 |].
  cbn [OpenMDAO.attrs].
  split; [now rewrite !lookup_insert_ne, lookup_insert_eq by discriminate |].
  split; [now rewrite !lookup_insert_ne, lookup_insert_eq by discriminate |].
  split; [reflexivity |].
  repeat constructor.
Qed.

(** The example mission, its first segment. *)
Lemma example_seg1 :
  is_Some (OpenMDAO.get_component Example.mission "seg1").
Proof. apply (bool_decide_unpack _). vm_compute. exact I. Qed.

Lemma fitted_altitude_replaces_h_init_witness :
  exists seg' x ATA ATb,
    OpenMDAO.get_component Example.mission "seg1" = Some seg' /\
    In ("seg1", x) [("seg1", 9000.0); ("seg2", 7000.0); ("seg3", 5000.0)]%Q /\
    OpenMDAO.attrs seg' !! "h_pt" = Some (VArray (Example.gmres ATA ATb).1).
Proof.
  destruct (OpenMDAO.get_component Example.mission "seg1") as [seg' |] eqn:E;
    [| exfalso; destruct example_seg1 as [? Hs]; congruence].
  destruct (fitted_altitude_replaces_h_init Example.execfile Example.gmres
              Example.setup_surrogate Example.setup_MBI
              (fun v => v) (fun v => v) Example.mission "seg1" seg'
              example_mission_built E)
    as (x & ATA & ATb & Hx & _ & _ & Hh & _).
  exists seg', x, ATA, ATb. split; [reflexivity |]. split; [exact Hx |].
  exact Hh.
Defined.

Section BuiltFacts.
Import OpenMDAO Segment.

Variable execfile : value -> result (gmap string value).

(** The parameters the components of an assembled segment were built
    with. *)
Lemma assembled_parameters a seg :
  MissionSegment execfile a = Ok seg ->
  exists i,
    loaded execfile a i /\
    map (fun n => (fun c => assoc "S" (kwargs c)) <$> get_component seg n)
        ["SysCLTar"; "SysCTTar"; "SysFuelWeight"; "SysTau"]
    = replicate 4 (Some (Some (in_S i))) /\
    map (fun n => (fun c => assoc "ac_w" (kwargs c)) <$> get_component seg n)
        ["SysCLTar"; "SysCTTar"]
    = replicate 2 (Some (Some (in_ac_w i))) /\
    (fun c => assoc "thrust_sl" (kwargs c)) <$> get_component seg "SysTau"
    = Some (Some (in_thrust_sl i)) /\
    (fun c => assoc "SFCSL" (kwargs c)) <$> get_component seg "SysSFC"
    = Some (Some (in_SFCSL i)) /\
    map (fun nk => (fun c => assoc nk.2 (kwargs c))
                   <$> get_component seg nk.1)
        [("SysTripanCLSurrogate", "CL"); ("SysTripanCDSurrogate", "CD");
         ("SysTripanCMSurrogate", "CM")]
    = [Some (Some (in_CL i)); Some (Some (in_CD i)); Some (Some (in_CM i))] /\
    map (fun k => attrs seg !! k)
        ["CL_arr"; "CD_arr"; "CM_arr"; "num"; "num_elem"; "num_pt"]
    = [Some (in_CL i); Some (in_CD i); Some (in_CM i); Some (in_nums i);
       Some (VInt (num_elem a)); Some (VInt (num_cp a))].
Proof.
  intros H. apply MissionSegment_inv in H as (i & Hi & H).
  exists i. split; [exact Hi |].
  repeat split; configured H; reflexivity.
Qed.

End BuiltFacts.

(** X14: the six design parameters multipoint.py assigns on a segment after
    building it ([S], [ac_w], [thrust_sl], [SFCSL], [AR], [oswald]) change
    the attributes of the segment and nothing else: the components keep the
    values the constructor read from the parameter file, [S] in SysCLTar,
    SysCTTar, SysFuelWeight and SysTau, [ac_w] in SysCLTar and SysCTTar,
    [thrust_sl] in SysTau and [SFCSL] in SysSFC. *)
Theorem design_parameters_do_not_reach_components
    (execfile : value -> result (gmap string value))
    (gmres : matrix -> vector -> vector * Z)
    (setup_surrogate : string -> value * value * value * value)
    (setup_MBI : Z -> Z -> vector -> matrix * matrix)
    (one_minus_cos_pi sin_pi : vector -> vector)
    (m : Multipoint.mission) (name : string) (seg' : Segment.segment) :
  Multipoint.build_model execfile gmres setup_surrogate setup_MBI
    one_minus_cos_pi sin_pi = Ok m ->
  OpenMDAO.get_component m name = Some seg' ->
  map (fun k => OpenMDAO.attrs seg' !! k)
      ["S"; "ac_w"; "thrust_sl"; "SFCSL"; "AR"; "oswald"]
  = [Some (VFloat (427.8 / 1e2)); Some (VFloat (210000 * 9.81 / 1e6));
     Some (VFloat (1020000.0 / 1e6)); Some (VFloat (8.951 * 9.81));
     Some (VFloat 8.68); Some (VFloat 0.8)] /\
  exists data params vS vac vth vsf,
    execfile (VStr "CRM_params.py") = Ok data /\
    Py.getitem (VDict data) "params" = Ok params /\
    Py.getitem params "S" = Ok vS /\
    Py.getitem params "ac_w" = Ok vac /\
    Py.getitem params "thrust_sl" = Ok vth /\
    Py.getitem params "SFCSL" = Ok vsf /\
    (forall n, In n ["SysCLTar"; "SysCTTar"; "SysFuelWeight"; "SysTau"] ->
       exists c, OpenMDAO.get_component seg' n = Some c /\
                 OpenMDAO.assoc "S" (OpenMDAO.kwargs c) = Some vS) /\
    (forall n, In n ["SysCLTar"; "SysCTTar"] ->
       exists c, OpenMDAO.get_component seg' n = Some c /\
                 OpenMDAO.assoc "ac_w" (OpenMDAO.kwargs c) = Some vac) /\
    (exists c, OpenMDAO.get_component seg' "SysTau" = Some c /\
               OpenMDAO.assoc "thrust_sl" (OpenMDAO.kwargs c) = Some vth) /\
    (exists c, OpenMDAO.get_component seg' "SysSFC" = Some c /\
               OpenMDAO.assoc "SFCSL" (OpenMDAO.kwargs c) = Some vsf).
Proof.
  intros H Hn.
  destruct (built_segment _ _ _ _ _ _ _ _ _ H Hn) as (x & seg & _ & R).
  destruct (block_result_frame _ _ _ _ _ _ _ _ _ R)
    as (Hseg & _ & _ & _ & Hcomp).
  split.
  { destruct R as (ATA & ATb & c & d0 & d1 & _ & _ & _ & _ & _ & _ & ->).
    cbn [OpenMDAO.attrs map].
    repeat first [rewrite lookup_insert_eq
                 | rewrite lookup_insert_ne by discriminate].
    reflexivity. }
  destruct (assembled_parameters _ _ _ Hseg)
    as (i & Hi & GS & Gac & Gth & Gsf & _).
  destruct Hi as (data & params & L1 & L2 & L3 & L4 & L5 & L6 & _).
  exists data, params, (Segment.in_S i), (Segment.in_ac_w i),
    (Segment.in_thrust_sl i), (Segment.in_SFCSL i).
  repeat (split; [assumption |]).
  cbn [map replicate] in GS, Gac.
  injection GS as S1 S2 S3 S4. injection Gac as A1 A2.
  assert (Hget : forall n v k,
            n <> "SysSpeed" ->
            (fun c => OpenMDAO.assoc k (OpenMDAO.kwargs c))
              <$> OpenMDAO.get_component seg n = Some (Some v) ->
            exists c, OpenMDAO.get_component seg' n = Some c /\
                      OpenMDAO.assoc k (OpenMDAO.kwargs c) = Some v).
  { intros n v k Hne G. rewrite (Hcomp n Hne).
    destruct (OpenMDAO.get_component seg n) as [c |]; [| discriminate].
    cbn in G. injection G as G. eauto. }
  split; [| split; [| split]].
  - intros n [<- | [<- | [<- | [<- | []]]]]; apply Hget;
      first [discriminate | assumption].
  - intros n [<- | [<- | []]]; apply Hget;
      first [discriminate | assumption].
  - apply Hget; [discriminate | assumption].
  - apply Hget; [discriminate | assumption].
Qed.

(** The mission built on a parameter file with another wing area. *)
Lemma example_mission_big_built :
  Multipoint.build_model Example2.execfile_big Example.gmres
    Example.setup_surrogate Example.setup_MBI (fun v => v) (fun v => v)
  = Ok Example2.mission_big.
Proof. vm_compute. reflexivity. Qed.

Lemma example_big_seg1 :
  is_Some (OpenMDAO.get_component Example2.mission_big "seg1").
Proof. apply (bool_decide_unpack _). vm_compute. exact I. Qed.

Lemma design_parameters_do_not_reach_components_witness :
  exists seg' c,
    OpenMDAO.get_component Example2.mission_big "seg1" = Some seg' /\
    OpenMDAO.attrs seg' !! "S" = Some (VFloat (427.8 / 1e2)) /\
    OpenMDAO.get_component seg' "SysCLTar" = Some c /\
    OpenMDAO.assoc "S" (OpenMDAO.kwargs c) = Some (VFloat 5).
Proof.
  destruct (OpenMDAO.get_component Example2.mission_big "seg1")
    as [seg' |] eqn:E;
    [| exfalso; destruct example_big_seg1 as [? Hs]; congruence].
  destruct (design_parameters_do_not_reach_components Example2.execfile_big
              Example.gmres Example.setup_surrogate Example.setup_MBI
              (fun v => v) (fun v => v) Example2.mission_big "seg1" seg'
              example_mission_big_built E)
    as (Hattrs & data & params & vS & vac & vth & vsf & L1 & L2 & L3 & _ & _
        & _ & HS & _).
  destruct (HS "SysCLTar" ltac:(left; reflexivity)) as (c & Hc & Hk).
  exists seg', c. split; [reflexivity |].
  split; [now injection Hattrs |].
  split; [exact Hc |].
  rewrite Hk. f_equal.
  cbn in L1. injection L1 as <-.
  vm_compute in L2. injection L2 as <-.
  vm_compute in L3. now injection L3 as <-.
Defined.

(** X15: the statements multipoint.py applies to a segment after building
    it leave its wiring and its solver as the constructor made them: the same
    connections and passthroughs, the Newton solver with its two unknowns,
    its workflow of six and its tolerances 1e-9 and cap 15, the top workflow
    of fourteen steps; they add [system_type = 'serial'] to the two
    drivers. *)
Theorem block_keeps_solver_configuration
    (execfile : value -> result (gmap string value))
    (gmres : matrix -> vector -> vector * Z)
    (setup_surrogate : string -> value * value * value * value)
    (setup_MBI : Z -> Z -> vector -> matrix * matrix)
    (one_minus_cos_pi sin_pi : vector -> vector)
    (m : Multipoint.mission) (name : string) (seg' : Segment.segment) :
  Multipoint.build_model execfile gmres setup_surrogate setup_MBI
    one_minus_cos_pi sin_pi = Ok m ->
  OpenMDAO.get_component m name = Some seg' ->
  exists d d0,
    OpenMDAO.get_driver seg' "coupled_solver" = Some d /\
    OpenMDAO.dcls d = "NewtonSolver" /\
    OpenMDAO.workflow d =
      ["SysCLTar"; "SysTripanCLSurrogate"; "SysTripanCMSurrogate";
       "SysTripanCDSurrogate"; "SysCTTar"; "SysFuelWeight"] /\
    OpenMDAO.parameters d =
      ["SysTripanCLSurrogate.alpha"; "SysTripanCMSurrogate.eta"] /\
    OpenMDAO.constraints d =
      ["SysTripanCLSurrogate.alpha_res = 0"; "SysTripanCMSurrogate.CM = 0"] /\
    OpenMDAO.settings d !! "atol" = Some (VFloat 1e-9) /\
    OpenMDAO.settings d !! "rtol" = Some (VFloat 1e-9) /\
    OpenMDAO.settings d !! "max_iteration" = Some (VInt 15) /\
    OpenMDAO.settings d !! "system_type" = Some (VStr "serial") /\
    OpenMDAO.get_driver seg' "driver" = Some d0 /\
    OpenMDAO.workflow d0 =
      ["SysXBspline"; "SysHBspline"; "SysMVBspline"; "SysGammaBspline";
       "SysSFC"; "SysTemp"; "SysRho"; "SysSpeed";
       "coupled_solver";
       "SysTau"; "SysTmin"; "SysTmax"; "SysFuelObj"; "SysBlockTime"] /\
    OpenMDAO.settings d0 !! "system_type" = Some (VStr "serial") /\
    length (OpenMDAO.connections seg') = 49 /\
    OpenMDAO.boundary_ports seg'
    = ["h_pt"; "v_pt"; "M_pt"; "Tmin"; "Tmax"; "fuelburn"; "time"; "h";
       "Gamma"].
Proof.
  intros H Hn.
  destruct (built_segment _ _ _ _ _ _ _ _ _ H Hn) as (x & seg & _ & R).
  destruct R as (ATA & ATb & c & d0 & d1 & Hseg & _ & _ & _ & Hd0 & Hd1 & ->).
  destruct (assembled_solver _ _ _ Hseg)
    as (d & Hd & Hcls & Hw & Hp & Hk & Hat & Hrt & Hmx).
  destruct (assembled_driver _ _ _ Hseg) as (e0 & He0 & Hw0 & _).
  destruct (assembled_single_source _ _ _ Hseg) as [_ Hlen].
  assert (d1 = d) by congruence. assert (d0 = e0) by congruence. subst d1 d0.
  eexists _, _.
  unfold OpenMDAO.get_driver. cbn [OpenMDAO.children].
  rewrite assoc_set_eq.
  rewrite assoc_set_ne, assoc_set_eq by discriminate.
  split; [reflexivity |].
  cbn [OpenMDAO.dcls OpenMDAO.workflow OpenMDAO.parameters
       OpenMDAO.constraints OpenMDAO.settings OpenMDAO.connections].
  rewrite !lookup_insert_ne, !lookup_insert_eq by discriminate.
  repeat (split; [first [assumption | reflexivity] |]).
  split; [cbn [OpenMDAO.settings]; apply lookup_insert_eq |].
  split; [exact Hlen |].
  apply MissionSegment_inv in Hseg as (i & _ & Hseg).
  unfold OpenMDAO.boundary_ports. cbn [OpenMDAO.passthroughs].
  configured Hseg. reflexivity.
Qed.

Lemma block_keeps_solver_configuration_witness :
  exists seg' d,
    OpenMDAO.get_component Example.mission "seg1" = Some seg' /\
    OpenMDAO.get_driver seg' "coupled_solver" = Some d /\
    OpenMDAO.settings d !! "max_iteration" = Some (VInt 15) /\
    OpenMDAO.settings d !! "system_type" = Some (VStr "serial").
Proof.
  destruct (OpenMDAO.get_component Example.mission "seg1") as [seg' |] eqn:E;
    [| exfalso; destruct example_seg1 as [? Hs]; congruence].
  destruct (block_keeps_solver_configuration Example.execfile Example.gmres
              Example.setup_surrogate Example.setup_MBI
              (fun v => v) (fun v => v) Example.mission "seg1" seg'
              example_mission_built E)
    as (d & d0 & Hd & _ & _ & _ & _ & _ & _ & Hmx & Hst & _).
  exists seg', d. repeat split; assumption.
Defined.

Section BuildFails.
Import OpenMDAO Segment Multipoint.

Variable execfile : value -> result (gmap string value).
Variable gmres : matrix -> vector -> vector * Z.
Variable setup_surrogate : string -> value * value * value * value.
Variable setup_MBI : Z -> Z -> vector -> matrix * matrix.
Variable one_minus_cos_pi : vector -> vector.
Variable sin_pi : vector -> vector.

(** A block whose constructor raises, raises the same. *)
Lemma segment_block_Raise name x (s : mission) e :
  MissionSegment execfile
    (Block.block_args setup_surrogate setup_MBI one_minus_cos_pi x)
  = Raise e ->
  segment_block execfile gmres setup_surrogate setup_MBI one_minus_cos_pi
    sin_pi name x s = Raise e.
Proof.
  unfold segment_block, Block.block_args.
  fold (Block.x_init one_minus_cos_pi x).
  destruct (setup_MBI _ _ _) as [jh jg]. cbn [fst snd]. intros H.
  apply bind_Raise. unfold lift. now rewrite H.
Qed.

End BuildFails.

(** X16: multipoint.py builds nothing when its first segment cannot be
    assembled: the exception of the first constructor ends the script.  In
    particular, when [CRM_params.py] cannot be read or run, the exception of
    [execfile] comes out of the build as it is. *)
Theorem build_stops_at_first_failure
    (execfile : value -> result (gmap string value))
    (gmres : matrix -> vector -> vector * Z)
    (setup_surrogate : string -> value * value * value * value)
    (setup_MBI : Z -> Z -> vector -> matrix * matrix)
    (one_minus_cos_pi sin_pi : vector -> vector) (e : exn) :
  (Segment.MissionSegment execfile
     (Block.block_args setup_surrogate setup_MBI one_minus_cos_pi 9000.0)
   = Raise e ->
   Multipoint.build_model execfile gmres setup_surrogate setup_MBI
     one_minus_cos_pi sin_pi = Raise e) /\
  (execfile (VStr "CRM_params.py") = Raise e ->
   Multipoint.build_model execfile gmres setup_surrogate setup_MBI
     one_minus_cos_pi sin_pi = Raise e).
Proof.
  assert (Hfirst :
    Segment.MissionSegment execfile
      (Block.block_args setup_surrogate setup_MBI one_minus_cos_pi 9000.0)
    = Raise e ->
    Multipoint.build_model execfile gmres setup_surrogate setup_MBI
      one_minus_cos_pi sin_pi = Raise e).
  { intros H. unfold Multipoint.build_model, OpenMDAO.construct.
    erewrite bind_Raise; [reflexivity |].
    now apply segment_block_Raise. }
  split; [exact Hfirst |].
  intros H. apply Hfirst.
  rewrite MissionSegment_load. unfold OpenMDAO.construct.
  erewrite bind_Raise; [reflexivity |].
  now apply load_parameters_unreadable.
Qed.

Lemma build_stops_at_first_failure_witness :
  Multipoint.build_model (fun _ => Raise IOError) Example.gmres
    Example.setup_surrogate Example.setup_MBI (fun v => v) (fun v => v)
  = Raise IOError.
Proof.
  exact (proj2 (build_stops_at_first_failure (fun _ => Raise IOError)
                  Example.gmres Example.setup_surrogate Example.setup_MBI
                  (fun v => v) (fun v => v) IOError) eq_refl).
Defined.

(** X17: the three segments of the model multipoint.py builds are on one
    discretisation, 50 elements and 10 control points, and hold the very same
    surrogate tables, those [setup_surrogate('crm_surr')] returned once at the
    top of the script; the three surrogate components of each segment are
    built on these tables. *)
Theorem segments_share_tables_and_mesh
    (execfile : value -> result (gmap string value))
    (gmres : matrix -> vector -> vector * Z)
    (setup_surrogate : string -> value * value * value * value)
    (setup_MBI : Z -> Z -> vector -> matrix * matrix)
    (one_minus_cos_pi sin_pi : vector -> vector)
    (m : Multipoint.mission) (name : string) (seg' : Segment.segment) :
  Multipoint.build_model execfile gmres setup_surrogate setup_MBI
    one_minus_cos_pi sin_pi = Ok m ->
  OpenMDAO.get_component m name = Some seg' ->
  let '(CL, CD, CM, nums) := setup_surrogate "crm_surr" in
  map (fun k => OpenMDAO.attrs seg' !! k)
      ["CL_arr"; "CD_arr"; "CM_arr"; "num"; "num_elem"; "num_pt"]
  = [Some CL; Some CD; Some CM; Some nums; Some (VInt 50); Some (VInt 10)] /\
  (exists c, OpenMDAO.get_component seg' "SysTripanCLSurrogate" = Some c /\
             OpenMDAO.assoc "CL" (OpenMDAO.kwargs c) = Some CL) /\
  (exists c, OpenMDAO.get_component seg' "SysTripanCDSurrogate" = Some c /\
             OpenMDAO.assoc "CD" (OpenMDAO.kwargs c) = Some CD) /\
  (exists c, OpenMDAO.get_component seg' "SysTripanCMSurrogate" = Some c /\
             OpenMDAO.assoc "CM" (OpenMDAO.kwargs c) = Some CM).
Proof.
  intros H Hn.
  destruct (built_segment _ _ _ _ _ _ _ _ _ H Hn) as (x & seg & _ & R).
  destruct (block_result_frame _ _ _ _ _ _ _ _ _ R)
    as (Hseg & _ & _ & Hattr & Hcomp).
  destruct (assembled_parameters _ _ _ Hseg)
    as (i & Hi & _ & _ & _ & _ & Gt & Ga).
  destruct Hi as (data & params & _ & _ & _ & _ & _ & _ & _ & _ & T1 & T2 & T3
                  & T4).
  cbn [Segment.aero_surr Block.block_args] in T1, T2, T3, T4.
  unfold Multipoint.aero_surr in T1, T2, T3, T4.
  destruct (setup_surrogate "crm_surr") as [[[CL CD] CM] nums].
  unfold Py.getitem in T1, T2, T3, T4.
  repeat first [rewrite lookup_insert_eq in T1
               | rewrite lookup_insert_ne in T1 by discriminate].
  repeat first [rewrite lookup_insert_eq in T2
               | rewrite lookup_insert_ne in T2 by discriminate].
  repeat first [rewrite lookup_insert_eq in T3
               | rewrite lookup_insert_ne in T3 by discriminate].
  repeat first [rewrite lookup_insert_eq in T4
               | rewrite lookup_insert_ne in T4 by discriminate].
  injection T1 as T1. injection T2 as T2. injection T3 as T3.
  injection T4 as T4. rewrite <- T1, <- T2, <- T3, <- T4 in *.
  cbn [map] in Gt, Ga |- *.
  injection Gt as G1 G2 G3. injection Ga as A1 A2 A3 A4 A5 A6.
  split.
  { rewrite !Hattr by (intros Hin; cbn in Hin; intuition discriminate).
    cbn [Segment.num_elem Segment.num_cp Block.block_args] in A5, A6.
    now rewrite A1, A2, A3, A4, A5, A6. }
  assert (Hget : forall n v k,
            n <> "SysSpeed" ->
            (fun c => OpenMDAO.assoc k (OpenMDAO.kwargs c))
              <$> OpenMDAO.get_component seg n = Some (Some v) ->
            exists c, OpenMDAO.get_component seg' n = Some c /\
                      OpenMDAO.assoc k (OpenMDAO.kwargs c) = Some v).
  { intros n v k Hne G. rewrite (Hcomp n Hne).
    destruct (OpenMDAO.get_component seg n) as [c |]; [| discriminate].
    cbn in G. injection G as G. eauto. }
  repeat split; apply Hget; first [discriminate | assumption].
Qed.

Lemma segments_share_tables_and_mesh_witness :
  exists seg1 seg3,
    OpenMDAO.get_component Example.mission "seg1" = Some seg1 /\
    OpenMDAO.get_component Example.mission "seg3" = Some seg3 /\
    OpenMDAO.attrs seg1 !! "CL_arr" = OpenMDAO.attrs seg3 !! "CL_arr" /\
    OpenMDAO.attrs seg1 !! "num_elem" = Some (VInt 50).
Proof.
  destruct (OpenMDAO.get_component Example.mission "seg1") as [seg1 |] eqn:E1;
    [| exfalso; destruct example_seg1 as [? Hs]; congruence].
  destruct (OpenMDAO.get_component Example.mission "seg3") as [seg3 |] eqn:E3;
    [| vm_compute in E3; discriminate E3].
  pose proof (segments_share_tables_and_mesh Example.execfile Example.gmres
                Example.setup_surrogate Example.setup_MBI
                (fun v => v) (fun v => v) Example.mission "seg1" seg1
                example_mission_built E1) as [H1 _].
  pose proof (segments_share_tables_and_mesh Example.execfile Example.gmres
                Example.setup_surrogate Example.setup_MBI
                (fun v => v) (fun v => v) Example.mission "seg3" seg3
                example_mission_built E3) as [H3 _].
  cbn [map] in H1, H3.
  injection H1 as a1 _ _ _ a5 _. injection H3 as b1 _.
  exists seg1, seg3. repeat split; congruence.
Defined.

(** X18: the statements of a multipoint block change no component of the
    segment they are applied to: every component of the segment left in the
    model is, with its class, keyword arguments and attributes, the one the
    constructor made, [SysSpeed] included, whose [v_specified] the
    constructor had already set to [False]. *)
Theorem block_changes_no_component
    (execfile : value -> result (gmap string value))
    (gmres : matrix -> vector -> vector * Z)
    (setup_surrogate : string -> value * value * value * value)
    (setup_MBI : Z -> Z -> vector -> matrix * matrix)
    (one_minus_cos_pi sin_pi : vector -> vector)
    (m : Multipoint.mission) (name : string) (seg' : Segment.segment) :
  Multipoint.build_model execfile gmres setup_surrogate setup_MBI
    one_minus_cos_pi sin_pi = Ok m ->
  OpenMDAO.get_component m name = Some seg' ->
  exists x seg,
    In (name, x) [("seg1", 9000.0); ("seg2", 7000.0); ("seg3", 5000.0)]%Q /\
    Segment.MissionSegment execfile
      (Block.block_args setup_surrogate setup_MBI one_minus_cos_pi x)
    = Ok seg /\
    (forall n, OpenMDAO.get_component seg' n = OpenMDAO.get_component seg n) /\
    OpenMDAO.connections seg' = OpenMDAO.connections seg /\
    OpenMDAO.passthroughs seg' = OpenMDAO.passthroughs seg.
Proof.
  intros H Hn.
  destruct (built_segment _ _ _ _ _ _ _ _ _ H Hn) as (x & seg & Hx & R).
  destruct (block_result_frame _ _ _ _ _ _ _ _ _ R)
    as (Hseg & Hconn & Hpass & _ & Hcomp).
  exists x, seg. repeat (split; [assumption |]). split; [| auto].
  intros n. destruct (String.eqb_spec n "SysSpeed") as [-> | Hne];
    [| now apply Hcomp].
  destruct R as (ATA & ATb & c & d0 & d1 & _ & _ & _ & Hc & _ & _ & ->).
  unfold OpenMDAO.get_component. cbn [OpenMDAO.children].
  rewrite !assoc_set_ne, assoc_set_eq by discriminate.
  assert (G : (fun c => OpenMDAO.cattrs c !! "v_specified")
              <$> OpenMDAO.get_component seg "SysSpeed"
              = Some (Some (VBool false))).
  { apply MissionSegment_inv in Hseg as (i & _ & Hseg).
    configured Hseg. reflexivity. }
  rewrite Hc in G. cbn in G. injection G as G.
  unfold OpenMDAO.get_component in Hc. rewrite Hc.
  rewrite (insert_id _ _ _ G). now destruct c.
Qed.

Lemma block_changes_no_component_witness :
  exists seg' x seg,
    OpenMDAO.get_component Example.mission "seg1" = Some seg' /\
    Segment.MissionSegment Example.execfile
      (Block.block_args Example.setup_surrogate Example.setup_MBI
         (fun v => v) x) = Ok seg /\
    OpenMDAO.get_component seg' "SysSpeed"
    = OpenMDAO.get_component seg "SysSpeed".
Proof.
  destruct (OpenMDAO.get_component Example.mission "seg1") as [seg' |] eqn:E;
    [| exfalso; destruct example_seg1 as [? Hs]; congruence].
  destruct (block_changes_no_component Example.execfile Example.gmres
              Example.setup_surrogate Example.setup_MBI
              (fun v => v) (fun v => v) Example.mission "seg1" seg'
              example_mission_built E)
    as (x & seg & _ & Hseg & Hcomp & _).
  exists seg', x, seg. split; [reflexivity |]. split; [exact Hseg |].
  apply Hcomp.
Defined.

(** X19: the linear solves of an assembled MissionSegment: the top driver
    takes one sweep of [linear_gs] for its gradients, and the Newton solver
    solves its step with [petsc_ksp], to tolerances 1e-20 within 50
    iterations; the top driver is given no tolerance and no iteration cap of
    its own, and the two drivers carry three and nine settings in all. *)
Theorem linear_solver_settings
    (execfile : value -> result (gmap string value))
    (a : Segment.init_args) (seg : Segment.segment) :
  Segment.MissionSegment execfile a = Ok seg ->
  exists d0 d,
    OpenMDAO.get_driver seg "driver" = Some d0 /\
    OpenMDAO.get_driver seg "coupled_solver" = Some d /\
    map (fun k => OpenMDAO.settings d0 !! k)
        ["gradient_options.lin_solver"; "gradient_options.maxiter"; "atol";
         "rtol"; "max_iteration"]
    = [Some (VStr "linear_gs"); Some (VInt 1); None; None; None] /\
    map (fun k => OpenMDAO.settings d !! k)
        ["gradient_options.lin_solver"; "gradient_options.maxiter";
         "gradient_options.atol"; "gradient_options.rtol"]
    = [Some (VStr "petsc_ksp"); Some (VInt 50); Some (VFloat 1e-20);
       Some (VFloat 1e-20)] /\
    size (OpenMDAO.settings d0) = 3 /\
    size (OpenMDAO.settings d) = 9.
Proof.
  intros H. apply MissionSegment_inv in H as (i & _ & H).
  assert (G1 : (fun d0 => map (fun k => OpenMDAO.settings d0 !! k)
                            ["gradient_options.lin_solver";
                             "gradient_options.maxiter"; "atol"; "rtol";
                             "max_iteration"])
               <$> OpenMDAO.get_driver seg "driver"
               = Some [Some (VStr "linear_gs"); Some (VInt 1); None; None;
                       None]).
  { configured H. reflexivity. }
  assert (G2 : (fun d0 => size (OpenMDAO.settings d0))
               <$> OpenMDAO.get_driver seg "driver" = Some 3).
  { configured H. reflexivity. }
  assert (G3 : (fun d => map (fun k => OpenMDAO.settings d !! k)
                           ["gradient_options.lin_solver";
                            "gradient_options.maxiter";
                            "gradient_options.atol";
                            "gradient_options.rtol"])
               <$> OpenMDAO.get_driver seg "coupled_solver"
               = Some [Some (VStr "petsc_ksp"); Some (VInt 50);
                       Some (VFloat 1e-20); Some (VFloat 1e-20)]).
  { configured H. reflexivity. }
  assert (G4 : (fun d => size (OpenMDAO.settings d))
               <$> OpenMDAO.get_driver seg "coupled_solver" = Some 9).
  { configured H. reflexivity. }
  destruct (OpenMDAO.get_driver seg "driver") as [d0 |]; [| discriminate].
  destruct (OpenMDAO.get_driver seg "coupled_solver") as [d |];
    [| discriminate].
  exists d0, d. split; [reflexivity |]. split; [reflexivity |].
  split; [exact (Some_inj _ _ G1) |]. split; [exact (Some_inj _ _ G3) |].
  split; [exact (Some_inj _ _ G2) | exact (Some_inj _ _ G4)].
Qed.

Lemma linear_solver_settings_witness :
  exists d,
    OpenMDAO.get_driver (Example.assembled Example.args) "coupled_solver"
    = Some d /\
    OpenMDAO.settings d !! "gradient_options.lin_solver"
    = Some (VStr "petsc_ksp").
Proof.
  destruct (linear_solver_settings Example.execfile Example.args _
              example_assembled) as (d0 & d & _ & Hd & _ & Hs & _).
  exists d. split; [exact Hd |]. now injection Hs.
Defined.
